(** * The Conversational Concierge: a shallow embedding of its adapters,
      router and HTTP handlers

    The Python sources embedded here are [src/web_search.py],
    [src/weather.py], [src/agent.py], [src/api.py] and [src/app.py].

    Conventions.
    - A Python call that may raise is a value of [result]: [Normal v] for a
      returned value, [Raise e] for a raised exception.
    - Code that reads the clock, talks to the network or mutates a cache is
      a function in the monad [M C], state passing over a cache with
      entries of type [C], the count of clock readings and the log of
      requests; the state survives a raised exception, as in Python.
    - Library code (requests, datetime, BeautifulSoup, the LLM chain) is
      not part of the repository: what it answers is taken from an oracle,
      and every call to it is logged, so that "no new upstream request" is
      a statement about the log. *)

From Stdlib Require Import ZArith QArith Qround Ascii String.
From stdpp Require Import gmap strings list pretty.

Local Open Scope string_scope.
Local Open Scope Z_scope.

(* ===================================================================== *)
(** * Python values, exceptions, results *)
(* ===================================================================== *)

Module Py.

(** The exception classes the sources name in [except] clauses or that
    their expressions can raise.  [RequestException] stands for
    [requests.exceptions.RequestException] and its subclasses,
    [OtherException] for any further subclass of [Exception]. *)
Inductive exc_class :=
| RequestException | KeyError | IndexError | TypeError | AttributeError
| ValueError | OverflowError | NameError | OtherException.

#[global] Instance exc_class_eq_dec : EqDecision exc_class.
Proof. solve_decision. Defined.

(** A raised exception: FastAPI's [HTTPException] with its two fields, or
    an instance of another subclass of [Exception] with the text [str(e)]
    gives. *)
Inductive PyExc :=
| HTTPException (status_code : Z) (detail : string)
| Exc (cls : exc_class) (msg : string).

(** [str(e)]; an [HTTPException] prints as Starlette does. *)
Definition str_exc (e : PyExc) : string :=
  match e with
  | HTTPException sc d => pretty sc +:+ ": " +:+ d
  | Exc _ m => m
  end.

(** [isinstance(e, cls)] for the classes above. *)
Definition isinstance (e : PyExc) (c : exc_class) : bool :=
  match e with
  | HTTPException _ _ => false
  | Exc c' _ => bool_decide (c' = c)
  end.

Inductive result (A : Type) :=
| Normal (a : A)
| Raise (e : PyExc).
Arguments Normal {A} a.
Arguments Raise {A} e.

Definition rbind {A B} (r : result A) (k : A -> result B) : result B :=
  match r with
  | Normal a => k a
  | Raise e => Raise e
  end.

(** [try: r  except Exception as e: h e] *)
Definition try_except {A} (r : result A) (h : PyExc -> result A) : result A :=
  match r with
  | Normal a => Normal a
  | Raise e => h e
  end.

(** Finite binary floats are rationals; the three other floats are kept
    apart because [round] raises on them. *)
Inductive pyfloat :=
| Finite (q : Q)
| NaN
| PosInf
| NegInf.

(** The values [json()] can return, which are also the values the
    dictionaries of the sources hold. *)
#[warnings="-register-all"]
Inductive PyVal :=
| PNone
| PBool (b : bool)
| PInt (z : Z)
| PFloat (f : pyfloat)
| PStr (s : string)
| PList (l : list PyVal)
| PDict (d : list (string * PyVal)).

(** Truth value of a value in a condition. *)
Definition truthy (v : PyVal) : bool :=
  match v with
  | PNone => false
  | PBool b => b
  | PInt z => negb (z =? 0)
  | PFloat (Finite q) => negb (Qeq_bool q 0)
  | PFloat _ => true
  | PStr s => negb (bool_decide (s = ""))
  | PList l => match l with [] => false | _ => true end
  | PDict d => match d with [] => false | _ => true end
  end.

(** Lookup in a JSON object: the first binding of the key. *)
Fixpoint assoc (k : string) (d : list (string * PyVal)) : option PyVal :=
  match d with
  | [] => None
  | (k', v) :: d' => if bool_decide (k' = k) then Some v else assoc k d'
  end.

(** [v[k]] for a string key. *)
Definition getitem (v : PyVal) (k : string) : result PyVal :=
  match v with
  | PDict d =>
      match assoc k d with
      | Some x => Normal x
      | None => Raise (Exc KeyError ("'" +:+ k +:+ "'"))
      end
  | PList _ => Raise (Exc TypeError "list indices must be integers or slices, not str")
  | PStr _ => Raise (Exc TypeError "string indices must be integers, not 'str'")
  | _ => Raise (Exc TypeError "object is not subscriptable")
  end.

(** [v[0]]. *)
Definition getitem0 (v : PyVal) : result PyVal :=
  match v with
  | PList [] => Raise (Exc IndexError "list index out of range")
  | PList (x :: _) => Normal x
  | PDict _ => Raise (Exc KeyError "0")
  | PStr EmptyString => Raise (Exc IndexError "string index out of range")
  | PStr (String c _) => Normal (PStr (String c EmptyString))
  | _ => Raise (Exc TypeError "object is not subscriptable")
  end.

(** [v.get(k, dflt)]: only a dict has the method. *)
Definition dict_get (v : PyVal) (k : string) (dflt : PyVal) : result PyVal :=
  match v with
  | PDict d => Normal (default dflt (assoc k d))
  | _ => Raise (Exc AttributeError "object has no attribute 'get'")
  end.

(** [round(v)] with one argument: an [int], halves going to the even
    neighbour. *)
Definition round_half_even (q : Q) : Z :=
  let f := Qfloor q in
  let r := (q - inject_Z f)%Q in
  match (r ?= 1 # 2)%Q with
  | Lt => f
  | Gt => f + 1
  | Eq => if Z.even f then f else f + 1
  end.

Definition py_round (v : PyVal) : result Z :=
  match v with
  | PInt z => Normal z
  | PBool b => Normal (if b then 1 else 0)
  | PFloat (Finite q) => Normal (round_half_even q)
  | PFloat NaN => Raise (Exc ValueError "cannot convert float NaN to integer")
  | PFloat _ => Raise (Exc OverflowError "cannot convert float infinity to integer")
  | _ => Raise (Exc TypeError "type doesn't define __round__ method")
  end.

End Py.
Export Py.

Declare Scope py_scope.
Delimit Scope py_scope with py.
Notation "x <- r ;; k" := (rbind r (fun x => k))
  (at level 100, r at next level, right associativity) : py_scope.

(* ===================================================================== *)
(** * [datetime]: the naive date-times [datetime.now()] returns *)
(* ===================================================================== *)

Module Datetime.

Record datetime := mk_datetime {
  year : Z; month : Z; day : Z;
  hour : Z; minute : Z; second : Z; microsecond : Z
}.

Definition is_leap (y : Z) : bool :=
  (y mod 4 =? 0) && (negb (y mod 100 =? 0) || (y mod 400 =? 0)).

Definition days_in_month (y m : Z) : Z :=
  if m =? 2 then (if is_leap y then 29 else 28)
  else if (m =? 4) || (m =? 6) || (m =? 9) || (m =? 11) then 30
  else 31.

(** The ranges the [datetime] constructor enforces. *)
Definition valid (t : datetime) : bool :=
  (1 <=? year t) && (year t <=? 9999) &&
  (1 <=? month t) && (month t <=? 12) &&
  (1 <=? day t) && (day t <=? days_in_month (year t) (month t)) &&
  (0 <=? hour t) && (hour t <=? 23) &&
  (0 <=? minute t) && (minute t <=? 59) &&
  (0 <=? second t) && (second t <=? 59) &&
  (0 <=? microsecond t) && (microsecond t <=? 999999).

(** ** Subtraction: [a - b] as a number of microseconds *)

Definition days_before_year (y : Z) : Z :=
  let y1 := y - 1 in y1 * 365 + y1 / 4 - y1 / 100 + y1 / 400.

Fixpoint days_before_month_go (y : Z) (m : nat) : Z :=
  match m with
  | O => 0
  | S m' => days_before_month_go y m' + days_in_month y (Z.of_nat m)
  end.

Definition days_before_month (y m : Z) : Z :=
  days_before_month_go y (Z.to_nat (m - 1)).

Definition toordinal (t : datetime) : Z :=
  days_before_year (year t) + days_before_month (year t) (month t) + day t.

Definition to_microseconds (t : datetime) : Z :=
  (((toordinal t * 24 + hour t) * 60 + minute t) * 60 + second t) * 1000000
  + microsecond t.

(** [a - b], a [timedelta], as its total number of microseconds;
    [timedelta]s compare as these totals do. *)
Definition sub (a b : datetime) : Z := to_microseconds a - to_microseconds b.

Definition timedelta_minutes (n : Z) : Z := n * 60 * 1000000.
Definition timedelta_hours (n : Z) : Z := n * 3600 * 1000000.

(** ** [isoformat] *)

Definition digit_char (d : Z) : ascii :=
  ascii_of_nat (48 + Z.to_nat d).

(** ["%02d"], ["%04d"], ["%06d"] for a number within the width. *)
Definition pad2 (n : Z) (k : string) : string :=
  String (digit_char (n / 10)) (String (digit_char (n mod 10)) k).
Definition pad4 (n : Z) (k : string) : string :=
  pad2 (n / 100) (pad2 (n mod 100) k).
Definition pad6 (n : Z) (k : string) : string :=
  pad2 (n / 10000) (pad4 (n mod 10000) k).

(** [t.isoformat()]: [YYYY-MM-DDTHH:MM:SS], then [.ffffff] when the
    microsecond is not zero. *)
Definition isoformat (t : datetime) : string :=
  pad4 (year t) (String "-" (pad2 (month t) (String "-" (pad2 (day t)
    (String "T" (pad2 (hour t) (String ":" (pad2 (minute t) (String ":"
      (pad2 (second t)
         (if microsecond t =? 0 then "" else String "." (pad6 (microsecond t) "")))))))))))).

(** ** [fromisoformat] *)

Definition digit_val (c : ascii) : option Z :=
  let n := nat_of_ascii c in
  if (48 <=? n)%nat && (n <=? 57)%nat then Some (Z.of_nat n - 48) else None.

(** The value of a string of decimal digits, most significant first. *)
Fixpoint digits_val (acc : Z) (s : string) : option Z :=
  match s with
  | EmptyString => Some acc
  | String c s' =>
      match digit_val c with
      | Some d => digits_val (10 * acc + d) s'
      | None => None
      end
  end.

Definition invalid_iso (s : string) : PyExc :=
  Exc ValueError ("Invalid isoformat string: '" +:+ s +:+ "'").

(** Two digits at the head of a string, and the rest. *)
Definition take2 (s : string) : option (Z * string) :=
  match s with
  | String a (String b r) =>
      match digit_val a, digit_val b with
      | Some x, Some y => Some (10 * x + y, r)
      | _, _ => None
      end
  | _ => None
  end.

(** The fraction after the point: three or six digits, as microseconds. *)
Definition parse_fraction (s : string) : option Z :=
  match String.length s with
  | 3%nat => z ← digits_val 0 s; Some (z * 1000)
  | 6%nat => digits_val 0 s
  | _ => None
  end.

(** [HH[:MM[:SS[.fff[fff]]]]] *)
Definition parse_time (s : string) : option (Z * Z * Z * Z) :=
  match take2 s with
  | None => None
  | Some (hh, r1) =>
      match r1 with
      | EmptyString => Some (hh, 0, 0, 0)
      | String ":" r1' =>
          match take2 r1' with
          | None => None
          | Some (mm, r2) =>
              match r2 with
              | EmptyString => Some (hh, mm, 0, 0)
              | String ":" r2' =>
                  match take2 r2' with
                  | None => None
                  | Some (ss, r3) =>
                      match r3 with
                      | EmptyString => Some (hh, mm, ss, 0)
                      | String "." f => us ← parse_fraction f; Some (hh, mm, ss, us)
                      | _ => None
                      end
                  end
              | _ => None
              end
          end
      | _ => None
      end
  end.

(** [YYYY-MM-DD] and what follows it. *)
Definition parse_date (s : string) : option (Z * Z * Z * string) :=
  match s with
  | String y1 (String y2 (String y3 (String y4 (String "-" r)))) =>
      match digits_val 0 (String y1 (String y2 (String y3 (String y4 ""))))  with
      | None => None
      | Some y =>
          match take2 r with
          | Some (m, String "-" r') =>
              match take2 r' with
              | Some (d, rest) => Some (y, m, d, rest)
              | None => None
              end
          | _ => None
          end
      end
  | _ => None
  end.

(** [datetime.fromisoformat(s)]: the date, any one separator character,
    the time; the fields then go through the constructor's range checks. *)
Definition fromisoformat (s : string) : result datetime :=
  match parse_date s with
  | None => Raise (invalid_iso s)
  | Some (y, m, d, rest) =>
      let time :=
        match rest with
        | EmptyString => Some (0, 0, 0, 0)
        | String _ t => parse_time t
        end in
      match time with
      | None => Raise (invalid_iso s)
      | Some (hh, mm, ss, us) =>
          let t := mk_datetime y m d hh mm ss us in
          if valid t then Normal t
          else Raise (Exc ValueError "field out of range")
      end
  end.

End Datetime.

(* ===================================================================== *)
(** * The outside world: clock, network, libraries *)
(* ===================================================================== *)

Module Effects.
Import Datetime.

(** A call of [requests.get] or [requests.head]. *)
Inductive Request :=
| Get (url : string) (params : list (string * string))
| Head (url : string).

(** What the sources read of a [requests.Response]. *)
Record Response := mk_Response {
  resp_status : Z;
  resp_json : result PyVal;       (* [response.json()] *)
  resp_text : string;             (* [response.text] *)
  resp_url : string               (* [response.url], after redirects *)
}.

(** One [.result] element of the scraped page: the text of its
    [.result__a], the text of its [.result__snippet], and for its
    [.result__url] whether it has an [href]. *)
Record ResultElem := mk_ResultElem {
  title_elem : option string;
  snippet_elem : option string;
  url_elem : option (option string)
}.

(** The answers of everything outside the repository.  [clock n] is the
    n-th reading of [datetime.now()] since the process started, [net n r]
    the answer to request [r] when it is the n-th request sent. *)
Record World := mk_World {
  clock : nat -> datetime;
  net : nat -> Request -> result Response;
  soup_results : string -> list ResultElem;   (* BeautifulSoup(text).select('.result') *)
  py_str : PyVal -> string;                   (* [str(v)] in an f-string *)
  round1 : PyVal -> result PyVal;             (* [round(v, 1)] *)
  capitalize : string -> string;              (* [s.capitalize()] *)
  strftime_HM : PyVal -> result string        (* [datetime.fromtimestamp(v).strftime("%H:%M")] *)
}.

(** The mutable part: a service's cache, the number of clock readings
    taken and the requests sent so far. *)
Record St (C : Type) := mk_St {
  cache : gmap string C;
  ticks : nat;
  sent : list Request
}.
Arguments mk_St {C} _ _ _.
Arguments cache {C} _.
Arguments ticks {C} _.
Arguments sent {C} _.

Definition M (C A : Type) : Type := St C -> result A * St C.

Definition ret {C A} (a : A) : M C A := fun s => (Normal a, s).
Definition raise {C A} (e : PyExc) : M C A := fun s => (Raise e, s).
Definition bind {C A B} (m : M C A) (k : A -> M C B) : M C B :=
  fun s => match m s with
           | (Normal a, s') => k a s'
           | (Raise e, s') => (Raise e, s')
           end.
Definition lift {C A} (r : result A) : M C A := fun s => (r, s).

(** [try: m  except Exception as e: h e]; what [m] did to the state
    before raising stays done. *)
Definition try_catch {C A} (m : M C A) (h : PyExc -> M C A) : M C A :=
  fun s => match m s with
           | (Normal a, s') => (Normal a, s')
           | (Raise e, s') => h e s'
           end.

(** [datetime.now()] *)
Definition now {C} (w : World) : M C datetime :=
  fun s => (Normal (clock w (ticks s)), mk_St (cache s) (S (ticks s)) (sent s)).

(** [requests.get(...)] / [requests.head(...)] *)
Definition send {C} (w : World) (r : Request) : M C Response :=
  fun s => (net w (length (sent s)) r, mk_St (cache s) (ticks s) (sent s ++ [r])).

(** [self.cache.get(key)], written [key in self.cache] then
    [self.cache[key]] in the sources. *)
Definition cache_get {C} (key : string) : M C (option C) :=
  fun s => (Normal (cache s !! key), s).

(** [self.cache[key] = entry] *)
Definition cache_set {C} (key : string) (entry : C) : M C unit :=
  fun s => (Normal tt, mk_St (<[key := entry]> (cache s)) (ticks s) (sent s)).

(** [response.raise_for_status()] *)
Definition raise_for_status (r : Response) : result unit :=
  if (400 <=? resp_status r) && (resp_status r <? 600)
  then Raise (Exc RequestException (pretty (resp_status r) +:+ " Error for url: " +:+ resp_url r))
  else Normal tt.

(** A list comprehension or [for] loop whose body has effects. *)
Fixpoint mapM {C A B} (f : A -> M C B) (l : list A) : M C (list B) :=
  match l with
  | [] => ret []
  | x :: l' => bind (f x) (fun y => bind (mapM f l') (fun ys => ret (y :: ys)))
  end.

(** The same for a body that only may raise. *)
Fixpoint mapR {A B} (f : A -> result B) (l : list A) : result (list B) :=
  match l with
  | [] => Normal []
  | x :: l' => rbind (f x) (fun y => rbind (mapR f l') (fun ys => Normal (y :: ys)))
  end.

(** Truth value of an optional string such as [self.api_key]. *)
Definition truthy_str (o : option string) : bool :=
  match o with
  | Some s => negb (bool_decide (s = ""))
  | None => false
  end.

End Effects.

Declare Scope m_scope.
Delimit Scope m_scope with m.
Notation "x <~ m ;; k" := (Effects.bind m (fun x => k))
  (at level 100, m at next level, right associativity) : m_scope.
Notation "m ;;; k" := (Effects.bind m (fun _ => k))
  (at level 100, right associativity) : m_scope.

(* ===================================================================== *)
(** * [src/web_search.py] *)
(* ===================================================================== *)

Module WebSearch.
Import Datetime Effects.
Local Open Scope m_scope.

(** [@dataclass class SearchResult].  The four text fields hold whatever
    the caller passed (the API path passes JSON values through). *)
Record SearchResult := mk_SearchResult {
  title : PyVal;
  url : PyVal;
  snippet : PyVal;
  source : PyVal;
  timestamp : option datetime
}.

(** [SearchResult.to_dict]; a [datetime] is always true in a condition. *)
Definition to_dict (self : SearchResult) : gmap string PyVal :=
  <["title" := title self]>
  (<["url" := url self]>
  (<["snippet" := snippet self]>
  (<["source" := source self]>
  (<["timestamp" := match timestamp self with
                    | Some t => PStr (isoformat t)
                    | None => PNone
                    end]> ∅)))).

(** [SearchResult.from_dict] *)
Definition from_dict (data : gmap string PyVal) : result SearchResult :=
  let get k dflt := default dflt (data !! k) in
  rbind
    (if truthy (get "timestamp" PNone) then
       match data !! "timestamp" with
       | Some (PStr s) => rbind (fromisoformat s) (fun t => Normal (Some t))
       | Some _ => Raise (Exc TypeError "fromisoformat: argument must be str")
       | None => Raise (Exc KeyError "'timestamp'")
       end
     else Normal None)
    (fun ts =>
       Normal (mk_SearchResult (get "title" (PStr "")) (get "url" (PStr ""))
                 (get "snippet" (PStr "")) (get "source" (PStr "web")) ts)).

(** An entry [search] writes into [self.cache]. *)
Record CacheEntry := mk_CacheEntry {
  entry_results : list (gmap string PyVal);
  entry_timestamp : datetime
}.

(** The fields [__init__] sets that never change afterwards. *)
Record WebSearcher := mk_WebSearcher {
  api_key : option string;
  search_engine_id : option string
}.

Definition cache_duration : Z := timedelta_hours 24.

(** [l[:n]] *)
Definition slice_to {A} (n : Z) (l : list A) : list A :=
  if 0 <=? n then take (Z.to_nat n) l
  else take (Z.to_nat (Z.of_nat (length l) + n)) l.

(** [v[:n]] made a list to loop over. *)
Definition slice_items (v : PyVal) (n : Z) : result (list PyVal) :=
  match v with
  | PList l => Normal (slice_to n l)
  | PStr s =>
      Normal ((fun c => PStr (String c EmptyString)) <$> slice_to n (list_ascii_of_string s))
  | PDict _ => Raise (Exc TypeError "unhashable type: 'slice'")
  | _ => Raise (Exc TypeError "object is not subscriptable")
  end.

Definition api_request (self : WebSearcher) (query : string) (num_results : Z) : Request :=
  Get "https://www.googleapis.com/customsearch/v1"
    [("key", default "" (api_key self));
     ("cx", default "" (search_engine_id self));
     ("q", query);
     ("num", pretty (Z.min num_results 10))].

(** The body of the [for item in ...] loop of [_search_with_api]. *)
Definition api_item (w : World) (item : PyVal) : M CacheEntry SearchResult :=
  t <~ lift (dict_get item "title" (PStr ""));;
  u <~ lift (dict_get item "link" (PStr ""));;
  s <~ lift (dict_get item "snippet" (PStr ""));;
  ts <~ now w;;
  ret (mk_SearchResult t u s (PStr "google") (Some ts)).

Definition _search_with_api (w : World) (self : WebSearcher)
    (query : string) (num_results : Z) : M CacheEntry (list SearchResult) :=
  try_catch
    (response <~ send w (api_request self query num_results);;
     lift (raise_for_status response);;;
     data <~ lift (resp_json response);;
     items <~ lift (rbind (dict_get data "items" (PList []))
                          (fun v => slice_items v num_results));;
     mapM (api_item w) items)
    (fun e => raise (Exc OtherException ("Search API error: " +:+ str_exc e))).

(** [query.replace(' ', '+')] *)
Fixpoint replace_spaces (s : string) : string :=
  match s with
  | EmptyString => EmptyString
  | String c s' => String (if Ascii.eqb c " " then "+"%char else c) (replace_spaces s')
  end.

Definition scrape_request (query : string) : Request :=
  Get ("https://html.duckduckgo.com/html/?q=" +:+ replace_spaces query) [].

(** "Clean the URL". *)
Definition clean_url (u : string) : string :=
  if String.prefix "//" u then "https:" +:+ u
  else if String.prefix "/" u then "https://duckduckgo.com" +:+ u
  else u.

(** The [for result in result_elements[:num_results]] loop of
    [_search_with_scraping]; an element without title or URL element is
    skipped. *)
Fixpoint scrape_loop (w : World) (elems : list ResultElem)
    : M CacheEntry (list SearchResult) :=
  match elems with
  | [] => ret []
  | el :: rest =>
      match title_elem el, url_elem el with
      | Some title_text, Some href =>
          let u := clean_url (default "" href) in
          final_url <~ try_catch (response <~ send w (Head u);; ret (resp_url response))
                                 (fun _ => ret u);;
          let snip := default "" (snippet_elem el) in
          ts <~ now w;;
          more <~ scrape_loop w rest;;
          ret (mk_SearchResult (PStr title_text) (PStr final_url) (PStr snip)
                 (PStr "duckduckgo") (Some ts) :: more)
      | _, _ => scrape_loop w rest
      end
  end.

Definition _search_with_scraping (w : World) (self : WebSearcher)
    (query : string) (num_results : Z) : M CacheEntry (list SearchResult) :=
  try_catch
    (response <~ send w (scrape_request query);;
     lift (raise_for_status response);;;
     scrape_loop w (slice_to num_results (soup_results w (resp_text response))))
    (fun e => raise (Exc OtherException ("Web search failed: " +:+ str_exc e))).

Definition cache_key (query : string) (num_results : Z) : string :=
  "search_" +:+ query +:+ "_" +:+ pretty num_results.

(** "Check cache first": the cached dictionaries when the entry is
    younger than [cache_duration]. *)
Definition cached_results (w : World) (key : string)
    : M CacheEntry (option (list (gmap string PyVal))) :=
  c <~ cache_get key;;
  match c with
  | Some cached_data =>
      t <~ now w;;
      ret (if sub t (entry_timestamp cached_data) <? cache_duration
           then Some (entry_results cached_data) else None)
  | None => ret None
  end.

(** The body of the [try] of [search]: the search by API or scraping,
    then "Cache the results". *)
Definition search_primary (w : World) (self : WebSearcher)
    (query : string) (num_results : Z) (use_api : bool)
    : M CacheEntry (list SearchResult) :=
  results <~ (if use_api && truthy_str (api_key self) && truthy_str (search_engine_id self)
              then _search_with_api w self query num_results
              else _search_with_scraping w self query num_results);;
  t <~ now w;;
  cache_set (cache_key query num_results)
            (mk_CacheEntry (to_dict <$> results) t);;;
  ret results.

(** [WebSearcher.search] *)
Definition search (w : World) (self : WebSearcher)
    (query : string) (num_results : Z) (use_api : bool)
    : M CacheEntry (list SearchResult) :=
  hit <~ cached_results w (cache_key query num_results);;
  match hit with
  | Some dicts => lift (mapR from_dict dicts)
  | None =>
      try_catch (search_primary w self query num_results use_api)
        (fun e => if use_api then _search_with_scraping w self query num_results
                  else raise e)
  end.

End WebSearch.

(* ===================================================================== *)
(** * [src/weather.py] *)
(* ===================================================================== *)

Module Weather.
Import Datetime Effects.
Local Open Scope m_scope.

(** The dictionary literal [weather_info] of [get_weather]; its ten keys
    are fixed, so it is a record.  [temperature] and [feels_like] are what
    [round] with one argument returns, an [int]. *)
Record WeatherInfo := mk_WeatherInfo {
  location : string;
  temperature : Z;
  feels_like : Z;
  humidity : PyVal;
  wind_speed : PyVal;
  description : string;
  icon : PyVal;
  sunrise : string;
  sunset : string;
  timestamp : datetime
}.

(** What [get_weather] returns: [{"error": msg}] or a [weather_info].
    The test ["error" in weather] is the test of the constructor. *)
Inductive Payload :=
| ErrorPayload (msg : string)
| Info (weather_info : WeatherInfo).

Definition has_error (p : Payload) : bool :=
  match p with
  | ErrorPayload _ => true
  | Info _ => false
  end.

(** An entry of [self.cache]: [{"data": ..., "timestamp": ...}]. *)
Record CacheEntry := mk_CacheEntry {
  entry_data : Payload;
  entry_timestamp : datetime
}.

Record WeatherService := mk_WeatherService {
  api_key : option string
}.

Definition base_url : string := "http://api.openweathermap.org/data/2.5/weather".
Definition cache_duration : Z := timedelta_minutes 30.

Definition cache_key (location : string) : string := "weather_" +:+ location.

Definition weather_request (self : WeatherService) (location : string) : Request :=
  Get base_url [("q", location); ("appid", default "" (api_key self)); ("units", "imperial")].

(** [v.capitalize()]: a method of [str] only. *)
Definition py_capitalize (w : World) (v : PyVal) : result string :=
  match v with
  | PStr s => Normal (capitalize w s)
  | _ => Raise (Exc AttributeError "object has no attribute 'capitalize'")
  end.

(** "Format the response": the items of the literal, evaluated in the
    order they are written. *)
Definition format_weather (w : World) (data : PyVal) : M CacheEntry WeatherInfo :=
  name <~ lift (dict_get data "name" (PStr "Unknown"));;
  sys_ <~ lift (dict_get data "sys" (PDict []));;
  country <~ lift (dict_get sys_ "country" (PStr ""));;
  let loc := py_str w name +:+ ", " +:+ py_str w country in
  temp <~ lift (m <- getitem data "main";; t <- getitem m "temp";; py_round t)%py;;
  feels <~ lift (m <- getitem data "main";; t <- getitem m "feels_like";; py_round t)%py;;
  hum <~ lift (m <- getitem data "main";; getitem m "humidity")%py;;
  wind <~ lift (m <- getitem data "wind";; s <- getitem m "speed";; round1 w s)%py;;
  desc <~ lift (l <- getitem data "weather";; x <- getitem0 l;;
                d <- getitem x "description";; py_capitalize w d)%py;;
  ico <~ lift (l <- getitem data "weather";; x <- getitem0 l;; getitem x "icon")%py;;
  rise <~ lift (m <- getitem data "sys";; s <- getitem m "sunrise";; strftime_HM w s)%py;;
  set <~ lift (m <- getitem data "sys";; s <- getitem m "sunset";; strftime_HM w s)%py;;
  ts <~ now w;;
  ret (mk_WeatherInfo loc temp feels hum wind desc ico rise set ts).

(** "Check cache first". *)
Definition cached_weather (w : World) (key : string) : M CacheEntry (option Payload) :=
  c <~ cache_get key;;
  match c with
  | Some cached_data =>
      t <~ now w;;
      ret (if sub t (entry_timestamp cached_data) <? cache_duration
           then Some (entry_data cached_data) else None)
  | None => ret None
  end.

(** The body of the [try] of [get_weather]. *)
Definition fetch_weather (w : World) (self : WeatherService) (location : string)
    : M CacheEntry Payload :=
  response <~ send w (weather_request self location);;
  lift (raise_for_status response);;;
  data <~ lift (resp_json response);;
  weather_info <~ format_weather w data;;
  t <~ now w;;
  cache_set (cache_key location) (mk_CacheEntry (Info weather_info) t);;;
  ret (Info weather_info).

(** The two [except] clauses of [get_weather]; any other exception
    leaves the function. *)
Definition weather_handler (e : PyExc) : M CacheEntry Payload :=
  if isinstance e RequestException then
    ret (ErrorPayload ("Failed to fetch weather data: " +:+ str_exc e))
  else if isinstance e KeyError || isinstance e IndexError then
    ret (ErrorPayload "Failed to parse weather data. The API response format may have changed.")
  else raise e.

(** [WeatherService.get_weather] *)
Definition get_weather (w : World) (self : WeatherService) (location : string)
    : M CacheEntry Payload :=
  if negb (truthy_str (api_key self)) then
    ret (ErrorPayload "Weather service is not properly configured. Missing API key.")
  else
    hit <~ cached_weather w (cache_key location);;
    match hit with
    | Some data => ret data
    | None => try_catch (fetch_weather w self location) weather_handler
    end.

Definition advice_warm : string :=
  " It's quite warm - a chilled white or rosé wine would be refreshing!".
Definition advice_chilly : string :=
  " It's a bit chilly - perfect for a bold red wine to warm you up!".
Definition advice_pleasant : string :=
  " The weather is pleasant - a nice medium-bodied wine would be perfect!".

(** The body of the [try] of [get_weather_summary].  Every key it reads is
    a field of the record, so its [except KeyError] has nothing to catch. *)
Definition summary_text (w : World) (weather : WeatherInfo) : string :=
  let summary :=
    "Current weather in " +:+ location weather +:+ ": " +:+ description weather +:+ " "
    +:+ "with a temperature of " +:+ pretty (temperature weather) +:+ "°F "
    +:+ "(feels like " +:+ pretty (feels_like weather) +:+ "°F). "
    +:+ "Humidity is at " +:+ py_str w (humidity weather) +:+ "% and wind speed is "
    +:+ py_str w (wind_speed weather) +:+ " mph. "
    +:+ "Sunrise was at " +:+ sunrise weather +:+ " and sunset will be at "
    +:+ sunset weather +:+ "." in
  let temp := temperature weather in
  if 80 <? temp then summary +:+ advice_warm
  else if temp <? 50 then summary +:+ advice_chilly
  else summary +:+ advice_pleasant.

(** [WeatherService.get_weather_summary] *)
Definition get_weather_summary (w : World) (self : WeatherService) (location : string)
    : M CacheEntry string :=
  weather <~ get_weather w self location;;
  match weather with
  | ErrorPayload msg =>
      ret ("I couldn't retrieve the weather information. " +:+ msg)
  | Info weather_info => ret (summary_text w weather_info)
  end.

End Weather.

(* ===================================================================== *)
(** * [src/agent.py]: the routing step *)
(* ===================================================================== *)

Module Agent.

Inductive MessageType := human | ai | system.

Record Message := mk_Message {
  type : MessageType;
  content : string
}.

Record AgentState := mk_AgentState {
  messages : list Message;
  context : string;
  current_tool : option string;
  tool_result : option string
}.

Inductive ToolType := DOCUMENT_RETRIEVAL | WEB_SEARCH | WEATHER | RESPOND.

Record ToolSelection := mk_ToolSelection {
  tool : ToolType;
  tool_input : string
}.

(** What [chain.invoke] hands back: the parsed JSON value, or an object of
    the [ToolSelection] model. *)
Inductive ChainOutput :=
| Parsed (v : PyVal)
| Model (selection : ToolSelection).

(** [tool_selection.tool], read by the [logger.info] line. *)
Definition tool_attr (o : ChainOutput) : result ToolType :=
  match o with
  | Model sel => Normal (tool sel)
  | Parsed _ => Raise (Exc AttributeError "'dict' object has no attribute 'tool'")
  end.

(** [l[-1]] *)
Definition last_item {A} (l : list A) : result A :=
  match last l with
  | Some x => Normal x
  | None => Raise (Exc IndexError "list index out of range")
  end.

(** [state["messages"][-1].content if state["messages"] else ""] *)
Definition user_message (state : AgentState) : result string :=
  match messages state with
  | [] => Normal ""
  | _ :: _ => rbind (last_item (messages state)) (fun m => Normal (content m))
  end.

(** [WineConciergeAgent._route].  [chain_invoke] answers for
    [prompt | self.llm | JsonOutputParser(...)], the LLM call followed by
    the JSON parsing; the second component lists the inputs the chain was
    invoked with. *)
Definition _route (chain_invoke : string -> result ChainOutput) (state : AgentState)
    : result ChainOutput * list string :=
  match user_message state with
  | Raise e => (Raise e, [])
  | Normal input =>
      (try_except
         (tool_selection <- chain_invoke input;;
          _ <- tool_attr tool_selection;;
          Normal tool_selection)%py
         (fun _ => Normal (Model (mk_ToolSelection RESPOND ""))),
       [input])
  end.

End Agent.

(* ===================================================================== *)
(** * [src/api.py]: routes and exception handlers *)
(* ===================================================================== *)

Module Api.

Record Message := mk_Message {
  role : string;
  content : string
}.

Record ChatRequest := mk_ChatRequest {
  messages : list Message;
  location : option string
}.

Record JSONResponse := mk_JSONResponse {
  status_code : Z;
  response_content : PyVal
}.

(** The services the routes call, as the answers they give. *)
Record Services := mk_Services {
  template_response : result string;
  process_message : string -> list (string * string) -> result PyVal;
  get_weather_summary : string -> result string;
  load_documents : result (list PyVal);
  create_vector_store : result unit;
  save_vector_store : result unit;
  search : string -> Z -> result (list WebSearch.SearchResult)
}.

(** [except Exception as e: raise HTTPException(status_code=500, detail=str(e))] *)
Definition reraise_500 {A} (e : PyExc) : result A :=
  Raise (HTTPException 500 (str_exc e)).

(** [read_root]: no [try]. *)
Definition read_root (sv : Services) : result PyVal :=
  (html <- template_response sv;; Normal (PStr html))%py.

Definition chat_body (sv : Services) (chat_request : ChatRequest) : result PyVal :=
  let conversation_history :=
    (fun msg => (role msg, content msg)) <$> removelast (messages chat_request) in
  (last_msg <- Agent.last_item (messages chat_request);;
   process_message sv (content last_msg) conversation_history)%py.

Definition chat (sv : Services) (chat_request : ChatRequest) : result PyVal :=
  try_except (chat_body sv chat_request) reraise_500.

Definition get_weather_body (sv : Services) (location : string) : result PyVal :=
  (weather_info <- get_weather_summary sv location;;
   Normal (PDict [("weather", PStr weather_info)]))%py.

Definition get_weather (sv : Services) (location : string) : result PyVal :=
  try_except (get_weather_body sv location) reraise_500.

Definition upload_documents_body (sv : Services) : result PyVal :=
  (documents <- load_documents sv;;
   match documents with
   | _ :: _ =>
       _ <- create_vector_store sv;;
       _ <- save_vector_store sv;;
       Normal (PDict [("message", PStr ("Successfully processed "
                                        +:+ pretty (length documents) +:+ " documents"));
                      ("document_count", PInt (Z.of_nat (length documents)))])
   | [] =>
       Normal (PDict [("message", PStr "No documents found in the data directory");
                      ("document_count", PInt 0)])
   end)%py.

Definition upload_documents (sv : Services) : result PyVal :=
  try_except (upload_documents_body sv) reraise_500.

Definition search_web_body (sv : Services) (query : string) (num_results : Z)
    : result PyVal :=
  (results <- search sv query num_results;;
   Normal (PDict [("results",
     PList ((fun r => PDict [("title", WebSearch.title r); ("url", WebSearch.url r);
                             ("snippet", WebSearch.snippet r)]) <$> results))]))%py.

Definition search_web (sv : Services) (query : string) (num_results : Z) : result PyVal :=
  try_except (search_web_body sv query num_results) reraise_500.

(** [health_check]: no [try], nothing that raises. *)
Definition health_check : result PyVal :=
  Normal (PDict [("status", PStr "ok"); ("service", PStr "wine-concierge");
                 ("version", PStr "1.0.0")]).

(** [@app.exception_handler(HTTPException)] *)
Definition http_exception_handler (exc_status : Z) (exc_detail : string) : JSONResponse :=
  mk_JSONResponse exc_status (PDict [("detail", PStr exc_detail)]).

(** [@app.exception_handler(Exception)] *)
Definition global_exception_handler (exc : PyExc) : JSONResponse :=
  mk_JSONResponse 500 (PDict [("detail", PStr "An unexpected error occurred")]).

(** What the framework sends for the outcome of a route function. *)
Definition respond (outcome : result PyVal) : JSONResponse :=
  match outcome with
  | Normal v => mk_JSONResponse 200 v
  | Raise (HTTPException sc d) => http_exception_handler sc d
  | Raise e => global_exception_handler e
  end.

(** A request, by the route it reaches and the arguments it carries. *)
Inductive Endpoint :=
| GET_root
| POST_api_chat (chat_request : ChatRequest)
| GET_api_weather (location : string)
| POST_api_documents_upload
| GET_api_search (query : string) (num_results : Z)
| GET_api_health.

(** The statements of the route function, without the [try] around them
    when it has one. *)
Definition route_body (sv : Services) (ep : Endpoint) : result PyVal :=
  match ep with
  | GET_root => read_root sv
  | POST_api_chat r => chat_body sv r
  | GET_api_weather l => get_weather_body sv l
  | POST_api_documents_upload => upload_documents_body sv
  | GET_api_search q n => search_web_body sv q n
  | GET_api_health => health_check
  end.

(** Whether the route function puts its statements in a [try]. *)
Definition in_try (ep : Endpoint) : bool :=
  match ep with
  | GET_root | GET_api_health => false
  | _ => true
  end.

Definition route (sv : Services) (ep : Endpoint) : result PyVal :=
  match ep with
  | GET_root => read_root sv
  | POST_api_chat r => chat sv r
  | GET_api_weather l => get_weather sv l
  | POST_api_documents_upload => upload_documents sv
  | GET_api_search q n => search_web sv q n
  | GET_api_health => health_check
  end.

(** The response to a request. *)
Definition handle (sv : Services) (ep : Endpoint) : JSONResponse :=
  respond (route sv ep).

Definition generic_500 : JSONResponse :=
  mk_JSONResponse 500 (PDict [("detail", PStr "An unexpected error occurred")]).

End Api.

(* ===================================================================== *)
(** * [src/app.py]: the local variant's recommendation route *)
(* ===================================================================== *)

Module App.

Record WineRecommendationRequest := mk_WineRecommendationRequest {
  query : string;
  max_results : option Z
}.

(** What the route calls outside the repository. *)
Record Env := mk_Env {
  search_text : string -> option Z -> result (list PyVal);   (* [search_client.text] *)
  llm_generate : string -> result string;                    (* [llm.generate] *)
  str_format : string -> list (string * string) -> result string;   (* [str.format] *)
  str_strip : string -> string                               (* [str.strip] *)
}.

(** The names bound at the top level of [app.py] when a request arrives. *)
Definition module_globals : list string :=
  ["FastAPI"; "HTTPException"; "Depends"; "Request"; "CORSMiddleware"; "StaticFiles";
   "Jinja2Templates"; "HTMLResponse"; "FileResponse"; "BaseModel"; "Optional"; "List";
   "Dict"; "Any"; "logging"; "os"; "Path"; "settings"; "logger"; "BASE_DIR"; "app";
   "templates"; "WineRecommendationRequest"; "WineRecommendationResponse"; "get_llm";
   "get_search_client"; "llm"; "search_client"; "root"; "static_file"; "recommend_wine";
   "health_check"; "uvicorn"].

(** An expression inside the braces of an f-string. *)
Inductive expr :=
| Name (id : string)
| Attr (e : expr) (attribute : string).

Inductive fragment :=
| Lit (text : string)
| Field (e : expr).

(** Name lookup: the function's locals, then the module's globals (whose
    values no prompt prints; a stand-in is returned), else [NameError].
    No builtin is called [search_context]. *)
Definition lookup_name (locals : list (string * PyVal)) (id : string) : result PyVal :=
  match assoc id locals with
  | Some v => Normal v
  | None =>
      if bool_decide (id ∈ module_globals) then Normal (PStr ("<" +:+ id +:+ ">"))
      else Raise (Exc NameError ("name '" +:+ id +:+ "' is not defined"))
  end.

Fixpoint eval_expr (locals : list (string * PyVal)) (e : expr) : result PyVal :=
  match e with
  | Name id => lookup_name locals id
  | Attr e' a =>
      rbind (eval_expr locals e')
        (fun v => match v with
                  | PDict d =>
                      match assoc a d with
                      | Some x => Normal x
                      | None => Raise (Exc AttributeError ("object has no attribute '" +:+ a +:+ "'"))
                      end
                  | _ => Raise (Exc AttributeError ("object has no attribute '" +:+ a +:+ "'"))
                  end)
  end.

Definition str_of (v : PyVal) : string :=
  match v with
  | PStr s => s
  | PInt z => pretty z
  | PNone => "None"
  | PBool true => "True"
  | PBool false => "False"
  | _ => "<object>"
  end.

(** An f-string: its fragments are evaluated left to right. *)
Fixpoint eval_fstring (locals : list (string * PyVal)) (fs : list fragment) : result string :=
  match fs with
  | [] => Normal ""
  | Lit s :: fs' => rbind (eval_fstring locals fs') (fun r => Normal (s +:+ r))
  | Field e :: fs' =>
      rbind (eval_expr locals e)
        (fun v => rbind (eval_fstring locals fs') (fun r => Normal (str_of v +:+ r)))
  end.

(** The f-string of "Build the prompt". *)
Definition prompt_fstring : list fragment :=
  [Lit "You are a knowledgeable wine concierge. Provide a detailed wine recommendation based on the following query and search results.
        
        Query: ";
   Field (Attr (Name "request") "query");
   Lit "
        
        Search Results:
        ";
   Field (Name "search_context");
   Lit "
        
        Please provide:
        1. Wine recommendation with details (grape, region, style)
        2. Tasting notes
        3. Food pairing suggestions
        4. Price range
        5. Any additional tips or information
        "].

(** [r["body"][:200] + "..."] *)
Definition body_snippet (v : PyVal) : result PyVal :=
  match v with
  | PStr s => Normal (PStr (String.substring 0 200 s +:+ "..."))
  | _ => Raise (Exc TypeError "unsupported operand type(s) for +")
  end.

(** One item of "Format search results". *)
Definition format_result (r : PyVal) : result PyVal :=
  (t <- getitem r "title";;
   h <- getitem r "href";;
   b <- getitem r "body";;
   s <- body_snippet b;;
   Normal (PDict [("title", t); ("url", h); ("snippet", s)]))%py.

Definition request_object (request : WineRecommendationRequest) : PyVal :=
  PDict [("query", PStr (query request));
         ("max_results", match max_results request with
                         | Some n => PInt n
                         | None => PNone
                         end)].

(** ["- {title}: {snippet}"] for one formatted result. *)
Definition context_line (r : PyVal) : result string :=
  (t <- getitem r "title";; s <- getitem r "snippet";;
   Normal ("- " +:+ str_of t +:+ ": " +:+ str_of s))%py.

Fixpoint join (sep : string) (l : list string) : string :=
  match l with
  | [] => ""
  | [x] => x
  | x :: l' => x +:+ sep +:+ join sep l'
  end.

Definition newline2 : string :=
  String (ascii_of_nat 10) (String (ascii_of_nat 10) EmptyString).

(** The [try] body of [recommend_wine], with the prompts handed to
    [llm.generate] so far. *)
Definition recommend_wine_body (env : Env) (request : WineRecommendationRequest)
    : result PyVal * list string :=
  match search_text env ("wine recommendation " +:+ query request) (max_results request) with
  | Raise e => (Raise e, [])
  | Normal search_results =>
      match Effects.mapR format_result search_results with
      | Raise e => (Raise e, [])
      | Normal formatted_results =>
          let locals := [("request", request_object request);
                         ("search_results", PList search_results);
                         ("formatted_results", PList formatted_results)] in
          match
            (template <- eval_fstring locals prompt_fstring;;
             lines <- Effects.mapR context_line formatted_results;;
             str_format env template [("search_context", join newline2 lines)])%py
          with
          | Raise e => (Raise e, [])
          | Normal prompt =>
              match llm_generate env prompt with
              | Raise e => (Raise e, [prompt])
              | Normal response =>
                  (Normal (PDict [("recommendation", PStr (str_strip env response));
                                  ("sources", PList formatted_results)]), [prompt])
              end
          end
      end
  end.

(** [recommend_wine]: the body, and its
    [except Exception as e: raise HTTPException(status_code=500, detail=str(e))]. *)
Definition recommend_wine (env : Env) (request : WineRecommendationRequest)
    : result PyVal * list string :=
  match recommend_wine_body env request with
  | (Raise e, prompts) => (Raise (HTTPException 500 (str_exc e)), prompts)
  | ok => ok
  end.

End App.

(* ===================================================================== *)
(** * The vocabulary of the properties *)
(* ===================================================================== *)

Module Props.
Import Datetime Effects.
Local Open Scope list_scope.

(** The state after one more clock reading. *)
Definition tick {C} (s : St C) : St C := mk_St (cache s) (S (ticks s)) (sent s).

(** [m] relates the state it starts in to the state it ends in by [R],
    also when it raises, and what it returns satisfies [phi]. *)
Definition inv_m {C A} (R : St C -> St C -> Prop) (phi : A -> Prop) (m : M C A) : Prop :=
  forall s, R s (snd (m s)) /\ forall a, fst (m s) = Normal a -> phi a.

(** The cache is as before and the log of requests has only grown. *)
Definition net_only {C} (s s' : St C) : Prop :=
  cache s' = cache s /\ exists l, sent s' = sent s ++ l.

(** The cache is as before and at least one request was sent. *)
Definition sends {C} (s s' : St C) : Prop :=
  cache s' = cache s /\ exists r l, sent s' = sent s ++ r :: l.

(** Cache and log are as before; only the clock was read. *)
Definition quiet {C} (s s' : St C) : Prop :=
  cache s' = cache s /\ sent s' = sent s.

(** A relation between start and end states that the rules for [inv_m]
    can carry through a computation. *)
Class Frame {C} (R : St C -> St C -> Prop) := {
  frame_refl : forall s, R s s;
  frame_trans : forall s1 s2 s3, R s1 s2 -> R s2 s3 -> R s1 s3;
  frame_tick : forall s, R s (tick s)
}.

(** [datetime.now()] returns date-times inside the constructor's ranges. *)
Definition clock_valid (w : World) : Prop := forall i, valid (clock w i) = true.

(** Date-times are built by [datetime.now()] or [fromisoformat]; both give
    values inside the constructor's ranges. *)
Definition timestamp_ok (r : WebSearch.SearchResult) : Prop :=
  match WebSearch.timestamp r with
  | Some t => valid t = true
  | None => True
  end.

(** The search [search_primary] starts with, by API or by scraping. *)
Definition chosen_search (w : World) (self : WebSearch.WebSearcher)
    (query : string) (num_results : Z) (use_api : bool)
    : M WebSearch.CacheEntry (list WebSearch.SearchResult) :=
  if use_api && truthy_str (WebSearch.api_key self)
     && truthy_str (WebSearch.search_engine_id self)
  then WebSearch._search_with_api w self query num_results
  else WebSearch._search_with_scraping w self query num_results.

(** No entry of the weather cache holds an error payload. *)
Definition no_error_cached (c : gmap string Weather.CacheEntry) : Prop :=
  forall key entry, c !! key = Some entry -> Weather.has_error (Weather.entry_data entry) = false.

(** The states a weather service can be in: [__init__] leaves the cache
    empty, [get_weather] is the only code that writes it, and between two
    calls the rest of the program may read the clock and send requests. *)
Inductive reachable (w : World) (self : Weather.WeatherService)
    : St Weather.CacheEntry -> Prop :=
| reach_init t l : reachable w self (mk_St ∅ t l)
| reach_call s location :
    reachable w self s -> reachable w self (snd (Weather.get_weather w self location s))
| reach_elsewhere s t l :
    reachable w self s -> reachable w self (mk_St (cache s) t l).

(** The exception of a name that is bound nowhere. *)
Definition name_error : PyExc :=
  Exc NameError "name 'search_context' is not defined".

End Props.

(* ===================================================================== *)
(** * Concrete worlds, for running the model *)
(* ===================================================================== *)

Module Examples.
Import Datetime Effects.

Definition noon_jan_1 : datetime := mk_datetime 2024 1 1 12 0 0 0.
Definition noon_jan_3 : datetime := mk_datetime 2024 1 3 12 0 0 0.

(** The first five readings fall on January 1st, the later ones two days
    after. *)
Definition jumping_clock (i : nat) : datetime :=
  if (i <? 5)%nat then noon_jan_1 else noon_jan_3.

Definition ok_response (body : PyVal) (text : string) : Response :=
  mk_Response 200 (Normal body) text "https://example.com/final".

Definition google_body : PyVal :=
  PDict [("items", PList [PDict [("title", PStr "Opus One 2020");
                                 ("link", PStr "https://example.com/opus");
                                 ("snippet", PStr "A review")]])].

Definition openweather_body (temp : PyVal) : PyVal :=
  PDict [("name", PStr "Napa");
         ("sys", PDict [("country", PStr "US"); ("sunrise", PInt 1704121200);
                        ("sunset", PInt 1704157200)]);
         ("main", PDict [("temp", temp); ("feels_like", temp); ("humidity", PInt 40)]);
         ("wind", PDict [("speed", PInt 3)]);
         ("weather", PList [PDict [("description", PStr "clear sky");
                                   ("icon", PStr "01d")]])].

Definition one_result : ResultElem :=
  mk_ResultElem (Some "Opus One") (Some "A scraped snippet") (Some (Some "//example.com/opus")).

Definition simple_str (v : PyVal) : string :=
  match v with
  | PStr s => s
  | PInt z => pretty z
  | _ => "?"
  end.

(** Every service answers. *)
Definition online (temp : PyVal) : World :=
  mk_World jumping_clock
    (fun _ r =>
       match r with
       | Get "https://www.googleapis.com/customsearch/v1" _ => Normal (ok_response google_body "")
       | Get _ [] => Normal (ok_response PNone "<html>")
       | Get _ _ => Normal (ok_response (openweather_body temp) "")
       | Head u => Normal (ok_response PNone "")
       end)
    (fun _ => [one_result])
    simple_str
    (fun v => Normal v)
    (fun s => s)
    (fun _ => Normal "07:00").

(** The APIs refuse every request with parameters; the scraped page still
    answers. *)
Definition api_down : World :=
  mk_World jumping_clock
    (fun _ r =>
       match r with
       | Get _ (_ :: _) => Raise (Exc RequestException "connection refused")
       | _ => Normal (ok_response PNone "<html>")
       end)
    (fun _ => [one_result])
    simple_str
    (fun v => Normal v)
    (fun s => s)
    (fun _ => Normal "07:00").

(** The scraped page has no result any more. *)
Definition malformed : World :=
  mk_World jumping_clock
    (fun _ r => Normal (ok_response (PDict [("name", PStr "Napa")]) ""))
    (fun _ => [])
    simple_str
    (fun v => Normal v)
    (fun s => s)
    (fun _ => Normal "07:00").

Definition fresh {C} : St C := mk_St ∅ 0 [].

Definition with_keys : WebSearch.WebSearcher :=
  WebSearch.mk_WebSearcher (Some "key") (Some "cx").

Definition google_result : WebSearch.SearchResult :=
  WebSearch.mk_SearchResult (PStr "Opus One 2020") (PStr "https://example.com/opus")
    (PStr "A review") (PStr "google") (Some noon_jan_1).

Definition scraped_result : WebSearch.SearchResult :=
  WebSearch.mk_SearchResult (PStr "Opus One") (PStr "https://example.com/final")
    (PStr "A scraped snippet") (PStr "duckduckgo") (Some noon_jan_1).

Definition service : Weather.WeatherService := Weather.mk_WeatherService (Some "k").

(** What [get_weather] makes of [openweather_body (PInt temp)]. *)
Definition napa_info (temp : Z) : Weather.WeatherInfo :=
  Weather.mk_WeatherInfo "Napa, US" temp temp (PInt 40) (PInt 3) "clear sky" (PStr "01d")
    "07:00" "07:00" noon_jan_1.

(** Services that all answer. *)
Definition services : Api.Services :=
  Api.mk_Services (Normal "<html>")
    (fun message _ => Normal (PDict [("response", PStr message)]))
    (fun _ => Normal "sunny")
    (Normal [])
    (Normal tt) (Normal tt)
    (fun _ _ => Normal []).

(** The search client is rate limited. *)
Definition search_down : App.Env :=
  App.mk_Env (fun _ _ => Raise (Exc OtherException "Ratelimit"))
    (fun _ => Normal "A Pinot Noir.")
    (fun template _ => Normal template)
    (fun s => s).

(** The search client answers with one hit. *)
Definition search_up : App.Env :=
  App.mk_Env
    (fun _ _ => Normal [PDict [("title", PStr "Pinot"); ("href", PStr "https://example.com");
                               ("body", PStr "Light and fruity")]])
    (fun _ => Normal "A Pinot Noir.")
    (fun template _ => Normal template)
    (fun s => s).

End Examples.

(* ===================================================================== *)
(** * [src/web_search.py]: [get_webpage_content] *)
(* ===================================================================== *)

Module WebPage.
Import Datetime Effects.
Local Open Scope m_scope.

(** The dictionary under ["content"]: [{"text": ..., "timestamp": ...}]. *)
Record Content := mk_Content {
  text : string;
  content_timestamp : datetime
}.

(** An entry of [self.cache] read as a dictionary: the keys ["results"] and
    ["timestamp"] that [search] writes, when they are there, and the key
    ["content"], when it is there. *)
Record Entry := mk_Entry {
  search_keys : option WebSearch.CacheEntry;
  content : option Content
}.

Definition page_request (url : string) : Request := Get url [].

(** [text[:max_length]] *)
Definition str_slice_to (max_length : Z) (s : string) : string :=
  string_of_list_ascii (WebSearch.slice_to max_length (list_ascii_of_string s)).

(** "Check cache first": the cached text when the entry has a content
    younger than [cache_duration]. *)
Definition cached_content (w : World) (url : string) : M Entry (option string) :=
  c <~ cache_get url;;
  match c with
  | Some entry =>
      match content entry with
      | Some cached_content =>
          t <~ now w;;
          ret (if sub t (content_timestamp cached_content) <? WebSearch.cache_duration
               then Some (text cached_content) else None)
      | None => ret None
      end
  | None => ret None
  end.

(** [if url not in self.cache: self.cache[url] = {}] *)
Definition ensure_entry (url : string) : M Entry unit :=
  c <~ cache_get url;;
  match c with
  | Some _ => ret tt
  | None => cache_set url (mk_Entry None None)
  end.

(** [self.cache[url]["content"] = value] *)
Definition set_content (url : string) (value : Content) : M Entry unit :=
  c <~ cache_get url;;
  match c with
  | Some entry => cache_set url (mk_Entry (search_keys entry) (Some value))
  | None => raise (Exc KeyError ("'" +:+ url +:+ "'"))
  end.

Definition could_not_retrieve (url : string) (e : PyExc) : string :=
  "[Could not retrieve content from " +:+ url +:+ ": " +:+ str_exc e +:+ "]".

(** [WebSearcher.get_webpage_content].  [extract_text] answers for the
    steps on the parsed page: dropping script, style, nav, footer and
    header, finding the main content and joining its strings. *)
Definition get_webpage_content (w : World) (extract_text : string -> result string)
    (url : string) (max_length : Z) : M Entry string :=
  try_catch
    (hit <~ cached_content w url;;
     match hit with
     | Some cached_text => ret (str_slice_to max_length cached_text)
     | None =>
         response <~ send w (page_request url);;
         lift (raise_for_status response);;;
         page_text <~ lift (extract_text (resp_text response));;
         ensure_entry url;;;
         t <~ now w;;
         set_content url (mk_Content page_text t);;;
         ret (str_slice_to max_length page_text)
     end)
    (fun e => ret (could_not_retrieve url e)).

End WebPage.

(* ===================================================================== *)
(** * [src/document_retriever.py] *)
(* ===================================================================== *)

Module Retriever.
Local Open Scope list_scope.

(** A LangChain [Document]: its text and the file it came from. *)
Record Document := mk_Document {
  page_content : string;
  doc_source : string
}.

(** A FAISS store, by the documents it indexes. *)
Definition Store : Type := list Document.

(** The calls into LangChain and FAISS, in the order they are made. *)
Inductive Call :=
| DirectoryLoad (ext : string)
| SplitDocuments (n : nat)
| FromDocuments (n : nat)
| LoadLocal (path : string)
| MakeParent (path : string)
| SaveLocal (path : string)
| StoreSearch (query : string) (k : Z)
| StoreAdd (n : nat).

(** What the libraries answer; the first argument is the number of calls
    made before. *)
Record Lib := mk_Lib {
  directory_load : nat -> string -> result (list Document);
  split_text : nat -> list Document -> result (list Document);
  from_documents : nat -> list Document -> result Store;
  load_local : nat -> string -> result Store;
  make_parent : nat -> string -> result unit;
  save_local : nat -> Store -> string -> result unit;
  store_search : nat -> Store -> string -> Z -> result (list Document);
  store_add : nat -> Store -> list Document -> result Store
}.

(** The attributes of a [DocumentRetriever] that change, and the calls it
    has made. *)
Record State := mk_State {
  documents : list Document;
  vector_store : option Store;
  calls : list Call
}.

Definition R (A : Type) : Type := State -> result A * State.

Definition ret {A} (a : A) : R A := fun s => (Normal a, s).
Definition raise {A} (e : PyExc) : R A := fun s => (Raise e, s).
Definition bind {A B} (m : R A) (k : A -> R B) : R B :=
  fun s => match m s with
           | (Normal a, s') => k a s'
           | (Raise e, s') => (Raise e, s')
           end.
Definition try_catch {A} (m : R A) (h : PyExc -> R A) : R A :=
  fun s => match m s with
           | (Normal a, s') => (Normal a, s')
           | (Raise e, s') => h e s'
           end.

(** A library call: logged, and answered by [answer] at its position. *)
Definition call {A} (c : Call) (answer : nat -> result A) : R A :=
  fun s => (answer (length (calls s)),
            mk_State (documents s) (vector_store s) (calls s ++ [c])).

Definition get_documents : R (list Document) := fun s => (Normal (documents s), s).
Definition set_documents (docs : list Document) : R unit :=
  fun s => (Normal tt, mk_State docs (vector_store s) (calls s)).
Definition get_vector_store : R (option Store) := fun s => (Normal (vector_store s), s).
Definition set_vector_store (store : Store) : R unit :=
  fun s => (Normal tt, mk_State (documents s) (Some store) (calls s)).

(** The keys of the [loaders] table, in the order of the literal. *)
Definition extensions : list string :=
  [".txt"; ".md"; ".pdf"; ".docx"; ".pptx"; ".xlsx"; ".csv"].

(** The [for ext in loaders.keys()] loop: a loader that raises is logged
    and skipped. *)
Fixpoint load_loop (lib : Lib) (exts : list string) (loaded_docs : list Document)
    : R (list Document) :=
  match exts with
  | [] => ret loaded_docs
  | ext :: rest =>
      bind (try_catch
              (bind (call (DirectoryLoad ext) (fun n => directory_load lib n ext))
                    (fun docs => ret (loaded_docs ++ docs)))
              (fun _ => ret loaded_docs))
           (fun loaded_docs' => load_loop lib rest loaded_docs')
  end.

(** [DocumentRetriever.load_documents] *)
Definition load_documents (lib : Lib) : R (list Document) :=
  bind (load_loop lib extensions []) (fun loaded_docs =>
  bind (set_documents loaded_docs) (fun _ =>
  ret loaded_docs)).

(** [if not self.documents: self.load_documents()] *)
Definition ensure_documents (lib : Lib) : R unit :=
  bind get_documents (fun docs =>
  match docs with
  | [] => bind (load_documents lib) (fun _ => ret tt)
  | _ :: _ => ret tt
  end).

(** [DocumentRetriever.split_documents] *)
Definition split_documents (lib : Lib) : R (list Document) :=
  bind (ensure_documents lib) (fun _ =>
  bind get_documents (fun docs =>
  call (SplitDocuments (length docs)) (fun n => split_text lib n docs))).

(** [DocumentRetriever.create_vector_store] *)
Definition create_vector_store (lib : Lib) (documents : option (list Document)) : R unit :=
  bind (match documents with
        | None => bind (ensure_documents lib) (fun _ => split_documents lib)
        | Some docs => ret docs
        end) (fun docs =>
  bind (call (FromDocuments (length docs)) (fun n => from_documents lib n docs)) (fun store =>
  set_vector_store store)).

(** [DocumentRetriever.save_vector_store] *)
Definition save_vector_store (lib : Lib) (path : string) : R unit :=
  bind get_vector_store (fun vs =>
  match vs with
  | None => ret tt
  | Some store =>
      bind (call (MakeParent path) (fun n => make_parent lib n path)) (fun _ =>
      call (SaveLocal path) (fun n => save_local lib n store path))
  end).

(** [DocumentRetriever.load_vector_store] *)
Definition load_vector_store (lib : Lib) (path : string) : R bool :=
  try_catch
    (bind (call (LoadLocal path) (fun n => load_local lib n path)) (fun store =>
     bind (set_vector_store store) (fun _ => ret true)))
    (fun _ => ret false).

Definition default_path : string := "../data/vector_store".

(** [self.vector_store.similarity_search(...)]: a method of the store,
    [None] has none. *)
Definition search_store (lib : Lib) (query : string) (k : Z) : R (list Document) :=
  bind get_vector_store (fun vs =>
  match vs with
  | Some store => call (StoreSearch query k) (fun n => store_search lib n store query k)
  | None => raise (Exc AttributeError "'NoneType' object has no attribute 'similarity_search'")
  end).

(** [DocumentRetriever.similarity_search] *)
Definition similarity_search (lib : Lib) (query : string) (k : Z) : R (list Document) :=
  bind get_vector_store (fun vs =>
  bind (match vs with
        | None =>
            bind (load_vector_store lib default_path) (fun loaded =>
            if loaded then ret tt else create_vector_store lib None)
        | Some _ => ret tt
        end) (fun _ =>
  try_catch (search_store lib query k) (fun _ => ret []))).

(** [DocumentRetriever.add_documents] *)
Definition add_documents (lib : Lib) (docs : list Document) : R unit :=
  bind get_vector_store (fun vs =>
  match vs with
  | None => create_vector_store lib (Some docs)
  | Some store =>
      try_catch
        (bind (call (StoreAdd (length docs)) (fun n => store_add lib n store docs))
              (fun store' => set_vector_store store'))
        (fun _ => ret tt)
  end).

(** [upload_documents] of [src/api.py], on the retriever itself. *)
Definition upload_documents (lib : Lib) : R PyVal :=
  try_catch
    (bind (load_documents lib) (fun docs =>
     match docs with
     | _ :: _ =>
         bind (create_vector_store lib None) (fun _ =>
         bind (save_vector_store lib default_path) (fun _ =>
         ret (PDict [("message", PStr ("Successfully processed "
                                       +:+ pretty (length docs) +:+ " documents"));
                     ("document_count", PInt (Z.of_nat (length docs)))])))
     | [] =>
         ret (PDict [("message", PStr "No documents found in the data directory");
                     ("document_count", PInt 0)])
     end))
    (fun e => raise (HTTPException 500 (str_exc e))).

End Retriever.

(* ===================================================================== *)
(** * [src/agent.py]: the tool nodes, the response node, [process_message] *)
(* ===================================================================== *)

Module AgentNodes.
Import Datetime Effects Agent.
Local Open Scope list_scope.

(** The dictionary a node receives: the four declared keys of
    [AgentState] and, when it is there, the key ["tool_input"]. *)
Record NodeState := mk_NodeState {
  declared : AgentState;
  tool_input : option string
}.

(** [state["tool_input"]] *)
Definition get_tool_input (state : NodeState) : result string :=
  match tool_input state with
  | Some v => Normal v
  | None => Raise (Exc KeyError "'tool_input'")
  end.

Definition newline : string := String (ascii_of_nat 10) EmptyString.

(** [_get_weather] *)
Definition _get_weather (w : World) (weather_service : Weather.WeatherService)
    (state : NodeState) : M Weather.CacheEntry AgentState :=
  try_catch
    (bind (lift (get_tool_input state)) (fun input =>
     let location := if truthy (PStr input) then input else "Napa,CA,US" in
     bind (Weather.get_weather_summary w weather_service location) (fun weather_info =>
     ret (mk_AgentState (messages (declared state)) weather_info
            (Some "weather") (Some weather_info)))))
    (fun _ =>
       ret (mk_AgentState (messages (declared state))
              "Error getting weather information. Please try again."
              (Some "weather") (Some "Error getting weather information."))).

(** The [for i, result in enumerate(results, 1)] loop of
    [_perform_web_search]. *)
Fixpoint format_results (w : World) (i : Z) (results : list WebSearch.SearchResult)
    : list string :=
  match results with
  | [] => []
  | r :: rest =>
      ("Result " +:+ pretty i +:+ ": " +:+ py_str w (WebSearch.title r) +:+ newline
       +:+ "URL: " +:+ py_str w (WebSearch.url r) +:+ newline
       +:+ "Snippet: " +:+ py_str w (WebSearch.snippet r))
      :: format_results w (i + 1) rest
  end.

(** [_perform_web_search] *)
Definition _perform_web_search (w : World) (web_searcher : WebSearch.WebSearcher)
    (state : NodeState) : M WebSearch.CacheEntry AgentState :=
  try_catch
    (bind (lift (get_tool_input state)) (fun query =>
     bind (WebSearch.search w web_searcher query 3 true) (fun results =>
     let context := App.join App.newline2 (format_results w 1 results) in
     ret (mk_AgentState (messages (declared state)) context
            (Some "web_search") (Some context)))))
    (fun _ =>
       ret (mk_AgentState (messages (declared state))
              "Error performing web search. Please try again."
              (Some "web_search") (Some "Error performing web search."))).

(** The list comprehension of [_retrieve_documents]. *)
Fixpoint format_documents (i : Z) (docs : list Retriever.Document) : list string :=
  match docs with
  | [] => []
  | doc :: rest =>
      ("Document " +:+ pretty (i + 1) +:+ ":" +:+ newline +:+ Retriever.page_content doc)
      :: format_documents (i + 1) rest
  end.

(** [_retrieve_documents] *)
Definition _retrieve_documents (lib : Retriever.Lib) (state : NodeState)
    : Retriever.R AgentState :=
  Retriever.try_catch
    (Retriever.bind
       (match get_tool_input state with
        | Normal query => Retriever.similarity_search lib query 3
        | Raise e => Retriever.raise e
        end)
       (fun docs =>
          let context := App.join App.newline2 (format_documents 0 docs) in
          Retriever.ret (mk_AgentState (messages (declared state)) context
                           (Some "document_retrieval") (Some context))))
    (fun _ =>
       Retriever.ret (mk_AgentState (messages (declared state))
                        "Error retrieving documents. Please try again."
                        (Some "document_retrieval") (Some "Error retrieving documents."))).

(** [msg.type] *)
Definition type_name (t : MessageType) : string :=
  match t with
  | human => "human"
  | ai => "ai"
  | system => "system"
  end.

Definition document_instructions : string :=
  "You are a knowledgeable wine concierge. Use the following information to answer the user's question. 
                If you don't know the answer, say so. Don't make up information.
                
                Relevant information:
                ".
Definition search_instructions : string :=
  "You are a helpful assistant. Use the following search results to answer the user's question. 
                Be concise and provide sources when possible.
                
                Search results:
                ".
Definition weather_instructions : string :=
  "You are a helpful assistant providing weather information. 
                Here's the current weather information:
                ".
Definition concierge_instructions : string :=
  "You are a friendly and knowledgeable wine concierge. 
                Answer the user's questions about wine, wineries, or related topics. 
                If you don't know the answer, you can say so or offer to look it up.".

(** "Create the system message based on the tool used". *)
Definition system_message (state : AgentState) : string :=
  match current_tool state with
  | Some tool_used =>
      if bool_decide (tool_used = "document_retrieval")
      then document_instructions +:+ context state
      else if bool_decide (tool_used = "web_search")
      then search_instructions +:+ context state
      else if bool_decide (tool_used = "weather")
      then weather_instructions +:+ context state
      else concierge_instructions
  | None => concierge_instructions
  end.

(** "Create the prompt". *)
Definition respond_prompt (state : AgentState) : list (string * string) :=
  ("system", system_message state)
  :: ((fun msg => (type_name (type msg), content msg)) <$> messages state)
  ++ [("assistant", "")].

Definition apology : string :=
  "I'm sorry, I encountered an error while generating a response. Please try again.".

(** [l[0]] *)
Definition first_item {A} (l : list A) : result A :=
  match l with
  | x :: _ => Normal x
  | [] => Raise (Exc IndexError "list index out of range")
  end.

(** [_respond].  [agenerate] answers for [self.llm.agenerate([prompt])],
    by the texts of [response.generations].  The [except] branch reads
    [messages] and [context], which the first lines of the [try] have
    bound by then. *)
Definition _respond (agenerate : list (string * string) -> result (list (list string)))
    (state : AgentState) : result AgentState :=
  try_except
    (response <- agenerate (respond_prompt state);;
     generations <- first_item response;;
     response_text <- first_item generations;;
     Normal (mk_AgentState (messages state ++ [mk_Message ai response_text])
               (context state) None None))%py
    (fun _ =>
       Normal (mk_AgentState (messages state ++ [mk_Message ai apology])
                 (context state) None None)).

(** The loop of [process_message] over [conversation_history]. *)
Definition history_messages (conversation_history : list (string * string))
    : list Message :=
  (fun msg => if bool_decide (fst msg = "user")
              then mk_Message human (snd msg)
              else mk_Message ai (snd msg)) <$> conversation_history.

Definition option_val (o : option string) : PyVal :=
  match o with
  | Some s => PStr s
  | None => PNone
  end.

Definition processing_apology : string :=
  "I'm sorry, I encountered an error while processing your request. Please try again.".

(** [process_message].  [ainvoke] answers for [self.workflow.ainvoke]; the
    second component lists the states the workflow was invoked with. *)
Definition process_message (ainvoke : AgentState -> result AgentState)
    (message : string) (conversation_history : list (string * string))
    : result PyVal * list AgentState :=
  let messages := history_messages conversation_history ++ [mk_Message human message] in
  let state := mk_AgentState messages "" None None in
  (try_except
     (result <- ainvoke state;;
      last_message <- Agent.last_item (Agent.messages result);;
      Normal (PDict [("response", PStr (content last_message));
                     ("context", PStr (context result));
                     ("tool_used", option_val (current_tool result));
                     ("tool_result", option_val (tool_result result))]))%py
     (fun e => Normal (PDict [("response", PStr processing_apology);
                              ("error", PStr (str_exc e))])),
   [state]).

End AgentNodes.

(* ===================================================================== *)
(** * [src/free_agent.py] and [src/free_api.py] *)
(* ===================================================================== *)

Module FreeAgent.
Local Open Scope list_scope.

(** What the agent calls outside the repository; [generate] also gets the
    number of prompts it was given before. *)
Record Env := mk_Env {
  search_text : string -> Z -> result (list PyVal);   (* [self.search_client.text] *)
  generate : nat -> string -> result PyVal;           (* [self.llm.generate] *)
  py_str : PyVal -> string;                           (* [str(v)] in an f-string *)
  strip : string -> string;                           (* [str.strip] *)
  validate_str : PyVal -> result PyVal                (* pydantic on a value that is no [str] *)
}.

(** One item of the list comprehension of [search_web]. *)
Definition search_item (r : PyVal) : result PyVal :=
  (t <- getitem r "title";;
   h <- getitem r "href";;
   b <- getitem r "body";;
   Normal (PDict [("title", t); ("link", h); ("snippet", b)]))%py.

(** [WineConciergeAgent.search_web] *)
Definition search_web (env : Env) (query : string) (max_results : Z) : list PyVal :=
  match (results <- search_text env query max_results;;
         Effects.mapR search_item results)%py with
  | Normal items => items
  | Raise _ => []
  end.

Definition generation_apology : string :=
  "I'm sorry, I encountered an error while generating a response.".

(** [response.strip()]: a method of [str]. *)
Definition py_strip (env : Env) (v : PyVal) : result string :=
  match v with
  | PStr s => Normal (strip env s)
  | _ => Raise (Exc AttributeError "object has no attribute 'strip'")
  end.

(** [WineConciergeAgent.generate_response], with the prompts given to the
    model so far. *)
Definition generate_response (env : Env) (prompt : string) (prompts : list string)
    : string * list string :=
  (match (response <- generate env (length prompts) prompt;; py_strip env response)%py with
   | Normal text => text
   | Raise _ => generation_apology
   end,
   prompts ++ [prompt]).

Definition prompt_head : string :=
  "You are a knowledgeable wine concierge. Provide a detailed wine recommendation based on the following query and search results.
        
        Query: ".
Definition prompt_middle : string :=
  "
        
        Search Results:
        ".
Definition prompt_tail : string :=
  "
        
        Please provide:
        1. Wine recommendation with details (grape, region, style)
        2. Tasting notes
        3. Food pairing suggestions
        4. Price range
        5. Any additional tips or information
        ".

(** ["- {r['title']}: {r['snippet']}"] *)
Definition result_line (env : Env) (r : PyVal) : result string :=
  (t <- getitem r "title";; s <- getitem r "snippet";;
   Normal ("- " +:+ py_str env t +:+ ": " +:+ py_str env s))%py.

(** [WineConciergeAgent.get_wine_recommendation] *)
Definition get_wine_recommendation (env : Env) (query : string) (prompts : list string)
    : result PyVal * list string :=
  let search_results := search_web env ("wine recommendation " +:+ query) 5 in
  match Effects.mapR (result_line env) search_results with
  | Raise e => (Raise e, prompts)
  | Normal lines =>
      let prompt := prompt_head +:+ query +:+ prompt_middle
                    +:+ App.join App.newline2 lines +:+ prompt_tail in
      let '(response, prompts') := generate_response env prompt prompts in
      match Effects.mapR (fun r => getitem r "link") (take 3 search_results) with
      | Raise e => (Raise e, prompts')
      | Normal sources =>
          (Normal (PDict [("recommendation", PStr response); ("sources", PList sources)]),
           prompts')
      end
  end.

(** The validation of one field declared [str]: a [str] is accepted as it
    is, for any other value the installed pydantic decides. *)
Definition validate_field (env : Env) (v : PyVal) : result PyVal :=
  match v with
  | PStr _ => Normal v
  | _ => validate_str env v
  end.

(** The [WineRecommendationResponse] built from the two keys the agent
    returns: [recommendation: str] and [sources: List[str]]. *)
Definition validate_response (env : Env) (v : PyVal) : result PyVal :=
  match v with
  | PDict [("recommendation", r); ("sources", PList sources)] =>
      (r' <- validate_field env r;;
       sources' <- Effects.mapR (validate_field env) sources;;
       Normal (PDict [("recommendation", r'); ("sources", PList sources')]))%py
  | _ => Raise (Exc ValueError "validation error for WineRecommendationResponse")
  end.

(** [get_recommendation] of [src/free_api.py]; [request.max_results] is
    not read. *)
Definition get_recommendation (env : Env) (query : string) (max_results : option Z)
    (prompts : list string) : result PyVal * list string :=
  match get_wine_recommendation env query prompts with
  | (Normal result, prompts') =>
      (try_except (validate_response env result)
         (fun e => Raise (HTTPException 500 (str_exc e))), prompts')
  | (Raise e, prompts') => (Raise (HTTPException 500 (str_exc e)), prompts')
  end.

End FreeAgent.

(* ===================================================================== *)
(** * [src/rate_limiter.py]: what importing the module runs *)
(* ===================================================================== *)

Module RateLimiter.
Local Open Scope list_scope.

(** The [settings] object of the [config] module, which is not among the
    sources: what reading each attribute gives. *)
Record Settings := mk_Settings {
  RATE_LIMIT : result PyVal;
  RATE_LIMIT_STORAGE_URI : result PyVal;
  RATE_LIMIT_STRICT : result PyVal;
  RATE_LIMIT_PUBLIC : result PyVal;
  RATE_LIMIT_AUTH : result PyVal
}.

(** The names the module has bound when its last statement is done. *)
Record Namespace := mk_Namespace {
  RATE_LIMITS : list (string * PyVal);
  rate_limited_strict : PyVal;
  rate_limited_generous : PyVal;
  rate_limited_public : PyVal;
  rate_limited_auth : PyVal
}.

(** [RATE_LIMITS[key]] *)
Definition lookup (table : list (string * PyVal)) (key : string) : result PyVal :=
  match assoc key table with
  | Some v => Normal v
  | None => Raise (Exc KeyError ("'" +:+ key +:+ "'"))
  end.

(** The top-level statements after the imports, in order; [make_limiter]
    answers for the call of [Limiter(...)].  [get_rate_limit_decorator(limit)] only builds
    a closure: the limit is its value here. *)
Definition import_module (settings : Settings)
    (make_limiter : PyVal -> PyVal -> result unit) : result Namespace :=
  (default_limit <- RATE_LIMIT settings;;
   storage_uri <- RATE_LIMIT_STORAGE_URI settings;;
   _ <- make_limiter default_limit storage_uri;;
   d <- RATE_LIMIT settings;;
   st <- RATE_LIMIT_STRICT settings;;
   pu <- RATE_LIMIT_PUBLIC settings;;
   au <- RATE_LIMIT_AUTH settings;;
   let table := [("default", d); ("strict", st); ("public", pu); ("auth", au)] in
   strict <- lookup table "strict";;
   generous <- lookup table "generous";;
   public <- lookup table "public";;
   auth <- lookup table "auth";;
   Normal (mk_Namespace table strict generous public auth))%py.

End RateLimiter.

(* ===================================================================== *)
(** * More vocabulary *)
(* ===================================================================== *)

Module Props2.
Import Datetime Effects.

(** The string has no underscore. *)
Fixpoint no_underscore (s : string) : Prop :=
  match s with
  | EmptyString => True
  | String c s' => c <> "_"%char /\ no_underscore s'
  end.

(** What the exceptions that leave [_search_with_scraping] look like. *)
Definition web_search_failed (e : PyExc) : Prop :=
  exists msg, e = Exc OtherException ("Web search failed: " +:+ msg).

(** The part of [get_webpage_content] after a miss, inside the [try]. *)
Definition fetch_page (w : World) (extract_text : string -> result string)
    (url : string) (max_length : Z) : M WebPage.Entry string :=
  bind (send w (WebPage.page_request url)) (fun response =>
  bind (lift (raise_for_status response)) (fun _ =>
  bind (lift (extract_text (resp_text response))) (fun page_text =>
  bind (WebPage.ensure_entry url) (fun _ =>
  bind (now w) (fun t =>
  bind (WebPage.set_content url (WebPage.mk_Content page_text t)) (fun _ =>
  ret (WebPage.str_slice_to max_length page_text))))))).

(** What the directory loader for [ext] contributes when it is the
    [n]-th library call: its documents, or nothing when it raises. *)
Definition loaded_at (lib : Retriever.Lib) (n : nat) (ext : string)
    : list Retriever.Document :=
  match Retriever.directory_load lib n ext with
  | Normal docs => docs
  | Raise _ => []
  end.

(** [item] is what [search_web] makes of the hit [hit]. *)
Definition item_of (hit item : PyVal) : Prop :=
  exists t h b,
    getitem hit "title" = Normal t /\ getitem hit "href" = Normal h /\
    getitem hit "body" = Normal b /\
    item = PDict [("title", t); ("link", h); ("snippet", b)].

End Props2.

(* ===================================================================== *)
(** * More concrete worlds *)
(* ===================================================================== *)

Module Examples2.
Import Datetime Effects Examples.

(** Nothing outside answers. *)
Definition offline : World :=
  mk_World jumping_clock
    (fun _ _ => Raise (Exc RequestException "connection refused"))
    (fun _ => [])
    simple_str
    (fun v => Normal v)
    (fun s => s)
    (fun _ => Normal "07:00").

(** The weather API refuses the key, with a body that looks complete. *)
Definition unauthorized : World :=
  mk_World jumping_clock
    (fun _ _ => Normal (mk_Response 401 (Normal (openweather_body (PInt 85))) ""
                          "http://api.openweathermap.org/data/2.5/weather?q=Napa"))
    (fun _ => [])
    simple_str
    (fun v => Normal v)
    (fun s => s)
    (fun _ => Normal "07:00").

(** A cache that holds the page of one url, read at noon on January 1st. *)
Definition page_cached : St WebPage.Entry :=
  mk_St {[ "https://example.com/opus" :=
             WebPage.mk_Entry None (Some (WebPage.mk_Content "<html>" noon_jan_1)) ]} 0 [].

(** The weather service raises an [HTTPException] of its own. *)
Definition weather_not_found : Api.Services :=
  Api.mk_Services (Normal "<html>")
    (fun message _ => Normal (PDict [("response", PStr message)]))
    (fun _ => Raise (HTTPException 404 "city not found"))
    (Normal [])
    (Normal tt) (Normal tt)
    (fun _ _ => Normal []).

Definition wine_note : Retriever.Document :=
  Retriever.mk_Document "Pinot Noir pairs with salmon." "data/pairings.txt".

Definition no_library : Retriever.Lib :=
  Retriever.mk_Lib
    (fun _ _ => Raise (Exc OtherException "no such directory"))
    (fun _ docs => Normal docs)
    (fun _ docs => match docs with
                   | [] => Raise (Exc IndexError "list index out of range")
                   | _ => Normal docs
                   end)
    (fun _ _ => Raise (Exc OtherException "no such file"))
    (fun _ _ => Normal tt)
    (fun _ _ _ => Normal tt)
    (fun _ store _ k => Normal (take (Z.to_nat k) store))
    (fun _ store docs => Normal (store ++ docs))%list.

(** A data directory without documents (the PDF loader fails, the others
    find nothing), no saved index, and FAISS refusing an empty list. *)
Definition empty_directory : Retriever.Lib :=
  Retriever.mk_Lib
    (fun _ ext => if bool_decide (ext = ".pdf")
                  then Raise (Exc OtherException "pypdf is not installed")
                  else Normal [])
    (Retriever.split_text no_library)
    (Retriever.from_documents no_library)
    (Retriever.load_local no_library)
    (Retriever.make_parent no_library)
    (Retriever.save_local no_library)
    (Retriever.store_search no_library)
    (Retriever.store_add no_library).

(** An index saved on disk. *)
Definition saved_index : Retriever.Lib :=
  Retriever.mk_Lib
    (Retriever.directory_load empty_directory)
    (Retriever.split_text no_library)
    (Retriever.from_documents no_library)
    (fun _ _ => Normal [wine_note])
    (Retriever.make_parent no_library)
    (Retriever.save_local no_library)
    (Retriever.store_search no_library)
    (Retriever.store_add no_library).

(** The search of the store fails. *)
Definition broken_index : Retriever.Lib :=
  Retriever.mk_Lib
    (Retriever.directory_load empty_directory)
    (Retriever.split_text no_library)
    (Retriever.from_documents no_library)
    (Retriever.load_local no_library)
    (Retriever.make_parent no_library)
    (Retriever.save_local no_library)
    (fun _ _ _ _ => Raise (Exc OtherException "embedding request failed"))
    (Retriever.store_add no_library).

(** A retriever right after [__init__], and one with a store. *)
Definition cold : Retriever.State := Retriever.mk_State [] None [].
Definition indexed : Retriever.State := Retriever.mk_State [] (Some [wine_note]) [].

Definition without_keys : WebSearch.WebSearcher :=
  WebSearch.mk_WebSearcher None None.

(** The services of [src/api.py] with a workflow that fails. *)
Definition failing_workflow (state : Agent.AgentState) : result Agent.AgentState :=
  Raise (Exc OtherException "Connection error.").
Definition agent_services : Api.Services :=
  Api.mk_Services (Normal "<html>")
    (fun message history =>
       fst (AgentNodes.process_message failing_workflow message history))
    (fun _ => Normal "Sunny")
    (Normal [])
    (Normal tt) (Normal tt)
    (fun _ _ => Normal []).

(** One hit as DuckDuckGo returns it, and one without [href]. *)
Definition ddg_hit : PyVal :=
  PDict [("title", PStr "Pinot Noir with salmon");
         ("href", PStr "https://example.com/pinot");
         ("body", PStr "A light red for grilled salmon.")].
Definition hit_without_href : PyVal :=
  PDict [("title", PStr "Chardonnay"); ("body", PStr "A classic choice.")].

(** The free agent with a search that finds [hits] and a model that
    repeats a fixed line; pydantic turns down what is no [str]. *)
Definition free_env (hits : result (list PyVal)) : FreeAgent.Env :=
  FreeAgent.mk_Env
    (fun _ _ => hits)
    (fun _ _ => Normal (PStr " Try a Pinot Noir. "))
    simple_str
    (fun _ => "Try a Pinot Noir.")
    (fun _ => Raise (Exc ValueError "str type expected")).

(** Settings with every rate limit present. *)
Definition full_settings : RateLimiter.Settings :=
  RateLimiter.mk_Settings (Normal (PStr "100/minute")) (Normal (PStr "memory://"))
    (Normal (PStr "10/minute")) (Normal (PStr "1000/minute")) (Normal (PStr "5/minute")).

End Examples2.

(* ===================================================================== *)
(** * [datetime] values with a time zone, and [SearchResult] over them *)
(* ===================================================================== *)

(** The field [timestamp: datetime] of [SearchResult] takes any
    [datetime] object.  The caches only ever hold the naive values of
    [datetime.now()], which [Datetime] covers; a caller of [to_dict] and
    [from_dict] may pass a value with a [tzinfo]. *)

Module Tzinfo.

(** The [tzinfo] objects of the standard library: the fixed offset
    [timezone(timedelta(microseconds=offset))], which is also what
    [fromisoformat] builds, and [ZoneInfo(key)], a zone of the IANA
    database. *)
Inductive tzinfo :=
| timezone (offset : Z)
| ZoneInfo (key : string).

(** A [datetime] object in full: the wall time, [tzinfo] ([None] for a
    naive value) and [fold]. *)
Record datetime := mk_datetime {
  wall : Datetime.datetime;
  tz : option tzinfo;
  fold : bool
}.

(** What the installed Python answers outside the repository: the
    offset from UTC, in microseconds, that a zone of the database gives
    for a wall time and a fold, and [fromisoformat] on a string that is
    outside the grammar every version from 3.7 on reads alike. *)
Record Library := mk_Library {
  zone_utcoffset : string -> Datetime.datetime -> bool -> Z;
  other_isoformat : string -> result datetime
}.

(** [t.utcoffset()], in microseconds; [None] for a naive value. *)
Definition utcoffset (lib : Library) (t : datetime) : option Z :=
  match tz t with
  | None => None
  | Some (timezone offset) => Some offset
  | Some (ZoneInfo key) => Some (zone_utcoffset lib key (wall t) (fold t))
  end.

(** [_format_offset]: sign, [HH:MM], then [:SS] and [.ffffff] when they
    are not zero. *)
Definition format_offset (off : Z) : string :=
  let a := Z.abs off in
  let hh := a / 3600000000 in
  let mm := (a mod 3600000000) / 60000000 in
  let ss := (a mod 60000000) / 1000000 in
  let us := a mod 1000000 in
  String (if off <? 0 then "-"%char else "+"%char)
    (Datetime.pad2 hh (String ":" (Datetime.pad2 mm
       (if (ss =? 0) && (us =? 0) then ""
        else String ":" (Datetime.pad2 ss
               (if us =? 0 then "" else String "." (Datetime.pad6 us ""))))))).

(** [t.isoformat()]: the wall time, then the offset of an aware value. *)
Definition isoformat (lib : Library) (t : datetime) : string :=
  match utcoffset lib t with
  | None => Datetime.isoformat (wall t)
  | Some off => Datetime.isoformat (wall t) +:+ format_offset off
  end.

Definition is_sign (c : ascii) : bool :=
  bool_decide (c = "+"%char) || bool_decide (c = "-"%char).

(** The time string cut at its first [+] or [-]: what stands before, and
    the sign with what stands after. *)
Fixpoint split_sign (s : string) : string * option (ascii * string) :=
  match s with
  | EmptyString => (EmptyString, None)
  | String c r =>
      if is_sign c then (EmptyString, Some (c, r))
      else let '(before, after) := split_sign r in (String c before, after)
  end.

(** The offset after the sign: [HH:MM], [HH:MM:SS] or [HH:MM:SS.ffffff]
    (5, 8 or 15 characters), below 24 hours. *)
Definition parse_offset (sign : ascii) (tzstr : string) : option Z :=
  if bool_decide (String.length tzstr ∈ [5; 8; 15]%nat) then
    match Datetime.parse_time tzstr with
    | Some (hh, mm, ss, us) =>
        if (hh <=? 23) && (mm <=? 59) && (ss <=? 59) then
          let total := ((hh * 60 + mm) * 60 + ss) * 1000000 + us in
          Some (if bool_decide (sign = "-"%char) then - total else total)
        else None
    | None => None
    end
  else None.

(** The grammar [YYYY-MM-DD[*HH[:MM[:SS[.fff[fff]]]][+HH:MM[:SS[.ffffff]]]]]. *)
Definition parse_common (s : string) : option datetime :=
  match Datetime.parse_date s with
  | None => None
  | Some (y, m, d, rest) =>
      match rest with
      | EmptyString => Some (mk_datetime (Datetime.mk_datetime y m d 0 0 0 0) None false)
      | String _ t =>
          let '(timestr, offset) := split_sign t in
          match Datetime.parse_time timestr with
          | None => None
          | Some (hh, mm, ss, us) =>
              let w := Datetime.mk_datetime y m d hh mm ss us in
              match offset with
              | None => Some (mk_datetime w None false)
              | Some (sign, tzstr) =>
                  match parse_offset sign tzstr with
                  | Some off => Some (mk_datetime w (Some (timezone off)) false)
                  | None => None
                  end
              end
          end
      end
  end.

(** [datetime.fromisoformat(s)].  A string of the grammar above with
    fields in range is read the same way by every version; for any other
    string the library in use decides. *)
Definition fromisoformat (lib : Library) (s : string) : result datetime :=
  match parse_common s with
  | Some t => if Datetime.valid (wall t) then Normal t else other_isoformat lib s
  | None => other_isoformat lib s
  end.

(** ** [a == b] *)






(** The wall time is inside the constructor's ranges. *)
Definition valid (t : datetime) : bool := Datetime.valid (wall t).

End Tzinfo.

Module WebSearchAware.
Local Open Scope list_scope.

(** [@dataclass class SearchResult], its [timestamp] any [datetime]. *)
Record SearchResult := mk_SearchResult {
  title : PyVal;
  url : PyVal;
  snippet : PyVal;
  source : PyVal;
  timestamp : option Tzinfo.datetime
}.

(** [SearchResult.to_dict] *)
Definition to_dict (lib : Tzinfo.Library) (self : SearchResult) : gmap string PyVal :=
  <["title" := title self]>
  (<["url" := url self]>
  (<["snippet" := snippet self]>
  (<["source" := source self]>
  (<["timestamp" := match timestamp self with
                    | Some t => PStr (Tzinfo.isoformat lib t)
                    | None => PNone
                    end]> ∅)))).

(** [SearchResult.from_dict] *)
Definition from_dict (lib : Tzinfo.Library) (data : gmap string PyVal)
    : result SearchResult :=
  let get k dflt := default dflt (data !! k) in
  rbind
    (if truthy (get "timestamp" PNone) then
       match data !! "timestamp" with
       | Some (PStr s) => rbind (Tzinfo.fromisoformat lib s) (fun t => Normal (Some t))
       | Some _ => Raise (Exc TypeError "fromisoformat: argument must be str")
       | None => Raise (Exc KeyError "'timestamp'")
       end
     else Normal None)
    (fun ts =>
       Normal (mk_SearchResult (get "title" (PStr "")) (get "url" (PStr ""))
                 (get "snippet" (PStr "")) (get "source" (PStr "web")) ts)).


(** A result of the naive model as a result of this one. *)
Definition of_naive (r : WebSearch.SearchResult) : SearchResult :=
  mk_SearchResult (WebSearch.title r) (WebSearch.url r) (WebSearch.snippet r)
    (WebSearch.source r)
    ((fun t => Tzinfo.mk_datetime t None false) <$> WebSearch.timestamp r).


End WebSearchAware.

Module Examples3.





End Examples3.

(* ===================================================================== *)
(** * Properties *)
(* ===================================================================== *)

Local Open Scope list_scope.

(** ** [fromisoformat] reads back what [isoformat] writes *)

Module DatetimeFacts.
Import Datetime.

Lemma digit_val_char d : 0 <= d <= 9 -> digit_val (digit_char d) = Some d.
Proof.
  intros Hd.
  assert (Hc : d = 0 \/ d = 1 \/ d = 2 \/ d = 3 \/ d = 4 \/ d = 5 \/ d = 6
               \/ d = 7 \/ d = 8 \/ d = 9) by lia.
  repeat (destruct Hc as [-> | Hc]; [reflexivity |]).
  subst d. reflexivity.
Qed.

Lemma take2_pad2 n k : 0 <= n <= 99 -> take2 (pad2 n k) = Some (n, k).
Proof.
  intros Hn. unfold take2, pad2.
  rewrite !digit_val_char.
  - f_equal. f_equal. pose proof (Z.div_mod n 10). lia.
  - pose proof (Z.mod_pos_bound n 10). lia.
  - split; [apply Z.div_pos; lia |].
    apply Z.lt_succ_r, Z.div_lt_upper_bound; lia.
Qed.

Lemma digits_val_pad2 acc n k :
  0 <= n <= 99 -> digits_val acc (pad2 n k) = digits_val (100 * acc + n) k.
Proof.
  intros Hn. unfold pad2. cbn [digits_val].
  rewrite !digit_val_char.
  - f_equal. pose proof (Z.div_mod n 10). lia.
  - pose proof (Z.mod_pos_bound n 10). lia.
  - split; [apply Z.div_pos; lia |].
    apply Z.lt_succ_r, Z.div_lt_upper_bound; lia.
Qed.

Lemma digits_val_pad4 acc n k :
  0 <= n <= 9999 -> digits_val acc (pad4 n k) = digits_val (10000 * acc + n) k.
Proof.
  intros Hn. unfold pad4.
  assert (0 <= n / 100 <= 99)
    by (split; [apply Z.div_pos; lia |];
        apply Z.lt_succ_r, Z.div_lt_upper_bound; lia).
  pose proof (Z.mod_pos_bound n 100).
  rewrite !digits_val_pad2 by lia.
  f_equal. pose proof (Z.div_mod n 100). lia.
Qed.

Lemma digits_val_pad6 acc n k :
  0 <= n <= 999999 -> digits_val acc (pad6 n k) = digits_val (1000000 * acc + n) k.
Proof.
  intros Hn. unfold pad6.
  assert (0 <= n / 10000 <= 99)
    by (split; [apply Z.div_pos; lia |];
        apply Z.lt_succ_r, Z.div_lt_upper_bound; lia).
  pose proof (Z.mod_pos_bound n 10000).
  rewrite digits_val_pad2, digits_val_pad4 by lia.
  f_equal. pose proof (Z.div_mod n 10000). lia.
Qed.

Lemma parse_fraction_pad6 n : 0 <= n <= 999999 -> parse_fraction (pad6 n "") = Some n.
Proof.
  intros Hn. unfold parse_fraction.
  replace (String.length (pad6 n "")) with 6%nat by reflexivity.
  rewrite digits_val_pad6 by lia. reflexivity.
Qed.

Lemma parse_date_pad y m d rest :
  0 <= y <= 9999 -> 0 <= m <= 99 -> 0 <= d <= 99 ->
  parse_date (pad4 y (String "-" (pad2 m (String "-" (pad2 d rest)))))
  = Some (y, m, d, rest).
Proof.
  intros Hy Hm Hd.
  pose proof (digits_val_pad4 0 y "" Hy) as Hyear.
  unfold parse_date. unfold pad4 at 1. unfold pad2 at 1 2.
  unfold pad4, pad2 in Hyear. rewrite Hyear. cbn [digits_val].
  replace (10000 * 0 + y) with y by lia.
  rewrite take2_pad2 by lia. rewrite take2_pad2 by lia. reflexivity.
Qed.

Lemma parse_time_pad hh mm ss us :
  0 <= hh <= 99 -> 0 <= mm <= 99 -> 0 <= ss <= 99 -> 0 <= us <= 999999 ->
  parse_time (pad2 hh (String ":" (pad2 mm (String ":"
     (pad2 ss (if us =? 0 then "" else String "." (pad6 us "")))))))
  = Some (hh, mm, ss, us).
Proof.
  intros Hh Hm Hs Hu. unfold parse_time.
  rewrite !take2_pad2 by lia.
  destruct (us =? 0) eqn:E.
  - apply Z.eqb_eq in E. subst us. reflexivity.
  - rewrite parse_fraction_pad6 by lia. reflexivity.
Qed.

Lemma valid_bounds t :
  valid t = true ->
  1 <= year t <= 9999 /\ 1 <= month t <= 12 /\ 1 <= day t <= 31 /\
  0 <= hour t <= 23 /\ 0 <= minute t <= 59 /\ 0 <= second t <= 59 /\
  0 <= microsecond t <= 999999.
Proof.
  unfold valid. rewrite !andb_true_iff, !Z.leb_le.
  intros H.
  assert (days_in_month (year t) (month t) <= 31).
  { unfold days_in_month.
    repeat match goal with |- context [if ?c then _ else _] => destruct c end; lia. }
  lia.
Qed.

(** The round trip on date-times: the library fact both dictionary
    conversions of [SearchResult] rest on. *)
Lemma fromisoformat_isoformat t :
  valid t = true -> fromisoformat (isoformat t) = Normal t.
Proof.
  intros Hv. pose proof (valid_bounds t Hv) as Hb.
  unfold fromisoformat, isoformat.
  rewrite parse_date_pad by lia.
  rewrite parse_time_pad by lia.
  destruct t; cbn in *. rewrite Hv. reflexivity.
Qed.

Example isoformat_with_microseconds :
  isoformat (mk_datetime 2024 2 29 23 59 7 1234) = "2024-02-29T23:59:07.001234"
  /\ isoformat (mk_datetime 987 1 2 3 4 5 0) = "0987-01-02T03:04:05".
Proof. by split. Qed.

Example fromisoformat_rejects :
  fromisoformat "2023-02-29T10:00:00" = Raise (Exc ValueError "field out of range")
  /\ fromisoformat "2024/02/29" = Raise (invalid_iso "2024/02/29")
  /\ fromisoformat "2024-02-29 10:11" = Normal (mk_datetime 2024 2 29 10 11 0 0).
Proof. by repeat split. Qed.

Example sub_one_day :
  sub (mk_datetime 2024 3 1 0 0 0 0) (mk_datetime 2024 2 29 0 0 0 0) = timedelta_hours 24.
Proof. reflexivity. Qed.

End DatetimeFacts.

(** ** [SearchResult]: dictionary round trip *)

Module SearchResultFacts.
Import Datetime Effects WebSearch Props.

Lemma to_dict_lookup r :
  to_dict r !! "title" = Some (title r) /\
  to_dict r !! "url" = Some (url r) /\
  to_dict r !! "snippet" = Some (snippet r) /\
  to_dict r !! "source" = Some (source r) /\
  to_dict r !! "timestamp" =
    Some (match timestamp r with Some t => PStr (isoformat t) | None => PNone end).
Proof. unfold to_dict. repeat split; by simplify_map_eq. Qed.

Lemma from_dict_to_dict r : timestamp_ok r -> from_dict (to_dict r) = Normal r.
Proof.
  intros Hok. destruct (to_dict_lookup r) as (Ht & Hu & Hs & Hc & Hts).
  unfold from_dict. rewrite Ht, Hu, Hs, Hc, Hts. cbn [default].
  destruct r as [ti u sn so [t|]]; cbn in *.
  - rewrite DatetimeFacts.fromisoformat_isoformat by exact Hok. reflexivity.
  - reflexivity.
Qed.

Lemma mapR_from_dict_to_dict rs :
  Forall timestamp_ok rs -> mapR from_dict (to_dict <$> rs) = Normal rs.
Proof.
  induction 1 as [| r rs Hr _ IH]; [reflexivity |].
  cbn. rewrite from_dict_to_dict by exact Hr. cbn. rewrite IH. reflexivity.
Qed.

End SearchResultFacts.

(** ** [SearchResult] with any [datetime]: dictionary round trip *)

Module TzinfoFacts.
Import Tzinfo.









End TzinfoFacts.

Module SearchResultAwareFacts.
Import WebSearchAware.



(** On naive results the two models write the same dictionary. *)
Lemma to_dict_of_naive lib r :
  to_dict lib (of_naive r) = WebSearch.to_dict r.
Proof. unfold to_dict, WebSearch.to_dict, of_naive. by destruct r as [? ? ? ? [t |]]. Qed.

End SearchResultAwareFacts.




(** ** Reasoning about effectful code *)

Module EffectsFacts.
Import Datetime Effects Props.

Lemma net_only_refl {C} (s : St C) : net_only s s.
Proof. split; [reflexivity | exists []; by rewrite app_nil_r]. Qed.

Lemma net_only_trans {C} (s1 s2 s3 : St C) :
  net_only s1 s2 -> net_only s2 s3 -> net_only s1 s3.
Proof.
  intros [Hc1 [l1 Hl1]] [Hc2 [l2 Hl2]]. split; [congruence |].
  exists (l1 ++ l2). rewrite Hl2, Hl1. by rewrite app_assoc.
Qed.

Lemma sends_net_only {C} (s1 s2 s3 : St C) :
  sends s1 s2 -> net_only s2 s3 -> sends s1 s3.
Proof.
  intros [Hc1 (r & l1 & Hl1)] [Hc2 [l2 Hl2]]. split; [congruence |].
  exists r, (l1 ++ l2). rewrite Hl2, Hl1. by rewrite <- app_assoc.
Qed.

Lemma net_only_sends {C} (s1 s2 s3 : St C) :
  net_only s1 s2 -> sends s2 s3 -> sends s1 s3.
Proof.
  intros [Hc1 [l1 Hl1]] [Hc2 (r & l2 & Hl2)]. split; [congruence |].
  destruct l1 as [| r1 l1].
  - exists r, l2. rewrite Hl2, Hl1. by rewrite app_nil_r.
  - exists r1, (l1 ++ r :: l2). rewrite Hl2, Hl1. by rewrite <- app_assoc.
Qed.

Lemma quiet_refl {C} (s : St C) : quiet s s.
Proof. by split. Qed.

Lemma quiet_trans {C} (s1 s2 s3 : St C) : quiet s1 s2 -> quiet s2 s3 -> quiet s1 s3.
Proof. intros [? ?] [? ?]. split; congruence. Qed.

#[global] Instance net_only_frame {C} : Frame (@net_only C).
Proof.
  split; [apply net_only_refl | apply net_only_trans |].
  intros s. split; [reflexivity | exists []; cbn; by rewrite app_nil_r].
Qed.

#[global] Instance quiet_frame {C} : Frame (@quiet C).
Proof. split; [apply quiet_refl | apply quiet_trans | by split]. Qed.

Section Rules.
Context {C : Type} (R : St C -> St C -> Prop) `{!Frame R}.

Lemma inv_ret {A} (phi : A -> Prop) a : phi a -> inv_m R phi (ret a).
Proof.
  intros Ha s. split; [apply frame_refl |].
  cbn. intros a' [= <-]. exact Ha.
Qed.

Lemma inv_raise {A} (phi : A -> Prop) e : inv_m R phi (raise e).
Proof. intros s. split; [apply frame_refl | discriminate]. Qed.

Lemma inv_lift {A} (phi : A -> Prop) (r : result A) :
  (forall a, r = Normal a -> phi a) -> inv_m R phi (lift r).
Proof. intros H s. split; [apply frame_refl | exact H]. Qed.

Lemma inv_now (w : World) (phi : datetime -> Prop) :
  (forall i, phi (clock w i)) -> inv_m R phi (now w).
Proof.
  intros H s. split; [apply frame_tick |].
  cbn. intros a [= <-]. apply H.
Qed.

Lemma inv_bind {A B} (phi : A -> Prop) (psi : B -> Prop) (m : M C A) (k : A -> M C B) :
  inv_m R phi m ->
  (forall a, phi a -> inv_m R psi (k a)) ->
  inv_m R psi (bind m k).
Proof.
  intros Hm Hk s. unfold bind.
  destruct (Hm s) as [HR Hphi]. destruct (m s) as [[a | e] s1]; cbn in *.
  - destruct (Hk a (Hphi a eq_refl) s1) as [HR' Hpsi].
    split; [eapply frame_trans; eassumption | exact Hpsi].
  - split; [exact HR | discriminate].
Qed.

Lemma inv_try_catch {A} (phi : A -> Prop) (m : M C A) (h : PyExc -> M C A) :
  inv_m R phi m ->
  (forall e, inv_m R phi (h e)) ->
  inv_m R phi (try_catch m h).
Proof.
  intros Hm Hh s. unfold try_catch.
  destruct (Hm s) as [HR Hphi]. destruct (m s) as [[a | e] s1]; cbn in *.
  - split; [exact HR | exact Hphi].
  - destruct (Hh e s1) as [HR' Hphi'].
    split; [eapply frame_trans; eassumption | exact Hphi'].
Qed.

Lemma inv_mapM {A B} (phi : B -> Prop) (f : A -> M C B) (l : list A) :
  (forall x, inv_m R phi (f x)) ->
  inv_m R (Forall phi) (mapM f l).
Proof.
  intros Hf. induction l as [| x l IH]; cbn [mapM].
  - apply inv_ret. constructor.
  - eapply inv_bind; [apply Hf |]. intros y Hy.
    eapply inv_bind; [apply IH |]. intros ys Hys.
    apply inv_ret. by constructor.
Qed.

(** A step that may raise and whose value is not constrained. *)
Lemma inv_lift_any {A} (r : result A) : inv_m R (fun _ => True) (lift r).
Proof. by apply inv_lift. Qed.
End Rules.

Lemma inv_send {C} (w : World) r : inv_m (@net_only C) (fun _ => True) (send w r).
Proof. intros s. split; [| done]. split; [reflexivity | by exists [r]]. Qed.

(** A computation that starts by sending a request has sent one when it
    ends, however it ends. *)
Lemma send_first {C A} (phi : A -> Prop) (w : World) r (k : Response -> M C A)
    (h : PyExc -> M C A) :
  (forall a, inv_m net_only phi (k a)) ->
  (forall e, inv_m net_only phi (h e)) ->
  forall s, sends s (snd (try_catch (bind (send w r) k) h s)).
Proof.
  intros Hk Hh s. unfold try_catch, bind, send.
  assert (Hs : sends s (mk_St (cache s) (ticks s) (sent s ++ [r])))
    by (split; [reflexivity | by exists r, []]).
  destruct (net w (length (sent s)) r) as [a | e].
  - destruct (Hk a (mk_St (cache s) (ticks s) (sent s ++ [r]))) as [HR _].
    destruct (k a _) as [[b | e] s1]; cbn in *.
    + eapply sends_net_only; eassumption.
    + destruct (Hh e s1) as [HR' _].
      eapply sends_net_only; [| exact HR']. eapply sends_net_only; eassumption.
  - destruct (Hh e (mk_St (cache s) (ticks s) (sent s ++ [r]))) as [HR' _].
    eapply sends_net_only; eassumption.
Qed.

(** The rules, with the frame found once the goal has fixed the relation. *)
Ltac inv_bind := eapply inv_bind; [exact _ | |].
Ltac inv_pure := first [apply inv_lift_any; exact _ | apply inv_raise; exact _].
Ltac inv_ret := apply inv_ret; [exact _ |].
Ltac inv_now H := apply inv_now with (phi := fun t => Datetime.valid t = true); [exact _ | exact H].
Ltac inv_try := apply inv_try_catch; [exact _ | |].

End EffectsFacts.

(** ** [WebSearcher]: what the two searches and the cache do *)

Module WebSearchFacts.
Import Datetime Effects WebSearch Props EffectsFacts SearchResultFacts.

Section Searcher.
Variable w : World.
Variable self : WebSearcher.
Hypothesis Hclock : clock_valid w.

Lemma api_item_inv item : inv_m net_only timestamp_ok (api_item w item).
Proof.
  unfold api_item.
  inv_bind; [inv_pure |]. intros t _.
  inv_bind; [inv_pure |]. intros u _.
  inv_bind; [inv_pure |]. intros s _.
  inv_bind; [inv_now Hclock |]. intros ts Hts.
  inv_ret. exact Hts.
Qed.

Lemma scrape_loop_inv elems :
  inv_m net_only (Forall timestamp_ok) (scrape_loop w elems).
Proof.
  induction elems as [| el rest IH]; cbn [scrape_loop].
  - inv_ret. constructor.
  - destruct (title_elem el) as [title_text |]; [| exact IH].
    destruct (url_elem el) as [href |]; [| exact IH].
    eapply inv_bind with (phi := fun _ => True); [exact _ | |].
    { inv_try; [| intros e; by inv_ret].
      inv_bind; [apply inv_send |]. intros r _. by inv_ret. }
    intros final_url _.
    inv_bind; [inv_now Hclock |]. intros ts Hts.
    inv_bind; [apply IH |]. intros more Hmore.
    inv_ret. constructor; [exact Hts | exact Hmore].
Qed.

Lemma api_continuation_inv num_results response :
  inv_m net_only (Forall timestamp_ok)
    (bind (lift (raise_for_status response)) (fun _ =>
     bind (lift (resp_json response)) (fun data =>
     bind (lift (rbind (dict_get data "items" (PList []))
                       (fun v => slice_items v num_results)))
          (fun items => mapM (C := CacheEntry) (api_item w) items)))).
Proof using Hclock.
  inv_bind; [inv_pure |]. intros _ _.
  inv_bind; [inv_pure |]. intros data _.
  inv_bind; [inv_pure |]. intros items _.
  apply inv_mapM; [exact _ |]. apply api_item_inv.
Qed.

Lemma scrape_continuation_inv num_results response :
  inv_m net_only (Forall timestamp_ok)
    (bind (lift (raise_for_status response)) (fun _ =>
       scrape_loop w (slice_to num_results (soup_results w (resp_text response))))).
Proof using Hclock.
  inv_bind; [inv_pure |]. intros _ _.
  apply scrape_loop_inv.
Qed.

Lemma search_with_api_inv query num_results :
  inv_m net_only (Forall timestamp_ok) (_search_with_api w self query num_results).
Proof using Hclock.
  unfold _search_with_api. inv_try; [| intros e; inv_pure].
  inv_bind; [apply inv_send |]. intros response _.
  apply api_continuation_inv.
Qed.

Lemma search_with_scraping_inv query num_results :
  inv_m net_only (Forall timestamp_ok) (_search_with_scraping w self query num_results).
Proof using Hclock.
  unfold _search_with_scraping. inv_try; [| intros e; inv_pure].
  inv_bind; [apply inv_send |]. intros response _.
  apply scrape_continuation_inv.
Qed.

Lemma search_with_api_sends query num_results s :
  sends s (snd (_search_with_api w self query num_results s)).
Proof using Hclock.
  unfold _search_with_api.
  apply send_first with (phi := Forall timestamp_ok).
  - intros response. apply api_continuation_inv.
  - intros e. inv_pure.
Qed.

Lemma search_with_scraping_sends query num_results s :
  sends s (snd (_search_with_scraping w self query num_results s)).
Proof using Hclock.
  unfold _search_with_scraping.
  apply send_first with (phi := Forall timestamp_ok).
  - intros response. apply scrape_continuation_inv.
  - intros e. inv_pure.
Qed.

Lemma chosen_search_inv query num_results use_api :
  inv_m net_only (Forall timestamp_ok) (chosen_search w self query num_results use_api).
Proof using Hclock.
  unfold chosen_search.
  destruct (_ && _); [apply search_with_api_inv | apply search_with_scraping_inv].
Qed.

Lemma chosen_search_sends query num_results use_api s :
  sends s (snd (chosen_search w self query num_results use_api s)).
Proof using Hclock.
  unfold chosen_search.
  destruct (_ && _); [apply search_with_api_sends | apply search_with_scraping_sends].
Qed.

(** A successful primary path: the results have proper timestamps, and
    the cache is the old one with the entry for the key, stamped with the
    last clock reading of the call. *)
Lemma search_primary_normal query num_results use_api s results s1 :
  search_primary w self query num_results use_api s = (Normal results, s1) ->
  Forall timestamp_ok results /\
  cache s1 = <[cache_key query num_results :=
                 mk_CacheEntry (to_dict <$> results) (clock w (pred (ticks s1)))]> (cache s) /\
  (exists r l, sent s1 = sent s ++ r :: l).
Proof using Hclock.
  unfold search_primary. fold (chosen_search w self query num_results use_api).
  unfold bind at 1.
  destruct (chosen_search_inv query num_results use_api s) as [_ Hok].
  destruct (chosen_search_sends query num_results use_api s) as [Hc Hs].
  destruct (chosen_search w self query num_results use_api s) as [[rs | e] s']; cbn in *;
    [| discriminate].
  intros [= <- <-]. cbn. rewrite Hc. auto.
Qed.

(** A failed primary path leaves the cache alone. *)
Lemma search_primary_raise query num_results use_api s e s1 :
  search_primary w self query num_results use_api s = (Raise e, s1) ->
  sends s s1.
Proof using Hclock.
  unfold search_primary. fold (chosen_search w self query num_results use_api).
  unfold bind at 1.
  pose proof (chosen_search_sends query num_results use_api s) as Hs.
  destruct (chosen_search w self query num_results use_api s) as [[rs | e'] s']; cbn in *.
  - discriminate.
  - intros [= <- <-]. exact Hs.
Qed.

(** The three outcomes of "Check cache first". *)
Lemma cached_results_absent key s :
  cache s !! key = None -> cached_results w key s = (Normal None, s).
Proof. intros H. unfold cached_results, bind, cache_get. rewrite H. reflexivity. Qed.

Lemma cached_results_fresh key s entry :
  cache s !! key = Some entry ->
  sub (clock w (ticks s)) (entry_timestamp entry) < cache_duration ->
  cached_results w key s = (Normal (Some (entry_results entry)), tick s).
Proof.
  intros H Hlt. unfold cached_results, bind, cache_get. rewrite H. cbn.
  apply Z.ltb_lt in Hlt. rewrite Hlt. reflexivity.
Qed.

Lemma cached_results_stale key s entry :
  cache s !! key = Some entry ->
  cache_duration <= sub (clock w (ticks s)) (entry_timestamp entry) ->
  cached_results w key s = (Normal None, tick s).
Proof.
  intros H Hge. unfold cached_results, bind, cache_get. rewrite H. cbn.
  apply Z.ltb_ge in Hge. rewrite Hge. reflexivity.
Qed.

(** A lookup changes neither cache nor log, and a miss is an absent or a
    stale entry. *)
Lemma cached_results_miss key s s0 :
  cached_results w key s = (Normal None, s0) ->
  cache s0 = cache s /\ sent s0 = sent s /\
  match cache s !! key with
  | Some entry => cache_duration <= sub (clock w (ticks s)) (entry_timestamp entry)
  | None => True
  end.
Proof.
  unfold cached_results, bind, cache_get.
  destruct (cache s !! key) as [entry |]; cbn.
  - destruct (_ <? _) eqn:E; intros [= <-]; cbn.
    apply Z.ltb_ge in E. auto.
  - intros [= <-]. auto.
Qed.

(** After a miss, [search] has sent a request when it ends, whatever
    the outcome. *)
Lemma search_after_miss query num_results use_api s s0 :
  cached_results w (cache_key query num_results) s = (Normal None, s0) ->
  exists r l, sent (snd (search w self query num_results use_api s)) = sent s ++ r :: l.
Proof using Hclock.
  intros Hmiss. destruct (cached_results_miss _ _ _ Hmiss) as (_ & Hsent & _).
  unfold search. unfold bind at 1. rewrite Hmiss. unfold try_catch.
  destruct (search_primary w self query num_results use_api s0) as [[rs | e] s1] eqn:E.
  - apply search_primary_normal in E. cbn. rewrite <- Hsent. apply E.
  - apply search_primary_raise in E. cbn. rewrite <- Hsent.
    destruct use_api; cbn.
    + pose proof (search_with_scraping_sends query num_results s1) as H2.
      destruct (net_only_sends s0 s1 _ ltac:(destruct E as [? (r & l & ?)]; split; eauto) H2)
        as [_ H]. exact H.
    + apply E.
Qed.
End Searcher.

End WebSearchFacts.

(** ** The search cache *)

Module WebSearchExamples.
Import Datetime Effects WebSearch Props EffectsFacts WebSearchFacts Examples.

Lemma jumping_clock_valid temp : clock_valid (online temp).
Proof. intros i. cbn. unfold jumping_clock. destruct (i <? 5)%nat; reflexivity. Qed.

Lemma api_down_clock_valid : clock_valid api_down.
Proof. intros i. cbn. unfold jumping_clock. destruct (i <? 5)%nat; reflexivity. Qed.

Example search_online :
  search (online PNone) with_keys "opus one" 3 true fresh
  = (Normal [google_result],
     mk_St {[ "search_opus one_3" := mk_CacheEntry [to_dict google_result] noon_jan_1 ]} 2
           [api_request with_keys "opus one" 3]).
Proof. vm_compute. reflexivity. Qed.

Example search_api_down :
  fst (search api_down with_keys "opus one" 3 true fresh) = Normal [scraped_result]
  /\ cache (snd (search api_down with_keys "opus one" 3 true fresh)) = ∅
  /\ sent (snd (search api_down with_keys "opus one" 3 true fresh))
     = [api_request with_keys "opus one" 3; scrape_request "opus one";
        Head "https://example.com/opus"].
Proof. vm_compute. repeat split. Qed.

(** Two days later the entry is stale: the same call asks the API again. *)
Example search_online_stale :
  sent (snd (search (online PNone) with_keys "opus one" 3 true
               (mk_St {[ "search_opus one_3" := mk_CacheEntry [to_dict google_result] noon_jan_1 ]}
                      5 [api_request with_keys "opus one" 3])))
  = [api_request with_keys "opus one" 3; api_request with_keys "opus one" 3].
Proof. vm_compute. reflexivity. Qed.

End WebSearchExamples.

(** C4.  A call of [search] that misses the cache and whose primary path
    succeeds returns the results and caches them under the key of
    [(query, num_results)], stamped with the call's last clock reading.  A
    later call for the same pair, read less than 24 hours after the stamp,
    returns the same results and sends nothing; read 24 hours after it or
    later, the call sends a request again. *)
Theorem search_cache_window (w : Effects.World) (self : WebSearch.WebSearcher)
    (query : string) (num_results : Z) (use_api : bool)
    (s s0 s1 : Effects.St WebSearch.CacheEntry) (results : list WebSearch.SearchResult) :
  Props.clock_valid w ->
  WebSearch.cached_results w (WebSearch.cache_key query num_results) s = (Normal None, s0) ->
  WebSearch.search_primary w self query num_results use_api s0 = (Normal results, s1) ->
  let stamp := Effects.clock w (pred (Effects.ticks s1)) in
  WebSearch.search w self query num_results use_api s = (Normal results, s1) /\
  Effects.cache s1 !! WebSearch.cache_key query num_results
    = Some (WebSearch.mk_CacheEntry (WebSearch.to_dict <$> results) stamp) /\
  forall (s2 : Effects.St WebSearch.CacheEntry) (use_api' : bool),
    Effects.cache s2 = Effects.cache s1 ->
    (Datetime.sub (Effects.clock w (Effects.ticks s2)) stamp < WebSearch.cache_duration ->
     WebSearch.search w self query num_results use_api' s2
     = (Normal results, Props.tick s2)) /\
    (WebSearch.cache_duration <= Datetime.sub (Effects.clock w (Effects.ticks s2)) stamp ->
     exists r l,
       Effects.sent (snd (WebSearch.search w self query num_results use_api' s2))
       = Effects.sent s2 ++ r :: l).
Proof.
  intros Hclock Hmiss Hprim stamp.
  destruct (WebSearchFacts.search_primary_normal w self Hclock _ _ _ _ _ _ Hprim)
    as (Hok & Hcache & _).
  assert (Hentry : Effects.cache s1 !! WebSearch.cache_key query num_results
                   = Some (WebSearch.mk_CacheEntry (WebSearch.to_dict <$> results) stamp))
    by (rewrite Hcache; apply lookup_insert_eq).
  split; [| split; [exact Hentry |]].
  - unfold WebSearch.search. unfold Effects.bind at 1. rewrite Hmiss.
    unfold Effects.try_catch. rewrite Hprim. reflexivity.
  - intros s2 use_api' Hsame. rewrite <- Hsame in Hentry. split; intros Hage.
    + unfold WebSearch.search. unfold Effects.bind at 1.
      rewrite (WebSearchFacts.cached_results_fresh w _ _ _ Hentry Hage).
      cbn [WebSearch.entry_results]. unfold Effects.lift.
      rewrite SearchResultFacts.mapR_from_dict_to_dict by exact Hok. reflexivity.
    + eapply WebSearchFacts.search_after_miss; [exact Hclock |].
      apply (WebSearchFacts.cached_results_stale w _ _ _ Hentry Hage).
Qed.

Lemma search_cache_window_witness :
  WebSearch.search (Examples.online PNone) Examples.with_keys "opus one" 3 true
    (snd (WebSearch.search (Examples.online PNone) Examples.with_keys "opus one" 3 true
            Examples.fresh))
  = (Normal [Examples.google_result],
     Props.tick
       (snd (WebSearch.search (Examples.online PNone) Examples.with_keys "opus one" 3 true
               Examples.fresh))).
Proof.
  refine (proj1 (proj2 (proj2
    (search_cache_window (Examples.online PNone) Examples.with_keys "opus one" 3 true
       Examples.fresh Examples.fresh
       (snd (WebSearch.search (Examples.online PNone) Examples.with_keys "opus one" 3 true
               Examples.fresh))
       [Examples.google_result] _ _ _)) _ true _) _).
  - apply WebSearchExamples.jumping_clock_valid.
  - vm_compute. reflexivity.
  - vm_compute. reflexivity.
  - reflexivity.
  - vm_compute. reflexivity.
Defined.

(** C10.  When the primary path of [search] raises and the scraping
    fallback returns results, [search] returns them and the cache is what
    it was.  A repeated call for the same pair, its clock reading not
    earlier than the first call's, misses the cache again and sends a
    request. *)
Theorem search_fallback_not_cached (w : Effects.World) (self : WebSearch.WebSearcher)
    (query : string) (num_results : Z)
    (s s0 s_raised s1 : Effects.St WebSearch.CacheEntry) (e : PyExc)
    (results : list WebSearch.SearchResult) :
  Props.clock_valid w ->
  WebSearch.cached_results w (WebSearch.cache_key query num_results) s = (Normal None, s0) ->
  WebSearch.search_primary w self query num_results true s0 = (Raise e, s_raised) ->
  WebSearch._search_with_scraping w self query num_results s_raised = (Normal results, s1) ->
  WebSearch.search w self query num_results true s = (Normal results, s1) /\
  Effects.cache s1 = Effects.cache s /\
  forall (s2 : Effects.St WebSearch.CacheEntry) (use_api' : bool),
    Effects.cache s2 = Effects.cache s1 ->
    0 <= Datetime.sub (Effects.clock w (Effects.ticks s2)) (Effects.clock w (Effects.ticks s)) ->
    (exists s3, WebSearch.cached_results w (WebSearch.cache_key query num_results) s2
                = (Normal None, s3)) /\
    (exists r l,
       Effects.sent (snd (WebSearch.search w self query num_results use_api' s2))
       = Effects.sent s2 ++ r :: l).
Proof.
  intros Hclock Hmiss Hprim Hscrape.
  destruct (WebSearchFacts.cached_results_miss w _ _ _ Hmiss) as (Hc0 & _ & Hstale).
  pose proof (WebSearchFacts.search_primary_raise w self Hclock _ _ _ _ _ _ Hprim) as [Hc1 _].
  pose proof (WebSearchFacts.search_with_scraping_inv w self Hclock query num_results s_raised)
    as [[Hc2 _] _].
  rewrite Hscrape in Hc2. cbn in Hc2.
  assert (Hsame1 : Effects.cache s1 = Effects.cache s) by congruence.
  split; [| split; [exact Hsame1 |]].
  - unfold WebSearch.search. unfold Effects.bind at 1. rewrite Hmiss.
    unfold Effects.try_catch. rewrite Hprim. exact Hscrape.
  - intros s2 use_api' Hsame Hlater.
    assert (Hmiss2 : exists s3,
               WebSearch.cached_results w (WebSearch.cache_key query num_results) s2
               = (Normal None, s3)).
    { destruct (Effects.cache s !! WebSearch.cache_key query num_results) as [entry |] eqn:E.
      - exists (Props.tick s2).
        apply WebSearchFacts.cached_results_stale with (entry := entry); [congruence |].
        unfold Datetime.sub in *. lia.
      - exists s2. apply WebSearchFacts.cached_results_absent. congruence. }
    split; [exact Hmiss2 |]. destruct Hmiss2 as [s3 Hmiss2].
    eapply WebSearchFacts.search_after_miss; eassumption.
Qed.

Lemma search_fallback_not_cached_witness :
  exists r l,
    Effects.sent (snd (WebSearch.search Examples.api_down Examples.with_keys "opus one" 3 true
       (snd (WebSearch.search Examples.api_down Examples.with_keys "opus one" 3 true
               Examples.fresh))))
    = Effects.sent (snd (WebSearch.search Examples.api_down Examples.with_keys "opus one" 3
                           true Examples.fresh)) ++ r :: l.
Proof.
  refine (proj2 (proj2 (proj2
    (search_fallback_not_cached Examples.api_down Examples.with_keys "opus one" 3
       Examples.fresh Examples.fresh
       (snd (WebSearch.search_primary Examples.api_down Examples.with_keys "opus one" 3 true
               Examples.fresh))
       (snd (WebSearch.search Examples.api_down Examples.with_keys "opus one" 3 true
               Examples.fresh))
       (Exc OtherException "Search API error: connection refused")
       [Examples.scraped_result] _ _ _ _)) _ true _ _)).
  - apply WebSearchExamples.api_down_clock_valid.
  - vm_compute. reflexivity.
  - vm_compute. reflexivity.
  - vm_compute. reflexivity.
  - reflexivity.
  - vm_compute. discriminate.
Defined.

(** ** [WeatherService]: what a lookup does to cache and log *)

Module WeatherFacts.
Import Datetime Effects Weather Props EffectsFacts.

Section Service.
Variable w : World.
Variable self : WeatherService.

Lemma format_weather_inv data : inv_m quiet (fun _ => True) (format_weather w data).
Proof.
  unfold format_weather.
  do 11 (inv_bind; [inv_pure |]; intros ? _).
  inv_bind; [apply inv_now with (phi := fun _ => True); [exact _ | done] |]. intros ts _.
  by inv_ret.
Qed.

(** The [try] body sends exactly one request; it writes the cache exactly
    when it returns, and what it returns is a [weather_info]. *)
Lemma fetch_weather_spec location s :
  sent (snd (fetch_weather w self location s)) = sent s ++ [weather_request self location] /\
  match fst (fetch_weather w self location s) with
  | Normal p =>
      has_error p = false /\
      cache (snd (fetch_weather w self location s))
      = <[cache_key location :=
            mk_CacheEntry p (clock w (pred (ticks (snd (fetch_weather w self location s)))))]>
          (cache s)
  | Raise _ => cache (snd (fetch_weather w self location s)) = cache s
  end.
Proof.
  unfold fetch_weather, bind, send, lift.
  destruct (net w _ _) as [response | e]; cbn -[format_weather]; [| auto].
  destruct (raise_for_status response); cbn -[format_weather]; [| auto].
  destruct (resp_json response) as [data | e]; cbn -[format_weather]; [| auto].
  destruct (format_weather_inv data (mk_St (cache s) (ticks s)
              (sent s ++ [weather_request self location]))) as [[Hc Hs] _].
  destruct (format_weather w data _) as [[info | e] s']; cbn in *.
  - rewrite Hc, Hs. auto.
  - auto.
Qed.

(** The [except] clauses turn an exception into an error payload or let
    it through; they do nothing else. *)
Lemma weather_handler_spec e s :
  snd (weather_handler e s) = s /\
  forall p, fst (weather_handler e s) = Normal p -> has_error p = true.
Proof.
  unfold weather_handler.
  destruct (isinstance e RequestException); [split; [done | by intros p [= <-]] |].
  destruct (_ || _); [split; [done | by intros p [= <-]] |].
  split; [done | discriminate].
Qed.

Lemma cached_weather_absent key s :
  cache s !! key = None -> cached_weather w key s = (Normal None, s).
Proof. intros H. unfold cached_weather, bind, cache_get. rewrite H. reflexivity. Qed.

Lemma cached_weather_fresh key s entry :
  cache s !! key = Some entry ->
  sub (clock w (ticks s)) (entry_timestamp entry) < cache_duration ->
  cached_weather w key s = (Normal (Some (entry_data entry)), tick s).
Proof.
  intros H Hlt. unfold cached_weather, bind, cache_get. rewrite H. cbn.
  apply Z.ltb_lt in Hlt. rewrite Hlt. reflexivity.
Qed.

Lemma cached_weather_stale key s entry :
  cache s !! key = Some entry ->
  cache_duration <= sub (clock w (ticks s)) (entry_timestamp entry) ->
  cached_weather w key s = (Normal None, tick s).
Proof.
  intros H Hge. unfold cached_weather, bind, cache_get. rewrite H. cbn.
  apply Z.ltb_ge in Hge. rewrite Hge. reflexivity.
Qed.

(** A lookup never raises, only reads the clock, and serves what an
    entry of the cache holds. *)
Lemma cached_weather_spec key s :
  exists hit s', cached_weather w key s = (Normal hit, s') /\ quiet s s' /\
    match hit with
    | Some p => exists entry, cache s !! key = Some entry /\ entry_data entry = p
    | None => True
    end.
Proof.
  unfold cached_weather, bind, cache_get.
  destruct (cache s !! key) as [entry |] eqn:E; cbn.
  - destruct (_ <? _); eexists _, _; (split; [reflexivity |]); split; try by split.
    by exists entry.
  - eexists _, _. split; [reflexivity |]. by split.
Qed.

(** [get_weather] when the key is configured and the lookup missed. *)
Lemma get_weather_miss location s s0 :
  truthy_str (api_key self) = true ->
  cached_weather w (cache_key location) s = (Normal None, s0) ->
  get_weather w self location s
  = try_catch (fetch_weather w self location) weather_handler s0.
Proof.
  intros Hkey Hmiss. unfold get_weather. rewrite Hkey. cbn.
  unfold bind at 1. rewrite Hmiss. reflexivity.
Qed.

Lemma get_weather_hit location s p s' :
  truthy_str (api_key self) = true ->
  cached_weather w (cache_key location) s = (Normal (Some p), s') ->
  get_weather w self location s = (Normal p, s').
Proof.
  intros Hkey Hhit. unfold get_weather. rewrite Hkey. cbn.
  unfold bind at 1. rewrite Hhit. reflexivity.
Qed.

(** An error payload comes with an untouched cache. *)
Lemma get_weather_error_cache location s p s1 :
  get_weather w self location s = (Normal p, s1) ->
  has_error p = true ->
  cache s1 = cache s.
Proof.
  intros Hcall Herr. destruct (truthy_str (api_key self)) eqn:Hkey.
  - destruct (cached_weather_spec (cache_key location) s) as (hit & s0 & Hlook & [Hc _] & _).
    destruct hit as [q |].
    + rewrite (get_weather_hit _ _ _ _ Hkey Hlook) in Hcall.
      injection Hcall as <- <-. exact Hc.
    + rewrite (get_weather_miss _ _ _ Hkey Hlook) in Hcall.
      unfold try_catch in Hcall.
      destruct (fetch_weather_spec location s0) as [_ Hf].
      destruct (fetch_weather w self location s0) as [[q | e] s'] eqn:E; cbn in Hf.
      * injection Hcall as <- <-. destruct Hf as [Hf _]. congruence.
      * destruct (weather_handler_spec e s') as [Hs _].
        rewrite Hcall in Hs. cbn in Hs. congruence.
  - unfold get_weather in Hcall. rewrite Hkey in Hcall. cbn in Hcall.
    by injection Hcall as <- <-.
Qed.

(** Whatever a call does, it puts no error payload into the cache. *)
Lemma get_weather_keeps_no_error location s :
  no_error_cached (cache s) ->
  no_error_cached (cache (snd (get_weather w self location s))).
Proof.
  intros Hinv. destruct (truthy_str (api_key self)) eqn:Hkey.
  - destruct (cached_weather_spec (cache_key location) s) as (hit & s0 & Hlook & [Hc _] & _).
    destruct hit as [q |].
    + rewrite (get_weather_hit _ _ _ _ Hkey Hlook). cbn. by rewrite Hc.
    + rewrite (get_weather_miss _ _ _ Hkey Hlook). unfold try_catch.
      destruct (fetch_weather_spec location s0) as [_ Hf].
      destruct (fetch_weather w self location s0) as [[q | e] s'] eqn:E; cbn in *.
      * destruct Hf as [Hq ->]. intros key entry.
        rewrite lookup_insert. case_decide.
        -- intros [= <-]. exact Hq.
        -- rewrite Hc. apply Hinv.
      * destruct (weather_handler_spec e s') as [-> _]. rewrite Hf, Hc. exact Hinv.
  - unfold get_weather. rewrite Hkey. exact Hinv.
Qed.

Lemma reachable_no_error s : reachable w self s -> no_error_cached (cache s).
Proof.
  induction 1 as [t l | s location _ IH | s t l _ IH].
  - intros key entry. cbn. by rewrite lookup_empty.
  - by apply get_weather_keeps_no_error.
  - exact IH.
Qed.

(** A call with a configured key that misses the cache sends the request
    for the location, once. *)
Lemma get_weather_miss_sends location s s0 :
  truthy_str (api_key self) = true ->
  cached_weather w (cache_key location) s = (Normal None, s0) ->
  sent (snd (get_weather w self location s)) = sent s ++ [weather_request self location].
Proof.
  intros Hkey Hmiss.
  destruct (cached_weather_spec (cache_key location) s) as (hit & s0' & Hlook & [_ Hs] & _).
  rewrite Hmiss in Hlook. injection Hlook as <- <-.
  rewrite (get_weather_miss _ _ _ Hkey Hmiss). unfold try_catch.
  destruct (fetch_weather_spec location s0) as [Hsent _].
  destruct (fetch_weather w self location s0) as [[q | e] s'] eqn:E; cbn in *.
  - by rewrite Hsent, Hs.
  - destruct (weather_handler_spec e s') as [-> _]. by rewrite Hsent, Hs.
Qed.
End Service.

End WeatherFacts.

(** ** The weather cache *)

Module WeatherExamples.
Import Effects Weather Examples.

Example weather_online :
  fst (get_weather (online (PInt 85)) service "Napa,CA,US" fresh) = Normal (Info (napa_info 85))
  /\ sent (snd (get_weather (online (PInt 85)) service "Napa,CA,US" fresh))
     = [weather_request service "Napa,CA,US"].
Proof. vm_compute. by split. Qed.

Example weather_missing_key :
  get_weather (online (PInt 85)) (mk_WeatherService None) "Napa,CA,US" fresh
  = (Normal (ErrorPayload "Weather service is not properly configured. Missing API key."),
     fresh).
Proof. reflexivity. Qed.

Example weather_request_fails :
  get_weather api_down service "Napa,CA,US" fresh
  = (Normal (ErrorPayload "Failed to fetch weather data: connection refused"),
     mk_St ∅ 0 [weather_request service "Napa,CA,US"]).
Proof. vm_compute. reflexivity. Qed.

Example weather_parse_fails :
  get_weather malformed service "Napa,CA,US" fresh
  = (Normal (ErrorPayload
               "Failed to parse weather data. The API response format may have changed."),
     mk_St ∅ 0 [weather_request service "Napa,CA,US"]).
Proof. vm_compute. reflexivity. Qed.

(** A temperature that is no number leaves [get_weather] as a
    [TypeError]: neither [except] clause names it. *)
Example weather_type_error :
  fst (get_weather (online (PStr "hot")) service "Napa,CA,US" fresh)
  = Raise (Exc TypeError "type doesn't define __round__ method").
Proof. vm_compute. reflexivity. Qed.

(** 49.5 rounds to the even neighbour 50, the lower end of the pleasant
    band. *)
Example summary_half_degree :
  fst (get_weather_summary (online (PFloat (Finite (99 # 2)))) service "Napa,CA,US" fresh)
  = Normal ("Current weather in Napa, US: clear sky with a temperature of 50°F "
            +:+ "(feels like 50°F). Humidity is at 40% and wind speed is 3 mph. "
            +:+ "Sunrise was at 07:00 and sunset will be at 07:00."
            +:+ advice_pleasant).
Proof. vm_compute. reflexivity. Qed.

End WeatherExamples.

(** C3.  A call of [get_weather] that went upstream and returned a
    weather record has cached it under the location's key, stamped with
    the call's last clock reading.  A later call for the location, read
    less than 30 minutes after the stamp, returns that same payload and
    sends nothing; read 30 minutes after it or later, the call sends the
    upstream request again. *)
Theorem weather_cache_window (w : Effects.World) (self : Weather.WeatherService)
    (location : string) (s s1 : Effects.St Weather.CacheEntry) (p : Weather.Payload) :
  Weather.get_weather w self location s = (Normal p, s1) ->
  Weather.has_error p = false ->
  Effects.sent s1 <> Effects.sent s ->
  let stamp := Effects.clock w (pred (Effects.ticks s1)) in
  Effects.cache s1 !! Weather.cache_key location = Some (Weather.mk_CacheEntry p stamp) /\
  forall s2 : Effects.St Weather.CacheEntry,
    Effects.cache s2 = Effects.cache s1 ->
    (Datetime.sub (Effects.clock w (Effects.ticks s2)) stamp < Weather.cache_duration ->
     Weather.get_weather w self location s2 = (Normal p, Props.tick s2)) /\
    (Weather.cache_duration <= Datetime.sub (Effects.clock w (Effects.ticks s2)) stamp ->
     Effects.sent (snd (Weather.get_weather w self location s2))
     = Effects.sent s2 ++ [Weather.weather_request self location]).
Proof.
  intros Hcall Hok Hsent stamp.
  assert (Hkey : Effects.truthy_str (Weather.api_key self) = true).
  { destruct (Effects.truthy_str (Weather.api_key self)) eqn:E; [done |].
    unfold Weather.get_weather in Hcall. rewrite E in Hcall. cbn in Hcall.
    injection Hcall as <- <-. discriminate. }
  assert (Hentry : Effects.cache s1 !! Weather.cache_key location
                   = Some (Weather.mk_CacheEntry p stamp)).
  { destruct (WeatherFacts.cached_weather_spec w (Weather.cache_key location) s)
      as (hit & s0 & Hlook & [_ Hs0] & _).
    destruct hit as [q |].
    - rewrite (WeatherFacts.get_weather_hit w self _ _ _ _ Hkey Hlook) in Hcall.
      injection Hcall as <- <-. congruence.
    - rewrite (WeatherFacts.get_weather_miss w self _ _ _ Hkey Hlook) in Hcall.
      unfold Effects.try_catch in Hcall.
      destruct (WeatherFacts.fetch_weather_spec w self location s0) as [_ Hf].
      destruct (Weather.fetch_weather w self location s0) as [[q | e] s'] eqn:E; cbn in Hf.
      + injection Hcall as <- <-. destruct Hf as [_ ->]. apply lookup_insert_eq.
      + destruct (WeatherFacts.weather_handler_spec e s') as [_ Herr].
        rewrite Hcall in Herr. specialize (Herr p eq_refl). congruence. }
  split; [exact Hentry |].
  intros s2 Hsame. rewrite <- Hsame in Hentry. split; intros Hage.
  - apply (WeatherFacts.get_weather_hit w self _ _ _ _ Hkey).
    apply (WeatherFacts.cached_weather_fresh w _ _ _ Hentry Hage).
  - apply (WeatherFacts.get_weather_miss_sends w self _ _ (Props.tick s2) Hkey).
    apply (WeatherFacts.cached_weather_stale w _ _ _ Hentry Hage).
Qed.

Lemma weather_cache_window_witness :
  Weather.get_weather (Examples.online (PInt 85)) Examples.service "Napa,CA,US"
    (snd (Weather.get_weather (Examples.online (PInt 85)) Examples.service "Napa,CA,US"
            Examples.fresh))
  = (Normal (Weather.Info (Examples.napa_info 85)),
     Props.tick
       (snd (Weather.get_weather (Examples.online (PInt 85)) Examples.service "Napa,CA,US"
               Examples.fresh))).
Proof.
  refine (proj1 (proj2
    (weather_cache_window (Examples.online (PInt 85)) Examples.service "Napa,CA,US"
       Examples.fresh
       (snd (Weather.get_weather (Examples.online (PInt 85)) Examples.service "Napa,CA,US"
               Examples.fresh))
       (Weather.Info (Examples.napa_info 85)) _ _ _) _ _) _).
  - vm_compute. reflexivity.
  - reflexivity.
  - vm_compute. discriminate.
  - reflexivity.
  - vm_compute. reflexivity.
Defined.

(** C9.  In any state the service can reach, a call of [get_weather] that
    returns an error payload leaves the cache as it was, and no later
    lookup, for any location and at any time, serves an error payload
    from that cache. *)
Theorem weather_errors_not_cached (w : Effects.World) (self : Weather.WeatherService)
    (location : string) (s s1 : Effects.St Weather.CacheEntry) (p : Weather.Payload) :
  Props.reachable w self s ->
  Weather.get_weather w self location s = (Normal p, s1) ->
  Weather.has_error p = true ->
  Effects.cache s1 = Effects.cache s /\
  forall (s2 s3 : Effects.St Weather.CacheEntry) (location' : string) (q : Weather.Payload),
    Effects.cache s2 = Effects.cache s1 ->
    Weather.cached_weather w (Weather.cache_key location') s2 = (Normal (Some q), s3) ->
    Weather.has_error q = false.
Proof.
  intros Hreach Hcall Herr.
  pose proof (WeatherFacts.get_weather_error_cache w self _ _ _ _ Hcall Herr) as Hsame.
  split; [exact Hsame |].
  intros s2 s3 location' q Hs2 Hlook.
  destruct (WeatherFacts.cached_weather_spec w (Weather.cache_key location') s2)
    as (hit & s' & Hlook' & _ & Hfrom).
  rewrite Hlook in Hlook'. injection Hlook' as <- <-.
  destruct Hfrom as (entry & Hentry & <-).
  apply (WeatherFacts.reachable_no_error w self s Hreach (Weather.cache_key location')).
  congruence.
Qed.

Lemma weather_errors_not_cached_witness :
  Effects.cache
    (snd (Weather.get_weather Examples.api_down Examples.service "Napa,CA,US" Examples.fresh))
  = Effects.cache (Examples.fresh (C := Weather.CacheEntry)).
Proof.
  refine (proj1
    (weather_errors_not_cached Examples.api_down Examples.service "Napa,CA,US"
       Examples.fresh
       (snd (Weather.get_weather Examples.api_down Examples.service "Napa,CA,US"
               Examples.fresh))
       (Weather.ErrorPayload "Failed to fetch weather data: connection refused") _ _ _)).
  - apply Props.reach_init.
  - vm_compute. reflexivity.
  - reflexivity.
Defined.

(** ** The weather summary *)

Module SummaryFacts.
Import Weather.

Lemma summary_text_advice w info :
  exists text advice,
    summary_text w info = text +:+ advice /\
    (80 < temperature info -> advice = advice_warm) /\
    (temperature info < 50 -> advice = advice_chilly) /\
    (50 <= temperature info <= 80 -> advice = advice_pleasant).
Proof.
  unfold summary_text.
  destruct (80 <? temperature info) eqn:Hwarm.
  - apply Z.ltb_lt in Hwarm. eexists _, advice_warm.
    split; [reflexivity |]. split; [| split]; intros; first [reflexivity | lia].
  - apply Z.ltb_ge in Hwarm. destruct (temperature info <? 50) eqn:Hcold.
    + apply Z.ltb_lt in Hcold. eexists _, advice_chilly.
      split; [reflexivity |]. split; [| split]; intros; first [reflexivity | lia].
    + apply Z.ltb_ge in Hcold. eexists _, advice_pleasant.
      split; [reflexivity |]. split; [| split]; intros; first [reflexivity | lia].
Qed.

End SummaryFacts.

(** C6.  When the lookup of [get_weather_summary] succeeds, the summary
    ends with the advice of the temperature's band: above 80 the chilled
    white or rosé, below 50 the bold red, from 50 to 80 the medium-bodied
    wine. *)
Theorem summary_ends_with_advice (w : Effects.World) (self : Weather.WeatherService)
    (location : string) (s s1 : Effects.St Weather.CacheEntry) (info : Weather.WeatherInfo) :
  Weather.get_weather w self location s = (Normal (Weather.Info info), s1) ->
  exists text advice,
    Weather.get_weather_summary w self location s = (Normal (text +:+ advice), s1) /\
    (80 < Weather.temperature info -> advice = Weather.advice_warm) /\
    (Weather.temperature info < 50 -> advice = Weather.advice_chilly) /\
    (50 <= Weather.temperature info <= 80 -> advice = Weather.advice_pleasant).
Proof.
  intros Hcall.
  destruct (SummaryFacts.summary_text_advice w info) as (text & advice & Htext & Hbands).
  exists text, advice. split; [| exact Hbands].
  unfold Weather.get_weather_summary, Effects.bind. rewrite Hcall.
  unfold Effects.ret. by rewrite Htext.
Qed.

Lemma summary_ends_with_advice_witness :
  exists text,
    fst (Weather.get_weather_summary (Examples.online (PInt 85)) Examples.service
           "Napa,CA,US" Examples.fresh)
    = Normal (text +:+ Weather.advice_warm).
Proof.
  destruct (summary_ends_with_advice (Examples.online (PInt 85)) Examples.service
              "Napa,CA,US" Examples.fresh
              (snd (Weather.get_weather (Examples.online (PInt 85)) Examples.service
                      "Napa,CA,US" Examples.fresh))
              (Examples.napa_info 85))
    as (text & advice & Hsummary & Hwarm & _).
  - vm_compute. reflexivity.
  - exists text. rewrite Hsummary. cbn [fst]. rewrite (Hwarm ltac:(cbn; lia)). reflexivity.
Defined.

(** ** The routing step *)

Module AgentFacts.
Import Agent.

Lemma last_item_cons {A} (x : A) (l : list A) : exists y, last_item (x :: l) = Normal y.
Proof.
  unfold last_item. revert x. induction l as [| z l IH]; intros x.
  - by exists x.
  - exact (IH z).
Qed.

(** The latest-message lookup never raises. *)
Lemma user_message_total state : exists input, user_message state = Normal input.
Proof.
  unfold user_message. destruct (messages state) as [| m l]; [by exists "" |].
  destruct (last_item_cons m l) as [y ->]. by exists (content y).
Qed.

End AgentFacts.

Module AgentExamples.
Import Agent.

(** The parsed JSON is a dictionary without a [tool] attribute: the
    logging line raises inside the [try] and the fallback is returned. *)
Example route_parsed_dict :
  _route (fun _ => Normal (Parsed (PDict [("tool", PStr "weather");
                                          ("tool_input", PStr "Napa,CA,US")])))
    (mk_AgentState [mk_Message human "What's the weather like in Napa?"] "" None None)
  = (Normal (Model (mk_ToolSelection RESPOND "")), ["What's the weather like in Napa?"]).
Proof. reflexivity. Qed.

Example route_model_object :
  _route (fun _ => Normal (Model (mk_ToolSelection WEATHER "Napa,CA,US")))
    (mk_AgentState [mk_Message human "Hi"; mk_Message ai "Hello";
                    mk_Message human "What's the weather like in Napa?"] "" None None)
  = (Normal (Model (mk_ToolSelection WEATHER "Napa,CA,US")),
     ["What's the weather like in Napa?"]).
Proof. reflexivity. Qed.

End AgentExamples.

(** C7.  With an empty message list the latest-message lookup yields the
    empty string instead of raising [IndexError]: the chain is invoked
    once, with the empty string, and the routing step returns a tool
    selection. *)
Theorem route_empty_messages (chain_invoke : string -> result Agent.ChainOutput)
    (context : string) (current_tool tool_result : option string) :
  let state := Agent.mk_AgentState [] context current_tool tool_result in
  Agent.user_message state = Normal "" /\
  snd (Agent._route chain_invoke state) = [""] /\
  exists selection, fst (Agent._route chain_invoke state) = Normal selection.
Proof.
  cbn. repeat split.
  unfold try_except, rbind. destruct (chain_invoke "") as [[v | sel] | e]; cbn; eauto.
Qed.

(** C2.  When the chain (the LLM call followed by the JSON parsing)
    raises on the router's input, [_route] returns the selection
    [{tool: respond, tool_input: ""}] and raises nothing. *)
Theorem route_falls_back (chain_invoke : string -> result Agent.ChainOutput)
    (state : Agent.AgentState) (e : PyExc) :
  (forall input, Agent.user_message state = Normal input -> chain_invoke input = Raise e) ->
  fst (Agent._route chain_invoke state)
  = Normal (Agent.Model (Agent.mk_ToolSelection Agent.RESPOND "")).
Proof.
  intros Hfail. unfold Agent._route.
  destruct (AgentFacts.user_message_total state) as [input Hinput].
  rewrite Hinput. cbn. rewrite (Hfail input Hinput). reflexivity.
Qed.

Lemma route_falls_back_witness :
  fst (Agent._route (fun _ => Raise (Exc ValueError "Invalid json output"))
         (Agent.mk_AgentState [Agent.mk_Message Agent.human "What's the weather in Napa?"]
            "" None None))
  = Normal (Agent.Model (Agent.mk_ToolSelection Agent.RESPOND "")).
Proof.
  apply (route_falls_back (fun _ => Raise (Exc ValueError "Invalid json output"))
           (Agent.mk_AgentState [Agent.mk_Message Agent.human "What's the weather in Napa?"]
              "" None None)
           (Exc ValueError "Invalid json output")).
  intros input _. reflexivity.
Defined.

(** ** The HTTP layer *)

(** C1, as the spec states it, fails: an exception raised inside the [try]
    of a route reaches the client as the detail of the response.  A chat
    request without messages raises [IndexError] on [messages[-1]], and the
    body of the 500 carries the text of that exception. *)
Lemma chat_detail_leaks :
  Api.route_body Examples.services (Api.POST_api_chat (Api.mk_ChatRequest [] None))
  = Raise (Exc IndexError "list index out of range") /\
  Api.handle Examples.services (Api.POST_api_chat (Api.mk_ChatRequest [] None))
  = Api.mk_JSONResponse 500 (PDict [("detail", PStr "list index out of range")]) /\
  Api.handle Examples.services (Api.POST_api_chat (Api.mk_ChatRequest [] None))
  <> Api.generic_500.
Proof. repeat split. discriminate. Qed.

(** C1, amended.  A request whose route statements raise an exception that
    is not an [HTTPException] is answered with status 500.  The body is
    the fixed generic message when the route has no [try] of its own
    (the exception reaches the global handler); when the statements stand
    in the route's [try], the body's detail is the text of the
    exception. *)
Theorem unexpected_exception_response (sv : Api.Services) (ep : Api.Endpoint)
    (cls : exc_class) (msg : string) :
  Api.route_body sv ep = Raise (Exc cls msg) ->
  Api.handle sv ep
  = Api.mk_JSONResponse 500
      (PDict [("detail", PStr (if Api.in_try ep then msg
                               else "An unexpected error occurred"))]).
Proof.
  intros Hraise. unfold Api.handle.
  destruct ep; cbn in Hraise |- *.
  - rewrite Hraise. reflexivity.
  - unfold Api.chat. rewrite Hraise. reflexivity.
  - unfold Api.get_weather. rewrite Hraise. reflexivity.
  - unfold Api.upload_documents. rewrite Hraise. reflexivity.
  - unfold Api.search_web. rewrite Hraise. reflexivity.
  - discriminate.
Qed.

Lemma unexpected_exception_response_witness :
  Api.handle Examples.services (Api.POST_api_chat (Api.mk_ChatRequest [] None))
  = Api.mk_JSONResponse 500 (PDict [("detail", PStr "list index out of range")]).
Proof.
  apply (unexpected_exception_response Examples.services
           (Api.POST_api_chat (Api.mk_ChatRequest [] None))
           IndexError "list index out of range").
  reflexivity.
Defined.

(** ** The local variant's recommendation route *)

Module AppFacts.
Import App Props.

(** The f-string of the prompt raises [NameError], whatever the locals
    hold. *)
Lemma prompt_raises request search_results formatted_results :
  eval_fstring [("request", request_object request);
                ("search_results", PList search_results);
                ("formatted_results", PList formatted_results)] prompt_fstring
  = Raise name_error.
Proof. reflexivity. Qed.

End AppFacts.

Module AppExamples.
Import App Examples.

Example recommend_search_up :
  recommend_wine search_up (mk_WineRecommendationRequest "red" (Some 5))
  = (Raise (HTTPException 500 "name 'search_context' is not defined"), []).
Proof. vm_compute. reflexivity. Qed.

Example recommend_search_down :
  recommend_wine search_down (mk_WineRecommendationRequest "red" (Some 5))
  = (Raise (HTTPException 500 "Ratelimit"), []).
Proof. vm_compute. reflexivity. Qed.

End AppExamples.

(** C8, as the spec states it, fails: when the search client raises, the
    handler leaves its [try] through that exception and never evaluates
    the f-string, so the exception is not the [NameError]. *)
Lemma recommend_not_always_name_error :
  ~ (forall (env : App.Env) (request : App.WineRecommendationRequest),
       fst (App.recommend_wine_body env request) = Raise Props.name_error).
Proof.
  intros H.
  specialize (H Examples.search_down (App.mk_WineRecommendationRequest "red" (Some 5))).
  discriminate H.
Qed.

(** C8, amended.  Every request to the recommendation route ends in the
    error branch, an [HTTPException] with status 500, and no prompt reaches
    [llm.generate].  When the search and the formatting of its results go
    through, the exception caught is the [NameError] for [search_context];
    otherwise it is the exception the search or the formatting raised. *)
Theorem recommend_wine_always_500 (env : App.Env) (request : App.WineRecommendationRequest) :
  exists e,
    App.recommend_wine_body env request = (Raise e, []) /\
    App.recommend_wine env request = (Raise (HTTPException 500 (str_exc e)), []) /\
    match App.search_text env ("wine recommendation " +:+ App.query request)
            (App.max_results request) with
    | Raise e' => e = e'
    | Normal search_results =>
        match Effects.mapR App.format_result search_results with
        | Raise e' => e = e'
        | Normal _ => e = Props.name_error
        end
    end.
Proof.
  unfold App.recommend_wine, App.recommend_wine_body.
  destruct (App.search_text env _ _) as [search_results | e]; [| by exists e].
  destruct (Effects.mapR App.format_result search_results) as [formatted | e];
    [| by exists e].
  exists Props.name_error.
  rewrite (AppFacts.prompt_raises request search_results formatted). cbn. done.
Qed.

(* ===================================================================== *)
(** * Further properties of the code *)
(* ===================================================================== *)

(** ** Cache keys of the search *)

Module KeyFacts.
Import Props2.

Lemma pretty_N_char_no_underscore x : pretty_N_char x <> "_"%char.
Proof. unfold pretty_N_char. by repeat case_match. Qed.

Lemma pretty_N_go_no_underscore x : forall s, no_underscore s -> no_underscore (pretty_N_go x s).
Proof.
  induction (N.lt_wf_0 x) as [x _ IH]. intros s Hs.
  destruct (decide (x = 0)%N) as [-> | Hx].
  - by rewrite pretty_N_go_0.
  - rewrite pretty_N_go_step by lia. apply IH.
    + apply N.div_lt; lia.
    + split; [apply pretty_N_char_no_underscore | exact Hs].
Qed.

Lemma pretty_N_no_underscore (x : N) : no_underscore (pretty x).
Proof.
  unfold pretty, pretty_N. case_decide; [by repeat split |].
  by apply pretty_N_go_no_underscore.
Qed.

(** [str(n)] of an [int] has digits and a sign, never an underscore. *)
Lemma pretty_Z_no_underscore (z : Z) : no_underscore (pretty z).
Proof.
  unfold pretty, pretty_Z. destruct z as [| p | p].
  - by repeat split.
  - apply pretty_N_no_underscore.
  - split; [done | apply pretty_N_no_underscore].
Qed.

Lemma no_underscore_app a b : ~ no_underscore (a +:+ String "_" b).
Proof. induction a as [| c a IH]; cbn; [intros [? _]; done | intros [_ ?]; auto]. Qed.

(** The last underscore splits a key in one way only. *)
Lemma split_at_last_underscore q q' a b :
  no_underscore a -> no_underscore b ->
  q +:+ String "_" a = q' +:+ String "_" b -> q = q' /\ a = b.
Proof.
  intros Ha Hb. revert q'. induction q as [| c q IH]; intros [| c' q']; cbn.
  - by intros [= ->].
  - intros [= <- ->]. by destruct (no_underscore_app q' b).
  - intros [= -> <-]. by destruct (no_underscore_app q a).
  - intros [= -> H]. destruct (IH _ H) as [-> ->]. done.
Qed.

End KeyFacts.

(** X1.  Two different [(query, num_results)] pairs never share a cache
    key, whatever underscores and digits the queries contain. *)
Theorem search_cache_key_inj (query query' : string) (num_results num_results' : Z) :
  WebSearch.cache_key query num_results = WebSearch.cache_key query' num_results' ->
  query = query' /\ num_results = num_results'.
Proof.
  unfold WebSearch.cache_key. cbn. intros [= H].
  apply KeyFacts.split_at_last_underscore in H;
    [| apply KeyFacts.pretty_Z_no_underscore ..].
  destruct H as [-> H]. split; [done |]. by apply (inj pretty).
Qed.

Lemma search_cache_key_inj_witness :
  "a_1" = "a_1" /\ 2 = 2.
Proof.
  apply (search_cache_key_inj "a_1" "a_1" 2 2). reflexivity.
Defined.

(** ** More on [WebSearcher.search] *)

Module WebSearchFacts2.
Import Datetime Effects WebSearch Props Props2 EffectsFacts.

(** The values of a list mapped with effects are as many as the list. *)
Lemma inv_mapM_length {C A B} (R : St C -> St C -> Prop) `{!Frame R}
    (f : A -> M C B) (l : list A) :
  (forall x, inv_m R (fun _ => True) (f x)) ->
  inv_m R (fun ys => length ys = length l) (mapM f l).
Proof.
  intros Hf. induction l as [| x l IH]; cbn [mapM].
  - by inv_ret.
  - inv_bind; [apply Hf |]. intros y _.
    inv_bind; [apply IH |]. intros ys Hys.
    inv_ret. cbn. by rewrite Hys.
Qed.

Lemma slice_to_length {A} (n : Z) (l : list A) :
  0 <= n -> Z.of_nat (length (slice_to n l)) <= n.
Proof.
  intros Hn. unfold slice_to. destruct (0 <=? n) eqn:E; [| lia].
  rewrite length_take. lia.
Qed.

Section Searcher.
Variable w : World.
Variable self : WebSearcher.

Lemma api_item_net item : inv_m net_only (fun _ => True) (api_item w item).
Proof.
  unfold api_item.
  do 3 (inv_bind; [inv_pure |]; intros ? _).
  inv_bind; [apply inv_now with (phi := fun _ => True); [exact _ | done] |]. intros ts _.
  by inv_ret.
Qed.

(** The scraping loop returns at most one result per element. *)
Lemma scrape_loop_length elems :
  inv_m net_only (fun rs => (length rs <= length elems)%nat) (scrape_loop w elems).
Proof.
  induction elems as [| el rest IH]; cbn [scrape_loop].
  - by inv_ret.
  - assert (Hskip : inv_m net_only (fun rs => (length rs <= length (el :: rest))%nat)
                      (scrape_loop w rest)).
    { intros s. destruct (IH s) as [HR Hlen]. split; [exact HR |].
      intros rs Hrs. specialize (Hlen rs Hrs). cbn. lia. }
    destruct (title_elem el) as [title_text |]; [| exact Hskip].
    destruct (url_elem el) as [href |]; [| exact Hskip].
    eapply inv_bind with (phi := fun _ => True); [exact _ | |].
    { inv_try; [| intros e; by inv_ret].
      inv_bind; [apply inv_send |]. intros r _. by inv_ret. }
    intros final_url _.
    inv_bind; [apply inv_now with (phi := fun _ => True); [exact _ | done] |]. intros ts _.
    inv_bind; [apply IH |]. intros more Hmore.
    inv_ret. cbn in Hmore |- *. lia.
Qed.

(** Both searches respect [num_results] when it is not negative; they
    change no cache. *)
Lemma search_with_api_bound query num_results :
  0 <= num_results ->
  inv_m net_only (fun rs => Z.of_nat (length rs) <= num_results)
    (_search_with_api w self query num_results).
Proof.
  intros Hn. unfold _search_with_api. inv_try; [| intros e; inv_pure].
  inv_bind; [apply inv_send |]. intros response _.
  inv_bind; [inv_pure |]. intros _ _.
  inv_bind; [inv_pure |]. intros data _.
  eapply inv_bind with (phi := fun items => Z.of_nat (length items) <= num_results);
    [exact _ | |].
  - apply inv_lift; [exact _ |]. intros items.
    destruct (dict_get data "items" (PList [])) as [v | e]; cbn; [| discriminate].
    destruct v; cbn; try discriminate; intros [= <-].
    + rewrite length_fmap. by apply slice_to_length.
    + by apply slice_to_length.
  - intros items Hitems. intros s.
    destruct (inv_mapM_length net_only (api_item w) items api_item_net s) as [HR Hlen].
    split; [exact HR |]. intros rs Hrs. rewrite (Hlen rs Hrs). exact Hitems.
Qed.

Lemma search_with_scraping_bound query num_results :
  0 <= num_results ->
  inv_m net_only (fun rs => Z.of_nat (length rs) <= num_results)
    (_search_with_scraping w self query num_results).
Proof.
  intros Hn. unfold _search_with_scraping. inv_try; [| intros e; inv_pure].
  inv_bind; [apply inv_send |]. intros response _.
  inv_bind; [inv_pure |]. intros _ _.
  intros s. destruct (scrape_loop_length
    (slice_to num_results (soup_results w (resp_text response))) s) as [HR Hlen].
  split; [exact HR |]. intros rs Hrs. specialize (Hlen rs Hrs).
  pose proof (slice_to_length num_results (soup_results w (resp_text response)) Hn). lia.
Qed.

Lemma chosen_search_bound query num_results use_api :
  0 <= num_results ->
  inv_m net_only (fun rs => Z.of_nat (length rs) <= num_results)
    (chosen_search w self query num_results use_api).
Proof.
  intros Hn. unfold chosen_search.
  destruct (_ && _); [by apply search_with_api_bound | by apply search_with_scraping_bound].
Qed.

(** Without any assumption on [num_results]: no search writes the cache. *)
Lemma search_with_api_net query num_results :
  inv_m net_only (fun _ => True) (_search_with_api w self query num_results).
Proof.
  unfold _search_with_api. inv_try; [| intros e; inv_pure].
  inv_bind; [apply inv_send |]. intros response _.
  do 3 (inv_bind; [inv_pure |]; intros ? _).
  intros s. destruct (inv_mapM_length net_only (api_item w) a1 api_item_net s) as [HR _].
  by split.
Qed.

Lemma search_with_scraping_net query num_results :
  inv_m net_only (fun _ => True) (_search_with_scraping w self query num_results).
Proof.
  unfold _search_with_scraping. inv_try; [| intros e; inv_pure].
  inv_bind; [apply inv_send |]. intros response _.
  inv_bind; [inv_pure |]. intros _ _.
  intros s. destruct (scrape_loop_length
    (slice_to num_results (soup_results w (resp_text response))) s) as [HR _].
  by split.
Qed.

Lemma chosen_search_net query num_results use_api :
  inv_m net_only (fun _ => True) (chosen_search w self query num_results use_api).
Proof.
  unfold chosen_search.
  destruct (_ && _); [apply search_with_api_net | apply search_with_scraping_net].
Qed.

(** An exception leaves [_search_with_scraping] only in the wrapping of
    its [except] clause. *)
Lemma search_with_scraping_raise query num_results s e s' :
  _search_with_scraping w self query num_results s = (Raise e, s') -> web_search_failed e.
Proof.
  unfold _search_with_scraping, try_catch.
  destruct (bind _ _ s) as [[rs | e0] s0]; [discriminate |].
  unfold raise. intros [= <- _]. by eexists.
Qed.

(** The lookup never raises and writes nothing. *)
Lemma cached_results_quiet key s :
  exists hit, fst (cached_results w key s) = Normal hit /\
  quiet s (snd (cached_results w key s)) /\
  match hit with
  | Some dicts => exists entry, cache s !! key = Some entry /\ entry_results entry = dicts
  | None => True
  end.
Proof.
  unfold cached_results, bind, cache_get.
  destruct (cache s !! key) as [entry |]; cbn.
  - destruct (_ <? _); cbn; eexists; (split; [reflexivity |]); split; try by split.
    by exists entry.
  - eexists. split; [reflexivity |]. by split.
Qed.

(** What the [try] body does to the cache: nothing when it raises, the
    one entry of its key when it returns. *)
Lemma search_primary_cache query num_results use_api s :
  match fst (search_primary w self query num_results use_api s) with
  | Normal results =>
      exists stamp,
        cache (snd (search_primary w self query num_results use_api s))
        = <[cache_key query num_results := mk_CacheEntry (to_dict <$> results) stamp]> (cache s)
  | Raise e =>
      cache (snd (search_primary w self query num_results use_api s)) = cache s /\
      (use_api = false -> web_search_failed e)
  end.
Proof.
  unfold search_primary. fold (chosen_search w self query num_results use_api).
  destruct (chosen_search_net query num_results use_api s) as [[Hc _] _].
  unfold bind, now, cache_set, ret.
  destruct (chosen_search w self query num_results use_api s) as [[rs | e] s'] eqn:E; cbn in *.
  - eexists. by rewrite Hc.
  - split; [exact Hc |]. intros ->. unfold chosen_search in E. cbn in E.
    by apply search_with_scraping_raise in E.
Qed.
End Searcher.

End WebSearchFacts2.

Module WebSearchFacts3.
Import Datetime Effects WebSearch Props Props2 EffectsFacts WebSearchFacts2.

Lemma mapR_length {A B} (f : A -> result B) (l : list A) (ys : list B) :
  mapR f l = Normal ys -> length ys = length l.
Proof.
  revert ys. induction l as [| x l IH]; cbn; intros ys.
  - by intros [= <-].
  - destruct (f x) as [y | e]; cbn; [| discriminate].
    destruct (mapR f l) as [ys' | e]; cbn; [| discriminate].
    intros [= <-]. cbn. by rewrite (IH ys').
Qed.

(** The first request of a computation that starts by sending [r] is
    [r]. *)
Lemma send_first_exact {C A} (w : World) r (k : Response -> M C A) (h : PyExc -> M C A) :
  (forall a, inv_m net_only (fun _ => True) (k a)) ->
  (forall e, inv_m net_only (fun _ => True) (h e)) ->
  forall s, exists l, sent (snd (try_catch (bind (send w r) k) h s)) = sent s ++ r :: l.
Proof.
  intros Hk Hh s. unfold try_catch, bind, send.
  destruct (net w (length (sent s)) r) as [a | e].
  - destruct (Hk a (mk_St (cache s) (ticks s) (sent s ++ [r]))) as [[_ [l1 Hl1]] _].
    destruct (k a _) as [[b | e] s1]; cbn in *.
    + exists l1. rewrite Hl1. by rewrite <- app_assoc.
    + destruct (Hh e s1) as [[_ [l2 Hl2]] _].
      exists (l1 ++ l2). rewrite Hl2, Hl1. by rewrite <- !app_assoc.
  - destruct (Hh e (mk_St (cache s) (ticks s) (sent s ++ [r]))) as [[_ [l2 Hl2]] _].
    exists l2. rewrite Hl2. cbn. by rewrite <- app_assoc.
Qed.

Lemma search_with_scraping_first w self query num_results s :
  exists l,
    sent (snd (_search_with_scraping w self query num_results s))
    = sent s ++ scrape_request query :: l.
Proof.
  unfold _search_with_scraping. apply send_first_exact.
  - intros response. inv_bind; [inv_pure |]. intros _ _.
    intros s'. destruct (scrape_loop_length w
      (slice_to num_results (soup_results w (resp_text response))) s') as [HR _].
    by split.
  - intros e. inv_pure.
Qed.

End WebSearchFacts3.

(** X2.  A call of [search] changes no cache entry but the one of its own
    [(query, num_results)] pair, whatever the outcome of the call. *)
Theorem search_keeps_other_entries (w : Effects.World) (self : WebSearch.WebSearcher)
    (query query' : string) (num_results num_results' : Z) (use_api : bool)
    (s : Effects.St WebSearch.CacheEntry) :
  (query', num_results') <> (query, num_results) ->
  Effects.cache (snd (WebSearch.search w self query num_results use_api s))
    !! WebSearch.cache_key query' num_results'
  = Effects.cache s !! WebSearch.cache_key query' num_results'.
Proof.
  intros Hne.
  assert (Hkey : WebSearch.cache_key query num_results
                 <> WebSearch.cache_key query' num_results').
  { unfold WebSearch.cache_key. cbn. intros [= H].
    apply KeyFacts.split_at_last_underscore in H;
      [| apply KeyFacts.pretty_Z_no_underscore ..].
    destruct H as [-> H]. apply (inj pretty) in H as ->. by apply Hne. }
  unfold WebSearch.search. unfold Effects.bind at 1.
  destruct (WebSearchFacts2.cached_results_quiet w (WebSearch.cache_key query num_results) s)
    as (hit & Hfst & [Hc _] & _).
  destruct (WebSearch.cached_results w _ s) as [r0 s0]. cbn in Hfst, Hc. subst r0.
  destruct hit as [dicts |]; [cbn; by rewrite Hc |].
  unfold Effects.try_catch.
  pose proof (WebSearchFacts2.search_primary_cache w self query num_results use_api s0) as Hp.
  destruct (WebSearch.search_primary w self query num_results use_api s0) as [[rs | e] s1];
    cbn in Hp |- *.
  - destruct Hp as [stamp ->]. rewrite lookup_insert_ne by done. by rewrite Hc.
  - destruct Hp as [Hc1 _]. destruct use_api; cbn.
    + destruct (WebSearchFacts2.search_with_scraping_net w self query num_results s1)
        as [[Hc2 _] _].
      by rewrite Hc2, Hc1, Hc.
    + by rewrite Hc1, Hc.
Qed.

Lemma search_keeps_other_entries_witness :
  Effects.cache
    (snd (WebSearch.search (Examples.online PNone) Examples.with_keys "opus one" 5 true
            (snd (WebSearch.search (Examples.online PNone) Examples.with_keys "opus one" 3 true
                    Examples.fresh))))
    !! WebSearch.cache_key "opus one" 3
  = Effects.cache
      (snd (WebSearch.search (Examples.online PNone) Examples.with_keys "opus one" 3 true
              Examples.fresh))
      !! WebSearch.cache_key "opus one" 3.
Proof.
  apply (search_keeps_other_entries (Examples.online PNone) Examples.with_keys
           "opus one" "opus one" 5 3 true).
  discriminate.
Defined.

(** X3.  With [num_results] not negative, a call of [search] returns at
    most [num_results] results, provided the entry cached for the pair, if
    there is one, holds no more; and the entry the call leaves holds no
    more either. *)
Theorem search_respects_num_results (w : Effects.World) (self : WebSearch.WebSearcher)
    (query : string) (num_results : Z) (use_api : bool)
    (s s1 : Effects.St WebSearch.CacheEntry) (results : list WebSearch.SearchResult) :
  0 <= num_results ->
  (forall entry, Effects.cache s !! WebSearch.cache_key query num_results = Some entry ->
                 Z.of_nat (length (WebSearch.entry_results entry)) <= num_results) ->
  WebSearch.search w self query num_results use_api s = (Normal results, s1) ->
  Z.of_nat (length results) <= num_results /\
  forall entry, Effects.cache s1 !! WebSearch.cache_key query num_results = Some entry ->
                Z.of_nat (length (WebSearch.entry_results entry)) <= num_results.
Proof.
  intros Hn Hinv. unfold WebSearch.search. unfold Effects.bind at 1.
  destruct (WebSearchFacts2.cached_results_quiet w (WebSearch.cache_key query num_results) s)
    as (hit & Hfst & [Hc _] & Hfrom).
  destruct (WebSearch.cached_results w _ s) as [r0 s0]. cbn in Hfst, Hc. subst r0.
  destruct hit as [dicts |].
  - unfold Effects.lift. intros [= Hmap <-]. destruct Hfrom as (entry & Hentry & <-).
    apply WebSearchFacts3.mapR_length in Hmap. rewrite Hmap, Hc. split; [by apply Hinv |].
    exact Hinv.
  - unfold Effects.try_catch, WebSearch.search_primary.
    fold (Props.chosen_search w self query num_results use_api).
    unfold Effects.bind, Effects.now, Effects.cache_set, Effects.ret.
    destruct (WebSearchFacts2.chosen_search_bound w self query num_results use_api Hn s0)
      as [[Hc1 _] Hlen].
    destruct (Props.chosen_search w self query num_results use_api s0) as [[rs | e] s'];
      cbn in Hc1, Hlen |- *.
    + intros [= <- <-]. specialize (Hlen rs eq_refl). split; [exact Hlen |].
      intros entry. cbn. rewrite lookup_insert_eq. intros [= <-]. cbn.
      by rewrite length_fmap.
    + destruct use_api; [| discriminate]. intros Hfall.
      destruct (WebSearchFacts2.search_with_scraping_bound w self query num_results Hn s')
        as [[Hc2 _] Hlen2].
      rewrite Hfall in Hc2, Hlen2. cbn in Hc2, Hlen2. split; [by apply Hlen2 |].
      intros entry. rewrite Hc2.
      rewrite Hc1, Hc. exact (Hinv entry).
Qed.

Lemma search_respects_num_results_witness :
  Z.of_nat (length [Examples.google_result]) <= 3.
Proof.
  refine (proj1 (search_respects_num_results (Examples.online PNone) Examples.with_keys
            "opus one" 3 true Examples.fresh
            (snd (WebSearch.search (Examples.online PNone) Examples.with_keys "opus one" 3 true
                    Examples.fresh))
            [Examples.google_result] _ _ _)).
  - lia.
  - intros entry. vm_compute. discriminate.
  - vm_compute. reflexivity.
Defined.

(** X4.  After a cache miss, an exception leaves [search] only as the
    [Exception("Web search failed: ...")] of the scraping search, an API
    error never; the cache is then as it was before the call. *)
Theorem search_raises_only_web_search_failed (w : Effects.World)
    (self : WebSearch.WebSearcher) (query : string) (num_results : Z) (use_api : bool)
    (s s0 s1 : Effects.St WebSearch.CacheEntry) (e : PyExc) :
  WebSearch.cached_results w (WebSearch.cache_key query num_results) s = (Normal None, s0) ->
  WebSearch.search w self query num_results use_api s = (Raise e, s1) ->
  Props2.web_search_failed e /\ Effects.cache s1 = Effects.cache s.
Proof.
  intros Hmiss. unfold WebSearch.search. unfold Effects.bind at 1. rewrite Hmiss.
  destruct (WebSearchFacts2.cached_results_quiet w (WebSearch.cache_key query num_results) s)
    as (hit & _ & [Hc _] & _).
  rewrite Hmiss in Hc. cbn in Hc.
  unfold Effects.try_catch.
  pose proof (WebSearchFacts2.search_primary_cache w self query num_results use_api s0) as Hp.
  destruct (WebSearch.search_primary w self query num_results use_api s0) as [[rs | e0] s'];
    cbn in Hp |- *; [discriminate |].
  destruct Hp as [Hc1 Hshape]. destruct use_api.
  - intros Hfall.
    destruct (WebSearchFacts2.search_with_scraping_net w self query num_results s')
      as [[Hc2 _] _].
    rewrite Hfall in Hc2. cbn in Hc2.
    split; [by eapply WebSearchFacts2.search_with_scraping_raise | congruence].
  - unfold Effects.raise. intros [= <- <-]. split; [by apply Hshape | congruence].
Qed.

Lemma search_raises_only_web_search_failed_witness :
  Props2.web_search_failed
    (Exc OtherException "Web search failed: connection refused").
Proof.
  refine (proj1 (search_raises_only_web_search_failed Examples2.offline Examples.with_keys
            "opus one" 3 true Examples.fresh Examples.fresh
            (snd (WebSearch.search Examples2.offline Examples.with_keys "opus one" 3 true
                    Examples.fresh))
            (Exc OtherException "Web search failed: connection refused") _ _)).
  - reflexivity.
  - vm_compute. reflexivity.
Defined.

(** X5.  Without API credentials the primary path is already the
    scraping search; when its page request fails, the fallback of
    [search] sends the very same page request a second time. *)
Theorem search_retries_scraping (w : Effects.World) (self : WebSearch.WebSearcher)
    (query : string) (num_results : Z) (s s0 : Effects.St WebSearch.CacheEntry) (e : PyExc) :
  Effects.truthy_str (WebSearch.api_key self)
    && Effects.truthy_str (WebSearch.search_engine_id self) = false ->
  WebSearch.cached_results w (WebSearch.cache_key query num_results) s = (Normal None, s0) ->
  Effects.net w (length (Effects.sent s)) (WebSearch.scrape_request query) = Raise e ->
  exists l,
    Effects.sent (snd (WebSearch.search w self query num_results true s))
    = Effects.sent s ++ WebSearch.scrape_request query :: WebSearch.scrape_request query :: l.
Proof.
  intros Hcred Hmiss Hnet. unfold WebSearch.search. unfold Effects.bind at 1. rewrite Hmiss.
  destruct (WebSearchFacts2.cached_results_quiet w (WebSearch.cache_key query num_results) s)
    as (hit & _ & [Hc Hs] & _).
  rewrite Hmiss in Hc, Hs. cbn in Hc, Hs.
  unfold Effects.try_catch, WebSearch.search_primary. cbn [andb]. rewrite Hcred.
  unfold Effects.bind at 1. unfold WebSearch._search_with_scraping at 1.
  unfold Effects.try_catch at 1. unfold Effects.bind at 1. unfold Effects.send at 1.
  rewrite Hs, Hnet. cbn.
  destruct (WebSearchFacts3.search_with_scraping_first w self query num_results
              (Effects.mk_St (Effects.cache s0) (Effects.ticks s0)
                 (Effects.sent s ++ [WebSearch.scrape_request query]))) as [l Hl].
  exists l. rewrite Hl. cbn. by rewrite <- app_assoc.
Qed.

Lemma search_retries_scraping_witness :
  exists l,
    Effects.sent (snd (WebSearch.search Examples2.offline Examples2.without_keys "opus one" 3
                         true Examples.fresh))
    = [] ++ WebSearch.scrape_request "opus one" :: WebSearch.scrape_request "opus one" :: l.
Proof.
  apply (search_retries_scraping Examples2.offline Examples2.without_keys "opus one" 3
           Examples.fresh Examples.fresh (Exc RequestException "connection refused")).
  - reflexivity.
  - reflexivity.
  - reflexivity.
Defined.

(** ** More on [WeatherService.get_weather] *)

(** X6.  A call of [get_weather] sends no request or exactly one, the
    request for its own location, whatever the outcome of the call. *)
Theorem get_weather_sends_at_most_once (w : Effects.World) (self : Weather.WeatherService)
    (location : string) (s : Effects.St Weather.CacheEntry) :
  Effects.sent (snd (Weather.get_weather w self location s)) = Effects.sent s \/
  Effects.sent (snd (Weather.get_weather w self location s))
  = Effects.sent s ++ [Weather.weather_request self location].
Proof.
  destruct (Effects.truthy_str (Weather.api_key self)) eqn:Hkey.
  - destruct (WeatherFacts.cached_weather_spec w (Weather.cache_key location) s)
      as (hit & s0 & Hlook & [_ Hs] & _).
    destruct hit as [p |].
    + left. by rewrite (WeatherFacts.get_weather_hit w self _ _ _ _ Hkey Hlook).
    + right. by apply (WeatherFacts.get_weather_miss_sends w self _ _ s0).
  - left. unfold Weather.get_weather. by rewrite Hkey.
Qed.

(** X7.  An exception that leaves [get_weather] is none of the three
    classes its [except] clauses name, and it leaves the cache as it was:
    request failures and missing keys or items never reach the caller. *)
Theorem get_weather_raises_uncaught_only (w : Effects.World) (self : Weather.WeatherService)
    (location : string) (s s1 : Effects.St Weather.CacheEntry) (e : PyExc) :
  Weather.get_weather w self location s = (Raise e, s1) ->
  isinstance e RequestException = false /\
  isinstance e KeyError = false /\
  isinstance e IndexError = false /\
  Effects.cache s1 = Effects.cache s.
Proof.
  intros Hcall. destruct (Effects.truthy_str (Weather.api_key self)) eqn:Hkey.
  - destruct (WeatherFacts.cached_weather_spec w (Weather.cache_key location) s)
      as (hit & s0 & Hlook & [Hc _] & _).
    destruct hit as [p |].
    + by rewrite (WeatherFacts.get_weather_hit w self _ _ _ _ Hkey Hlook) in Hcall.
    + rewrite (WeatherFacts.get_weather_miss w self _ _ _ Hkey Hlook) in Hcall.
      unfold Effects.try_catch in Hcall.
      destruct (WeatherFacts.fetch_weather_spec w self location s0) as [_ Hf].
      destruct (Weather.fetch_weather w self location s0) as [[q | e0] s']; cbn in Hf;
        [discriminate |].
      unfold Weather.weather_handler in Hcall.
      destruct (isinstance e0 RequestException) eqn:E1; [discriminate |].
      destruct (isinstance e0 KeyError) eqn:E2; [discriminate |].
      destruct (isinstance e0 IndexError) eqn:E3; [discriminate |].
      cbn in Hcall. injection Hcall as <- <-. repeat split; try done. congruence.
  - unfold Weather.get_weather in Hcall. rewrite Hkey in Hcall. discriminate.
Qed.

Lemma get_weather_raises_uncaught_only_witness :
  isinstance (Exc TypeError "type doesn't define __round__ method") RequestException = false.
Proof.
  refine (proj1 (get_weather_raises_uncaught_only (Examples.online (PStr "hot"))
            Examples.service "Napa,CA,US" Examples.fresh
            (snd (Weather.get_weather (Examples.online (PStr "hot")) Examples.service
                    "Napa,CA,US" Examples.fresh))
            (Exc TypeError "type doesn't define __round__ method") _)).
  vm_compute. reflexivity.
Defined.

(** X8.  A call of [get_weather] for one location changes the cache entry
    of no other location, whatever the outcome of the call. *)
Theorem get_weather_keeps_other_locations (w : Effects.World) (self : Weather.WeatherService)
    (location location' : string) (s : Effects.St Weather.CacheEntry) :
  location' <> location ->
  Effects.cache (snd (Weather.get_weather w self location s)) !! Weather.cache_key location'
  = Effects.cache s !! Weather.cache_key location'.
Proof.
  intros Hne.
  assert (Hkey' : Weather.cache_key location <> Weather.cache_key location').
  { unfold Weather.cache_key. cbn. intros [= H]. by apply Hne. }
  destruct (Effects.truthy_str (Weather.api_key self)) eqn:Hkey.
  - destruct (WeatherFacts.cached_weather_spec w (Weather.cache_key location) s)
      as (hit & s0 & Hlook & [Hc _] & _).
    destruct hit as [p |].
    + rewrite (WeatherFacts.get_weather_hit w self _ _ _ _ Hkey Hlook). cbn. by rewrite Hc.
    + rewrite (WeatherFacts.get_weather_miss w self _ _ _ Hkey Hlook).
      unfold Effects.try_catch.
      destruct (WeatherFacts.fetch_weather_spec w self location s0) as [_ Hf].
      destruct (Weather.fetch_weather w self location s0) as [[q | e0] s']; cbn in Hf |- *.
      * destruct Hf as [_ ->]. rewrite lookup_insert_ne by done. by rewrite Hc.
      * destruct (WeatherFacts.weather_handler_spec e0 s') as [-> _]. by rewrite Hf, Hc.
  - unfold Weather.get_weather. by rewrite Hkey.
Qed.

Lemma get_weather_keeps_other_locations_witness :
  Effects.cache
    (snd (Weather.get_weather (Examples.online (PInt 85)) Examples.service "Napa,CA,US"
            Examples.fresh))
    !! Weather.cache_key "Sonoma,CA,US"
  = Effects.cache (Examples.fresh (C := Weather.CacheEntry)) !! Weather.cache_key "Sonoma,CA,US".
Proof.
  apply (get_weather_keeps_other_locations (Examples.online (PInt 85)) Examples.service
           "Napa,CA,US" "Sonoma,CA,US" Examples.fresh).
  discriminate.
Defined.

(** X9.  When the upstream answers with an HTTP status from 400 to 599,
    a call that missed the cache returns the "Failed to fetch" error
    payload, whatever the body holds, and caches nothing. *)
Theorem get_weather_http_error (w : Effects.World) (self : Weather.WeatherService)
    (location : string) (s s0 : Effects.St Weather.CacheEntry) (response : Effects.Response) :
  Effects.truthy_str (Weather.api_key self) = true ->
  Weather.cached_weather w (Weather.cache_key location) s = (Normal None, s0) ->
  Effects.net w (length (Effects.sent s)) (Weather.weather_request self location)
  = Normal response ->
  400 <= Effects.resp_status response < 600 ->
  exists msg,
    fst (Weather.get_weather w self location s)
    = Normal (Weather.ErrorPayload ("Failed to fetch weather data: " +:+ msg)) /\
    Effects.cache (snd (Weather.get_weather w self location s)) = Effects.cache s.
Proof.
  intros Hkey Hmiss Hnet Hstatus.
  destruct (WeatherFacts.cached_weather_spec w (Weather.cache_key location) s)
    as (hit & s0' & Hlook & [Hc Hs] & _).
  rewrite Hmiss in Hlook. injection Hlook as <- <-.
  rewrite (WeatherFacts.get_weather_miss w self _ _ _ Hkey Hmiss).
  assert (E : (400 <=? Effects.resp_status response)
              && (Effects.resp_status response <? 600) = true)
    by (apply andb_true_intro; split; [apply Z.leb_le | apply Z.ltb_lt]; lia).
  assert (Hfetch : Weather.fetch_weather w self location s0
                   = (Raise (Exc RequestException
                               (pretty (Effects.resp_status response) +:+ " Error for url: "
                                +:+ Effects.resp_url response)),
                      Effects.mk_St (Effects.cache s0) (Effects.ticks s0)
                        (Effects.sent s0 ++ [Weather.weather_request self location]))).
  { unfold Weather.fetch_weather, Effects.bind, Effects.send, Effects.lift,
      Effects.raise_for_status.
    rewrite Hs, Hnet, E. reflexivity. }
  unfold Effects.try_catch. rewrite Hfetch. cbn. eexists. split; [reflexivity | exact Hc].
Qed.

Lemma get_weather_http_error_witness :
  exists msg,
    fst (Weather.get_weather Examples2.unauthorized Examples.service "Napa,CA,US"
           Examples.fresh)
    = Normal (Weather.ErrorPayload ("Failed to fetch weather data: " +:+ msg)) /\
    Effects.cache (snd (Weather.get_weather Examples2.unauthorized Examples.service
                          "Napa,CA,US" Examples.fresh))
    = Effects.cache (Examples.fresh (C := Weather.CacheEntry)).
Proof.
  apply (get_weather_http_error Examples2.unauthorized Examples.service "Napa,CA,US"
           Examples.fresh Examples.fresh
           (Effects.mk_Response 401 (Normal (Examples.openweather_body (PInt 85))) ""
              "http://api.openweathermap.org/data/2.5/weather?q=Napa")).
  - reflexivity.
  - reflexivity.
  - reflexivity.
  - cbn. lia.
Defined.

From Stdlib Require Import Lqa.

Module RoundFacts.
Import Datetime Effects Weather.

(** [round] with one argument lands within a half of its argument. *)
Lemma round_half_even_close (q : Q) :
  (q - (1 # 2) <= inject_Z (round_half_even q) <= q + (1 # 2))%Q.
Proof.
  unfold round_half_even.
  pose proof (Qfloor_le q) as Hlo. pose proof (Qlt_floor q) as Hhi.
  rewrite inject_Z_plus in Hhi. change (inject_Z 1) with 1%Q in Hhi.
  destruct (Qcompare_spec (q - inject_Z (Qfloor q)) (1 # 2)) as [E | E | E].
  - destruct (Z.even (Qfloor q)); rewrite ?inject_Z_plus;
      change (inject_Z 1) with 1%Q; lra.
  - lra.
  - rewrite inject_Z_plus. change (inject_Z 1) with 1%Q. lra.
Qed.

(** The temperature of a formatted record is [round] of [main.temp]. *)
Lemma format_weather_temperature w data s info s' :
  format_weather w data s = (Normal info, s') ->
  (m <- getitem data "main";; t <- getitem m "temp";; py_round t)%py
  = Normal (temperature info).
Proof.
  unfold format_weather, bind, lift, now, ret. cbn.
  repeat match goal with
         | |- context [match ?r with Normal _ => _ | Raise _ => _ end] =>
             destruct r eqn:?; try discriminate
         end.
  by intros [= <- <-].
Qed.

End RoundFacts.

(** X10.  The temperature of a record [get_weather] fetched is [round] of
    the [main.temp] the upstream sent: for a float it lies within half a
    degree of it. *)
Theorem fetched_temperature_is_rounded (w : Effects.World) (self : Weather.WeatherService)
    (location : string) (s s1 : Effects.St Weather.CacheEntry) (info : Weather.WeatherInfo) :
  Weather.get_weather w self location s = (Normal (Weather.Info info), s1) ->
  Effects.sent s1 <> Effects.sent s ->
  exists response data t,
    Effects.net w (length (Effects.sent s)) (Weather.weather_request self location)
    = Normal response /\
    Effects.resp_json response = Normal data /\
    (m <- getitem data "main";; getitem m "temp")%py = Normal t /\
    py_round t = Normal (Weather.temperature info) /\
    forall q, t = PFloat (Finite q) ->
              (q - (1 # 2) <= inject_Z (Weather.temperature info) <= q + (1 # 2))%Q.
Proof.
  intros Hcall Hsent.
  assert (Hkey : Effects.truthy_str (Weather.api_key self) = true).
  { destruct (Effects.truthy_str (Weather.api_key self)) eqn:E; [done |].
    unfold Weather.get_weather in Hcall. rewrite E in Hcall. discriminate. }
  destruct (WeatherFacts.cached_weather_spec w (Weather.cache_key location) s)
    as (hit & s0 & Hlook & [_ Hs0] & _).
  destruct hit as [p |].
  { rewrite (WeatherFacts.get_weather_hit w self _ _ _ _ Hkey Hlook) in Hcall.
    injection Hcall as _ <-. congruence. }
  rewrite (WeatherFacts.get_weather_miss w self _ _ _ Hkey Hlook) in Hcall.
  unfold Effects.try_catch in Hcall.
  destruct (Weather.fetch_weather w self location s0) as [[p | e] s'] eqn:Hfetch.
  2:{ destruct (WeatherFacts.weather_handler_spec e s') as [_ Herr].
      rewrite Hcall in Herr. by specialize (Herr _ eq_refl). }
  injection Hcall as -> <-.
  unfold Weather.fetch_weather, Effects.bind, Effects.send, Effects.lift in Hfetch.
  rewrite Hs0 in Hfetch.
  destruct (Effects.net w _ _) as [response | e]; [| discriminate].
  destruct (Effects.raise_for_status response); [| discriminate].
  destruct (Effects.resp_json response) as [data | e] eqn:Hjson; [| discriminate].
  destruct (Weather.format_weather w data _) as [[info' | e] s''] eqn:Hformat;
    [| discriminate].
  cbn in Hfetch. injection Hfetch as -> _.
  apply RoundFacts.format_weather_temperature in Hformat.
  destruct (getitem data "main") as [m | e] eqn:Hmain; [| discriminate]. cbn in Hformat.
  destruct (getitem m "temp") as [t | e] eqn:Htemp; [| discriminate]. cbn in Hformat.
  exists response, data, t. do 2 (split; [reflexivity || assumption |]).
  split; [by rewrite Hmain |].
  split; [exact Hformat |].
  intros q ->. cbn in Hformat. injection Hformat as <-.
  apply RoundFacts.round_half_even_close.
Qed.

Lemma fetched_temperature_is_rounded_witness :
  exists response data t,
    Effects.net (Examples.online (PFloat (Finite (99 # 2)))) 0
      (Weather.weather_request Examples.service "Napa,CA,US") = Normal response /\
    Effects.resp_json response = Normal data /\
    (m <- getitem data "main";; getitem m "temp")%py = Normal t /\
    py_round t = Normal 50 /\
    forall q, t = PFloat (Finite q) -> (q - (1 # 2) <= inject_Z 50 <= q + (1 # 2))%Q.
Proof.
  apply (fetched_temperature_is_rounded (Examples.online (PFloat (Finite (99 # 2))))
           Examples.service "Napa,CA,US" Examples.fresh
           (snd (Weather.get_weather (Examples.online (PFloat (Finite (99 # 2))))
                   Examples.service "Napa,CA,US" Examples.fresh))
           (Examples.napa_info 50)).
  - vm_compute. reflexivity.
  - vm_compute. discriminate.
Defined.

(** ** [WebSearcher.get_webpage_content] *)

Module WebPageFacts.
Import Datetime Effects WebPage Props Props2 EffectsFacts.

Lemma length_string_of_list_ascii l : String.length (string_of_list_ascii l) = length l.
Proof. induction l as [| c l IH]; cbn; [done | by rewrite IH]. Qed.

Lemma str_slice_to_length max_length s :
  0 <= max_length -> Z.of_nat (String.length (str_slice_to max_length s)) <= max_length.
Proof.
  intros Hn. unfold str_slice_to. rewrite length_string_of_list_ascii.
  by apply WebSearchFacts2.slice_to_length.
Qed.

Section Page.
Variable w : World.
Variable extract_text : string -> result string.

(** The lookup never raises and writes nothing; a hit serves the text of
    the entry's content. *)
Lemma cached_content_spec url s :
  exists hit, fst (cached_content w url s) = Normal hit /\
  quiet s (snd (cached_content w url s)) /\
  match hit with
  | Some cached_text =>
      exists entry c, cache s !! url = Some entry /\ content entry = Some c /\
                      text c = cached_text /\ snd (cached_content w url s) = tick s /\
                      sub (clock w (ticks s)) (content_timestamp c) < WebSearch.cache_duration
  | None => True
  end.
Proof.
  unfold cached_content, bind, cache_get.
  destruct (cache s !! url) as [entry |] eqn:E; cbn.
  - destruct (content entry) as [c |] eqn:Ec; cbn.
    + destruct (_ <? _) eqn:Hlt; cbn; eexists; (split; [reflexivity |]);
        (split; [by split |]); [| done].
      exists entry, c. apply Z.ltb_lt in Hlt. done.
    + eexists. split; [reflexivity |]. by split.
  - eexists. split; [reflexivity |]. by split.
Qed.

Lemma cached_content_fresh url s entry c :
  cache s !! url = Some entry -> content entry = Some c ->
  sub (clock w (ticks s)) (content_timestamp c) < WebSearch.cache_duration ->
  cached_content w url s = (Normal (Some (text c)), tick s).
Proof.
  intros H Hc Hlt. unfold cached_content, bind, cache_get. rewrite H. cbn. rewrite Hc. cbn.
  apply Z.ltb_lt in Hlt. rewrite Hlt. reflexivity.
Qed.

Lemma cached_content_stale url s entry c :
  cache s !! url = Some entry -> content entry = Some c ->
  WebSearch.cache_duration <= sub (clock w (ticks s)) (content_timestamp c) ->
  cached_content w url s = (Normal None, tick s).
Proof.
  intros H Hc Hge. unfold cached_content, bind, cache_get. rewrite H. cbn. rewrite Hc. cbn.
  apply Z.ltb_ge in Hge. rewrite Hge. reflexivity.
Qed.

(** The fetch sends exactly the page request; it changes the cache only
    when it returns, and then only the content of the url's entry. *)
Lemma fetch_page_spec url max_length s :
  sent (snd (fetch_page w extract_text url max_length s)) = sent s ++ [page_request url] /\
  match fst (fetch_page w extract_text url max_length s) with
  | Normal out =>
      exists page_text t,
        out = str_slice_to max_length page_text /\
        cache (snd (fetch_page w extract_text url max_length s))
        = <[url := mk_Entry (cache s !! url ≫= search_keys) (Some (mk_Content page_text t))]>
            (cache s)
  | Raise _ => cache (snd (fetch_page w extract_text url max_length s)) = cache s
  end.
Proof.
  unfold fetch_page, bind, send, lift, ensure_entry, set_content, cache_get, cache_set,
    now, ret.
  destruct (net w _ _) as [response | e]; cbn; [| done].
  destruct (raise_for_status response); cbn; [| done].
  destruct (extract_text (resp_text response)) as [page_text | e]; cbn; [| done].
  destruct (cache s !! url) as [entry |] eqn:E; cbn.
  - rewrite E. cbn. split; [done |]. by eexists _, _.
  - rewrite lookup_insert_eq. cbn. split; [done |]. eexists _, _. split; [done |].
    by rewrite insert_insert_eq.
Qed.

Lemma get_webpage_content_unfold url max_length s :
  get_webpage_content w extract_text url max_length s
  = try_catch
      (bind (cached_content w url) (fun hit =>
         match hit with
         | Some cached_text => ret (str_slice_to max_length cached_text)
         | None => fetch_page w extract_text url max_length
         end))
      (fun e => ret (could_not_retrieve url e)) s.
Proof. reflexivity. Qed.
End Page.

End WebPageFacts.

(** X11.  While the cache holds a content for the url that is younger
    than 24 hours, [get_webpage_content] returns that text cut to the
    caller's [max_length] and sends nothing; once the content is 24 hours
    old, the call sends the page request again. *)
Theorem webpage_cache_window (w : Effects.World) (extract_text : string -> result string)
    (url : string) (max_length : Z) (s : Effects.St WebPage.Entry)
    (entry : WebPage.Entry) (c : WebPage.Content) :
  Effects.cache s !! url = Some entry ->
  WebPage.content entry = Some c ->
  (Datetime.sub (Effects.clock w (Effects.ticks s)) (WebPage.content_timestamp c)
   < WebSearch.cache_duration ->
   WebPage.get_webpage_content w extract_text url max_length s
   = (Normal (WebPage.str_slice_to max_length (WebPage.text c)), Props.tick s)) /\
  (WebSearch.cache_duration
   <= Datetime.sub (Effects.clock w (Effects.ticks s)) (WebPage.content_timestamp c) ->
   Effects.sent (snd (WebPage.get_webpage_content w extract_text url max_length s))
   = Effects.sent s ++ [WebPage.page_request url]).
Proof.
  intros Hentry Hc. rewrite WebPageFacts.get_webpage_content_unfold. split; intros Hage.
  - unfold Effects.try_catch, Effects.bind.
    by rewrite (WebPageFacts.cached_content_fresh w _ _ _ _ Hentry Hc Hage).
  - unfold Effects.try_catch, Effects.bind.
    rewrite (WebPageFacts.cached_content_stale w _ _ _ _ Hentry Hc Hage).
    destruct (WebPageFacts.fetch_page_spec w extract_text url max_length (Props.tick s))
      as [Hs _].
    destruct (Props2.fetch_page w extract_text url max_length (Props.tick s))
      as [[out | e] s1]; exact Hs.
Qed.

Lemma webpage_cache_window_witness :
  WebPage.get_webpage_content (Examples.online PNone) (fun html => Normal html)
    "https://example.com/opus" 4 Examples2.page_cached
  = (Normal "<htm", Props.tick Examples2.page_cached).
Proof.
  refine (proj1 (webpage_cache_window (Examples.online PNone) (fun html => Normal html)
            "https://example.com/opus" 4 Examples2.page_cached
            (WebPage.mk_Entry None (Some (WebPage.mk_Content "<html>" Examples.noon_jan_1)))
            (WebPage.mk_Content "<html>" Examples.noon_jan_1) _ _) _).
  - reflexivity.
  - reflexivity.
  - reflexivity.
Defined.

(** X12.  [get_webpage_content] never raises, never changes the
    [results] and [timestamp] keys that [search] keeps in the shared
    cache, and leaves the entries of all other urls as they were. *)
Theorem webpage_content_keeps_search_entries (w : Effects.World)
    (extract_text : string -> result string) (url : string) (max_length : Z)
    (s : Effects.St WebPage.Entry) :
  (exists out, fst (WebPage.get_webpage_content w extract_text url max_length s) = Normal out) /\
  (forall key,
     Effects.cache (snd (WebPage.get_webpage_content w extract_text url max_length s)) !! key
       ≫= WebPage.search_keys
     = Effects.cache s !! key ≫= WebPage.search_keys) /\
  (forall key, key <> url ->
     Effects.cache (snd (WebPage.get_webpage_content w extract_text url max_length s)) !! key
     = Effects.cache s !! key).
Proof.
  rewrite WebPageFacts.get_webpage_content_unfold.
  unfold Effects.try_catch, Effects.bind.
  destruct (WebPageFacts.cached_content_spec w url s) as (hit & Hfst & [Hc _] & _).
  destruct (WebPage.cached_content w url s) as [r0 s0]. cbn in Hfst, Hc. subst r0.
  destruct hit as [cached_text |]; cbn -[Props2.fetch_page].
  - split; [by eexists |]. by rewrite Hc.
  - destruct (WebPageFacts.fetch_page_spec w extract_text url max_length s0) as [_ Hf].
    destruct (Props2.fetch_page w extract_text url max_length s0) as [[out | e] s1];
      cbn in Hf |- *.
    + destruct Hf as (page_text & t & _ & ->). rewrite Hc.
      split; [by eexists |]. split; intros key.
      * rewrite lookup_insert. case_decide as Hk; [by subst key |]. done.
      * intros Hk. by rewrite lookup_insert_ne.
    + rewrite Hf, Hc. split; [by eexists |]. done.
Qed.

(** X13.  With [max_length] not negative, [get_webpage_content] returns
    at most [max_length] characters of page text, or else the
    could-not-retrieve message for an exception, and in that case the
    cache is as it was. *)
Theorem webpage_content_result (w : Effects.World) (extract_text : string -> result string)
    (url : string) (max_length : Z) (s : Effects.St WebPage.Entry) :
  0 <= max_length ->
  exists out,
    fst (WebPage.get_webpage_content w extract_text url max_length s) = Normal out /\
    (Z.of_nat (String.length out) <= max_length \/
     exists e, out = WebPage.could_not_retrieve url e /\
       Effects.cache (snd (WebPage.get_webpage_content w extract_text url max_length s))
       = Effects.cache s).
Proof.
  intros Hn. rewrite WebPageFacts.get_webpage_content_unfold.
  unfold Effects.try_catch, Effects.bind.
  destruct (WebPageFacts.cached_content_spec w url s) as (hit & Hfst & [Hc _] & _).
  destruct (WebPage.cached_content w url s) as [r0 s0]. cbn in Hfst, Hc. subst r0.
  destruct hit as [cached_text |]; cbn -[Props2.fetch_page].
  - eexists. split; [reflexivity |]. left. by apply WebPageFacts.str_slice_to_length.
  - destruct (WebPageFacts.fetch_page_spec w extract_text url max_length s0) as [_ Hf].
    destruct (Props2.fetch_page w extract_text url max_length s0) as [[out | e] s1];
      cbn in Hf |- *.
    + destruct Hf as (page_text & t & -> & _). eexists. split; [reflexivity |].
      left. by apply WebPageFacts.str_slice_to_length.
    + eexists. split; [reflexivity |]. right. exists e. split; [done | congruence].
Qed.

Lemma webpage_content_result_witness :
  exists out,
    fst (WebPage.get_webpage_content Examples2.offline (fun html => Normal html)
           "https://example.com/opus" 5000 Examples.fresh) = Normal out /\
    (Z.of_nat (String.length out) <= 5000 \/
     exists e, out = WebPage.could_not_retrieve "https://example.com/opus" e /\
       Effects.cache (snd (WebPage.get_webpage_content Examples2.offline
                             (fun html => Normal html) "https://example.com/opus" 5000
                             Examples.fresh))
       = Effects.cache (Examples.fresh (C := WebPage.Entry))).
Proof.
  apply (webpage_content_result Examples2.offline (fun html => Normal html)
           "https://example.com/opus" 5000 Examples.fresh).
  lia.
Defined.

(** ** The HTTP routes once more *)

(** X14.  A route whose statements stand in its own [try] answers with
    status 200 or 500 and no other, also when a service raises an
    [HTTPException] that carries another status. *)
Theorem guarded_routes_answer_200_or_500 (sv : Api.Services) (ep : Api.Endpoint) :
  Api.in_try ep = true ->
  Api.status_code (Api.handle sv ep) = 200 \/ Api.status_code (Api.handle sv ep) = 500.
Proof.
  intros Htry. unfold Api.handle.
  destruct ep; try discriminate; cbn;
    [unfold Api.chat | unfold Api.get_weather | unfold Api.upload_documents
     | unfold Api.search_web];
    match goal with
    | |- context [try_except ?b _] => destruct b as [v | e]; cbn; auto
    end.
Qed.

Lemma guarded_routes_answer_200_or_500_witness :
  Api.status_code
    (Api.handle Examples2.weather_not_found (Api.GET_api_weather "Atlantis")) = 200
  \/ Api.status_code
       (Api.handle Examples2.weather_not_found (Api.GET_api_weather "Atlantis")) = 500.
Proof.
  apply (guarded_routes_answer_200_or_500 Examples2.weather_not_found
           (Api.GET_api_weather "Atlantis")).
  reflexivity.
Defined.

Example weather_not_found_is_500 :
  Api.handle Examples2.weather_not_found (Api.GET_api_weather "Atlantis")
  = Api.mk_JSONResponse 500 (PDict [("detail", PStr "404: city not found")]).
Proof. reflexivity. Qed.

(** ** [DocumentRetriever] *)

Module RetrieverFacts.
Import Retriever Props2.

Lemma load_loop_spec lib exts : forall loaded_docs s,
  load_loop lib exts loaded_docs s
  = (Normal (loaded_docs
             ++ concat (imap (fun k ext => loaded_at lib (length (calls s) + k) ext) exts)),
     mk_State (documents s) (vector_store s) (calls s ++ (DirectoryLoad <$> exts))).
Proof.
  induction exts as [| ext rest IH]; intros loaded_docs s.
  - cbn. rewrite !app_nil_r. by destruct s.
  - set (s' := mk_State (documents s) (vector_store s) (calls s ++ [DirectoryLoad ext])).
    assert (Hstep : load_loop lib (ext :: rest) loaded_docs s
                    = load_loop lib rest
                        (loaded_docs ++ loaded_at lib (length (calls s)) ext) s').
    { cbn [load_loop]. unfold bind at 1, try_catch, bind at 1, call, loaded_at.
      destruct (directory_load lib (length (calls s)) ext) as [docs | e]; cbn [ret].
      - reflexivity.
      - by rewrite app_nil_r. }
    rewrite Hstep, IH. subst s'. cbn [documents vector_store calls].
    f_equal.
    + f_equal. rewrite <- app_assoc. f_equal.
      change (imap ?f (ext :: rest)) with (f 0%nat ext :: imap (f ∘ S) rest).
      cbn [concat]. rewrite Nat.add_0_r. f_equal. f_equal.
      apply imap_ext. intros k x _. cbn. f_equal. rewrite length_app. cbn. lia.
    + f_equal. by rewrite <- app_assoc.
Qed.

(** [load_documents] never raises: it returns what the loaders that
    answered found, and keeps it in [self.documents]. *)
Lemma load_documents_spec lib s :
  load_documents lib s
  = (Normal (concat (imap (fun k ext => loaded_at lib (length (calls s) + k) ext) extensions)),
     mk_State (concat (imap (fun k ext => loaded_at lib (length (calls s) + k) ext) extensions))
       (vector_store s) (calls s ++ (DirectoryLoad <$> extensions))).
Proof.
  unfold load_documents. unfold bind at 1. rewrite load_loop_spec. reflexivity.
Qed.

End RetrieverFacts.

Module RetrieverFacts2.
Import Retriever Props2.

Lemma elem_of_concat {A} (x : A) (ls : list (list A)) :
  x ∈ concat ls <-> exists l, l ∈ ls /\ x ∈ l.
Proof.
  rewrite list_elem_of_In, in_concat. split; intros (l & H1 & H2); exists l;
    by rewrite ?list_elem_of_In in *.
Qed.

(** A document is loaded exactly when a loader that answered found it. *)
Lemma elem_of_loaded lib base exts d :
  d ∈ concat (imap (fun k ext => loaded_at lib (base + k) ext) exts) <->
  exists k ext found, exts !! k = Some ext /\
    directory_load lib (base + k) ext = Normal found /\ d ∈ found.
Proof.
  rewrite elem_of_concat. split.
  - intros (l & Hl & Hd). apply elem_of_lookup_imap in Hl as (k & ext & -> & Hk).
    unfold loaded_at in Hd.
    destruct (directory_load lib (base + k) ext) as [found | e] eqn:E.
    + by exists k, ext, found.
    + by apply not_elem_of_nil in Hd.
  - intros (k & ext & found & Hk & Hload & Hd).
    exists (loaded_at lib (base + k) ext). split.
    + by apply elem_of_lookup_imap_2 with (f := fun k ext => loaded_at lib (base + k) ext).
    + unfold loaded_at. by rewrite Hload.
Qed.

End RetrieverFacts2.


(** X16.  With a vector store in place, [similarity_search] never raises:
    it makes the one search call on the store and returns its documents,
    or the empty list when that call raises; the store stays as it was. *)
Theorem similarity_search_with_store (lib : Retriever.Lib) (query : string) (k : Z)
    (s : Retriever.State) (store : Retriever.Store) :
  Retriever.vector_store s = Some store ->
  Retriever.similarity_search lib query k s
  = (Normal (match Retriever.store_search lib (length (Retriever.calls s)) store query k with
             | Normal docs => docs
             | Raise _ => []
             end),
     Retriever.mk_State (Retriever.documents s) (Some store)
       (Retriever.calls s ++ [Retriever.StoreSearch query k])).
Proof.
  intros Hstore.
  unfold Retriever.similarity_search, Retriever.bind, Retriever.get_vector_store,
    Retriever.try_catch, Retriever.search_store, Retriever.bind, Retriever.get_vector_store,
    Retriever.call, Retriever.ret.
  rewrite Hstore. cbn. rewrite Hstore. cbn. rewrite Hstore.
  by destruct (Retriever.store_search lib _ store query k).
Qed.

Lemma similarity_search_with_store_witness :
  Retriever.similarity_search Examples2.broken_index "pairing" 3 Examples2.indexed
  = (Normal [],
     Retriever.mk_State [] (Some [Examples2.wine_note])
       [Retriever.StoreSearch "pairing" 3]).
Proof.
  apply (similarity_search_with_store Examples2.broken_index "pairing" 3 Examples2.indexed
           [Examples2.wine_note]).
  reflexivity.
Defined.

(** X17.  On a cold start with a saved index, [similarity_search] loads
    the index and searches it: it reads no directory and builds no store,
    and the loaded store stays in [self.vector_store]. *)
Theorem similarity_search_loads_saved_index (lib : Retriever.Lib) (query : string) (k : Z)
    (s : Retriever.State) (store : Retriever.Store) :
  Retriever.vector_store s = None ->
  Retriever.load_local lib (length (Retriever.calls s)) Retriever.default_path
  = Normal store ->
  exists docs,
    Retriever.similarity_search lib query k s
    = (Normal docs,
       Retriever.mk_State (Retriever.documents s) (Some store)
         (Retriever.calls s
          ++ [Retriever.LoadLocal Retriever.default_path; Retriever.StoreSearch query k])).
Proof.
  intros Hnone Hload.
  unfold Retriever.similarity_search, Retriever.bind, Retriever.get_vector_store,
    Retriever.load_vector_store, Retriever.try_catch, Retriever.search_store,
    Retriever.bind, Retriever.get_vector_store, Retriever.call, Retriever.set_vector_store,
    Retriever.ret.
  rewrite Hnone, Hload. cbn. rewrite <- app_assoc. cbn.
  destruct (Retriever.store_search lib _ store query k); by eexists.
Qed.

Lemma similarity_search_loads_saved_index_witness :
  exists docs,
    Retriever.similarity_search Examples2.saved_index "pairing" 3 Examples2.cold
    = (Normal docs,
       Retriever.mk_State [] (Some [Examples2.wine_note])
         ([] ++ [Retriever.LoadLocal Retriever.default_path;
                 Retriever.StoreSearch "pairing" 3])).
Proof.
  apply (similarity_search_loads_saved_index Examples2.saved_index "pairing" 3
           Examples2.cold [Examples2.wine_note]).
  - reflexivity.
  - reflexivity.
Defined.

(** X18.  On a cold start without a saved index, an exception raised
    while the store is built leaves [similarity_search]: its [try] covers
    the search only, so the empty list is not what the caller gets. *)
Theorem similarity_search_build_failure_escapes (lib : Retriever.Lib) (query : string)
    (k : Z) (s s1 : Retriever.State) (e e' : PyExc) :
  Retriever.vector_store s = None ->
  Retriever.load_local lib (length (Retriever.calls s)) Retriever.default_path = Raise e ->
  Retriever.create_vector_store lib None
    (Retriever.mk_State (Retriever.documents s) None
       (Retriever.calls s ++ [Retriever.LoadLocal Retriever.default_path]))
  = (Raise e', s1) ->
  Retriever.similarity_search lib query k s = (Raise e', s1).
Proof.
  intros Hnone Hload Hbuild.
  unfold Retriever.similarity_search. unfold Retriever.bind at 1.
  unfold Retriever.get_vector_store at 1. rewrite Hnone.
  unfold Retriever.bind at 1. unfold Retriever.bind at 1.
  unfold Retriever.load_vector_store, Retriever.try_catch, Retriever.bind at 1,
    Retriever.call.
  rewrite Hload. cbn [Retriever.ret]. rewrite Hnone. by rewrite Hbuild.
Qed.

Lemma similarity_search_build_failure_escapes_witness :
  fst (Retriever.similarity_search Examples2.empty_directory "pairing" 3 Examples2.cold)
  = Raise (Exc IndexError "list index out of range").
Proof.
  rewrite (similarity_search_build_failure_escapes Examples2.empty_directory "pairing" 3
             Examples2.cold
             (snd (Retriever.similarity_search Examples2.empty_directory "pairing" 3
                     Examples2.cold))
             (Exc OtherException "no such file")
             (Exc IndexError "list index out of range")).
  - reflexivity.
  - reflexivity.
  - reflexivity.
  - vm_compute. reflexivity.
Defined.

(** X19.  When no loader finds a document (each returns none or raises),
    the upload route returns [document_count] 0 without raising: it has
    only asked the seven loaders, built no store and saved nothing. *)
Theorem upload_empty_directory (lib : Retriever.Lib) (s : Retriever.State) :
  (forall k ext found,
     Retriever.extensions !! k = Some ext ->
     Retriever.directory_load lib (length (Retriever.calls s) + k) ext = Normal found ->
     found = []) ->
  Retriever.upload_documents lib s
  = (Normal (PDict [("message", PStr "No documents found in the data directory");
                    ("document_count", PInt 0)]),
     Retriever.mk_State [] (Retriever.vector_store s)
       (Retriever.calls s ++ (Retriever.DirectoryLoad <$> Retriever.extensions))).
Proof.
  intros Hempty.
  pose proof (RetrieverFacts.load_documents_spec lib s) as Hload.
  pose proof (fun d => RetrieverFacts2.elem_of_loaded lib (length (Retriever.calls s))
                         Retriever.extensions d) as Hdocs.
  destruct (concat _) as [| d docs] eqn:Hnone in Hload, Hdocs.
  2: { destruct (proj1 (Hdocs d)) as (k & ext & found & Hk & Hfound & Hd); [left |].
       rewrite (Hempty k ext found Hk Hfound) in Hd. by apply not_elem_of_nil in Hd. }
  unfold Retriever.upload_documents, Retriever.try_catch. unfold Retriever.bind at 1.
  by rewrite Hload.
Qed.

Lemma upload_empty_directory_witness :
  Retriever.upload_documents Examples2.empty_directory Examples2.cold
  = (Normal (PDict [("message", PStr "No documents found in the data directory");
                    ("document_count", PInt 0)]),
     Retriever.mk_State [] None ([] ++ (Retriever.DirectoryLoad <$> Retriever.extensions))).
Proof.
  apply (upload_empty_directory Examples2.empty_directory Examples2.cold).
  intros k ext found _. cbn. destruct (bool_decide _); [discriminate | by intros [= <-]].
Defined.

(** ** The nodes of the agent *)

(** X20.  Each of the three tool nodes returns a state and never raises,
    whatever its service does: the messages are those it received and
    [current_tool] names the node. *)
Theorem tool_nodes_never_raise (w : Effects.World) (lib : Retriever.Lib)
    (weather_service : Weather.WeatherService) (web_searcher : WebSearch.WebSearcher)
    (state : AgentNodes.NodeState) :
  (forall s, exists out,
     fst (AgentNodes._get_weather w weather_service state s) = Normal out /\
     Agent.messages out = Agent.messages (AgentNodes.declared state) /\
     Agent.current_tool out = Some "weather") /\
  (forall s, exists out,
     fst (AgentNodes._perform_web_search w web_searcher state s) = Normal out /\
     Agent.messages out = Agent.messages (AgentNodes.declared state) /\
     Agent.current_tool out = Some "web_search") /\
  (forall s, exists out,
     fst (AgentNodes._retrieve_documents lib state s) = Normal out /\
     Agent.messages out = Agent.messages (AgentNodes.declared state) /\
     Agent.current_tool out = Some "document_retrieval").
Proof.
  split; [| split]; intros s.
  - unfold AgentNodes._get_weather, Effects.try_catch, Effects.bind, Effects.lift, Effects.ret.
    destruct (AgentNodes.get_tool_input state) as [input | e]; cbn -[Weather.get_weather_summary];
      [| eexists; cbn; repeat split; reflexivity].
    destruct (Weather.get_weather_summary w weather_service _ s) as [[summary | e] s'];
      eexists; cbn; repeat split; reflexivity.
  - unfold AgentNodes._perform_web_search, Effects.try_catch, Effects.bind, Effects.lift,
      Effects.ret.
    destruct (AgentNodes.get_tool_input state) as [query | e]; cbn -[WebSearch.search];
      [| eexists; cbn; repeat split; reflexivity].
    destruct (WebSearch.search w web_searcher query 3 true s) as [[results | e] s'];
      eexists; cbn; repeat split; reflexivity.
  - unfold AgentNodes._retrieve_documents, Retriever.try_catch, Retriever.bind, Retriever.ret,
      Retriever.raise.
    destruct (AgentNodes.get_tool_input state) as [query | e];
      cbn -[Retriever.similarity_search]; [| eexists; cbn; repeat split; reflexivity].
    destruct (Retriever.similarity_search lib query 3 s) as [[docs | e] s']; eexists; cbn; repeat split; reflexivity.
Qed.

(** X21.  A state without the key [tool_input] (the declared [AgentState]
    has none) makes each tool node return its error context at once: no
    request is sent, no clock is read, no library is called, and the
    services are left as they were. *)
Theorem tool_nodes_without_input (w : Effects.World) (lib : Retriever.Lib)
    (weather_service : Weather.WeatherService) (web_searcher : WebSearch.WebSearcher)
    (state : AgentNodes.NodeState) :
  AgentNodes.tool_input state = None ->
  (forall s,
     AgentNodes._get_weather w weather_service state s
     = (Normal (Agent.mk_AgentState (Agent.messages (AgentNodes.declared state))
                  "Error getting weather information. Please try again."
                  (Some "weather") (Some "Error getting weather information.")), s)) /\
  (forall s,
     AgentNodes._perform_web_search w web_searcher state s
     = (Normal (Agent.mk_AgentState (Agent.messages (AgentNodes.declared state))
                  "Error performing web search. Please try again."
                  (Some "web_search") (Some "Error performing web search.")), s)) /\
  (forall s,
     AgentNodes._retrieve_documents lib state s
     = (Normal (Agent.mk_AgentState (Agent.messages (AgentNodes.declared state))
                  "Error retrieving documents. Please try again."
                  (Some "document_retrieval") (Some "Error retrieving documents.")), s)).
Proof.
  intros Hnone. split; [| split]; intros s.
  - unfold AgentNodes._get_weather, Effects.try_catch, Effects.bind, Effects.lift,
      AgentNodes.get_tool_input.
    by rewrite Hnone.
  - unfold AgentNodes._perform_web_search, Effects.try_catch, Effects.bind, Effects.lift,
      AgentNodes.get_tool_input.
    by rewrite Hnone.
  - unfold AgentNodes._retrieve_documents, Retriever.try_catch, Retriever.bind,
      AgentNodes.get_tool_input.
    by rewrite Hnone.
Qed.

Lemma tool_nodes_without_input_witness :
  AgentNodes._get_weather (Examples.online (PInt 85)) Examples.service
    (AgentNodes.mk_NodeState
       (Agent.mk_AgentState [Agent.mk_Message Agent.human "Weather in Napa?"] "" None None)
       None)
    Examples.fresh
  = (Normal (Agent.mk_AgentState [Agent.mk_Message Agent.human "Weather in Napa?"]
               "Error getting weather information. Please try again."
               (Some "weather") (Some "Error getting weather information.")),
     Examples.fresh).
Proof.
  refine (proj1 (tool_nodes_without_input (Examples.online (PInt 85)) Examples2.no_library
            Examples.service Examples.with_keys
            (AgentNodes.mk_NodeState
               (Agent.mk_AgentState [Agent.mk_Message Agent.human "Weather in Napa?"]
                  "" None None)
               None) _) Examples.fresh).
  reflexivity.
Defined.

(** X22.  When the weather node is given a location and the lookup
    succeeds, the context it hands to the response node ends with the
    wine advice of the temperature's band. *)
Theorem weather_node_context_has_advice (w : Effects.World)
    (weather_service : Weather.WeatherService) (state : AgentNodes.NodeState)
    (location : string) (s s1 : Effects.St Weather.CacheEntry) (info : Weather.WeatherInfo) :
  AgentNodes.tool_input state = Some location ->
  location <> "" ->
  Weather.get_weather w weather_service location s = (Normal (Weather.Info info), s1) ->
  exists out text advice,
    AgentNodes._get_weather w weather_service state s = (Normal out, s1) /\
    Agent.context out = text +:+ advice /\
    Agent.tool_result out = Some (text +:+ advice) /\
    (80 < Weather.temperature info -> advice = Weather.advice_warm) /\
    (Weather.temperature info < 50 -> advice = Weather.advice_chilly) /\
    (50 <= Weather.temperature info <= 80 -> advice = Weather.advice_pleasant).
Proof.
  intros Hinput Hne Hcall.
  destruct (SummaryFacts.summary_text_advice w info) as (text & advice & Htext & Hbands).
  eexists _, text, advice.
  unfold AgentNodes._get_weather, Effects.try_catch, Effects.bind, Effects.lift,
    AgentNodes.get_tool_input.
  rewrite Hinput. cbn [truthy]. rewrite bool_decide_eq_false_2 by done. cbn [negb].
  unfold Weather.get_weather_summary, Effects.bind. rewrite Hcall. cbn.
  rewrite Htext. repeat split; apply Hbands.
Qed.

Lemma weather_node_context_has_advice_witness :
  exists out text advice,
    AgentNodes._get_weather (Examples.online (PInt 85)) Examples.service
      (AgentNodes.mk_NodeState (Agent.mk_AgentState [] "" None None) (Some "Napa,CA,US"))
      Examples.fresh
    = (Normal out,
       snd (Weather.get_weather (Examples.online (PInt 85)) Examples.service "Napa,CA,US"
              Examples.fresh)) /\
    Agent.context out = text +:+ advice /\
    Agent.tool_result out = Some (text +:+ advice) /\
    (80 < 85 -> advice = Weather.advice_warm) /\
    (85 < 50 -> advice = Weather.advice_chilly) /\
    (50 <= 85 <= 80 -> advice = Weather.advice_pleasant).
Proof.
  apply (weather_node_context_has_advice (Examples.online (PInt 85)) Examples.service
           (AgentNodes.mk_NodeState (Agent.mk_AgentState [] "" None None) (Some "Napa,CA,US"))
           "Napa,CA,US" Examples.fresh
           (snd (Weather.get_weather (Examples.online (PInt 85)) Examples.service
                   "Napa,CA,US" Examples.fresh))
           (Examples.napa_info 85)).
  - reflexivity.
  - discriminate.
  - vm_compute. reflexivity.
Defined.

(** X23.  [_respond] never raises and extends the conversation by exactly
    one assistant message: the first text the model generated, or the
    fixed apology when the call fails or generates nothing.  The earlier
    messages and the context stay, the tool fields are cleared. *)
Theorem respond_appends_one_message
    (agenerate : list (string * string) -> result (list (list string)))
    (state : Agent.AgentState) :
  exists text,
    AgentNodes._respond agenerate state
    = Normal (Agent.mk_AgentState
                (Agent.messages state ++ [Agent.mk_Message Agent.ai text])
                (Agent.context state) None None) /\
    match agenerate (AgentNodes.respond_prompt state) with
    | Normal ((generated :: _) :: _) => text = generated
    | _ => text = AgentNodes.apology
    end.
Proof.
  unfold AgentNodes._respond, try_except, rbind.
  destruct (agenerate (AgentNodes.respond_prompt state)) as [[| [| generated rest] others] | e];
    cbn; by eexists.
Qed.

(** [process_message] always returns. *)
Lemma AgentNodes_process_message_total (ainvoke : Agent.AgentState -> result Agent.AgentState)
    (message : string) (conversation_history : list (string * string)) :
  exists body,
    fst (AgentNodes.process_message ainvoke message conversation_history) = Normal body.
Proof.
  unfold AgentNodes.process_message, try_except, rbind, Agent.last_item. cbn [fst].
  destruct (ainvoke _) as [result | e]; [| by eexists].
  destruct (last (Agent.messages result)); by eexists.
Qed.

(** X24.  [process_message] never raises and invokes the workflow once,
    on the state whose messages are the history in its order (an entry
    of role [user] as a human message, any other as an assistant
    message, each with its content) followed by the new user message,
    with an empty context and no tool.  Its result always has a
    [response] string, which is the apology together with the text of
    the exception when the workflow raises or returns no message. *)
Theorem process_message_always_responds (ainvoke : Agent.AgentState -> result Agent.AgentState)
    (message : string) (conversation_history : list (string * string)) :
  exists state text rest,
    AgentNodes.process_message ainvoke message conversation_history
    = (Normal (PDict (("response", PStr text) :: rest)), [state]) /\
    state = Agent.mk_AgentState
              (map (fun entry =>
                      Agent.mk_Message
                        (if bool_decide (fst entry = "user") then Agent.human else Agent.ai)
                        (snd entry))
                   conversation_history
               ++ [Agent.mk_Message Agent.human message])
              "" None None /\
    length (Agent.messages state) = S (length conversation_history) /\
    last (Agent.messages state) = Some (Agent.mk_Message Agent.human message) /\
    match ainvoke state with
    | Normal result =>
        match last (Agent.messages result) with
        | Some reply => text = Agent.content reply
        | None =>
            text = AgentNodes.processing_apology /\
            rest = [("error", PStr "list index out of range")]
        end
    | Raise e =>
        text = AgentNodes.processing_apology /\ rest = [("error", PStr (str_exc e))]
    end.
Proof.
  unfold AgentNodes.process_message.
  set (state := Agent.mk_AgentState _ "" None None).
  exists state.
  assert (Hstate : state = Agent.mk_AgentState
                     (map (fun entry =>
                             Agent.mk_Message
                               (if bool_decide (fst entry = "user")
                                then Agent.human else Agent.ai)
                               (snd entry))
                          conversation_history
                      ++ [Agent.mk_Message Agent.human message])
                     "" None None).
  { unfold state, AgentNodes.history_messages. f_equal. f_equal.
    apply list_fmap_ext. intros i entry _. cbn. by case_bool_decide. }
  assert (Hlen : length (Agent.messages state) = S (length conversation_history)).
  { unfold state, AgentNodes.history_messages. cbn [Agent.messages].
    rewrite length_app, length_fmap. cbn. lia. }
  assert (Hlast : last (Agent.messages state) = Some (Agent.mk_Message Agent.human message))
    by (unfold state; cbn [Agent.messages]; apply last_snoc).
  unfold try_except, rbind, Agent.last_item.
  destruct (ainvoke state) as [result | e]; cbn.
  - destruct (last (Agent.messages result)) as [reply |]; cbn; by eexists _, _.
  - by eexists _, _.
Qed.

(** ** The chat route on the agent *)

(** X25.  With the agent of [src/agent.py] behind it, [POST /api/chat]
    answers 200 to every request that has a message, also when the
    workflow raises: the workflow is given as many messages as the
    request has, with the same contents in the same order. *)
Theorem chat_on_agent_is_200 (sv : Api.Services)
    (ainvoke : Agent.AgentState -> result Agent.AgentState) (chat_request : Api.ChatRequest) :
  Api.process_message sv = (fun message history =>
                              fst (AgentNodes.process_message ainvoke message history)) ->
  Api.messages chat_request <> [] ->
  exists body message history state,
    Api.chat sv chat_request = Normal body /\
    snd (AgentNodes.process_message ainvoke message history) = [state] /\
    Api.process_message sv message history = Normal body /\
    Agent.content <$> Agent.messages state = Api.content <$> Api.messages chat_request.
Proof.
  intros Hagent Hne.
  destruct (exists_last Hne) as (earlier & final & Hsplit).
  destruct (AgentNodes_process_message_total ainvoke (Api.content final)
              ((fun msg => (Api.role msg, Api.content msg)) <$> earlier))
    as (body & Hbody).
  exists body, (Api.content final),
    ((fun msg => (Api.role msg, Api.content msg)) <$> earlier).
  eexists.
  split.
  { unfold Api.chat, Api.chat_body, Agent.last_item.
    rewrite Hsplit, removelast_last, last_snoc. cbn [rbind try_except].
    by rewrite Hagent, Hbody. }
  split; [reflexivity |].
  split; [by rewrite Hagent |].
  rewrite Hsplit.
  cbn [Agent.messages]. unfold AgentNodes.history_messages.
  rewrite !fmap_app, <- !list_fmap_compose. cbn.
  f_equal. apply list_fmap_ext. intros i msg _. cbn. by case_bool_decide.
Qed.

Lemma chat_on_agent_is_200_witness :
  exists body message history state,
    Api.chat Examples2.agent_services
      (Api.mk_ChatRequest [Api.mk_Message "user" "Which wine goes with salmon?"] None)
    = Normal body /\
    snd (AgentNodes.process_message Examples2.failing_workflow message history) = [state] /\
    Api.process_message Examples2.agent_services message history = Normal body /\
    Agent.content <$> Agent.messages state = ["Which wine goes with salmon?"].
Proof.
  apply (chat_on_agent_is_200 Examples2.agent_services Examples2.failing_workflow
           (Api.mk_ChatRequest [Api.mk_Message "user" "Which wine goes with salmon?"] None)).
  - reflexivity.
  - discriminate.
Defined.

(** ** The free agent *)

Module FreeAgentFacts.
Import Effects FreeAgent.

(** A raising body makes the whole comprehension raise. *)
Lemma mapR_raises {A B} (f : A -> result B) (l : list A) (x : A) (e : PyExc) :
  x ∈ l -> f x = Raise e -> exists e', mapR f l = Raise e'.
Proof.
  induction l as [| y l IH]; intros Hin Hx; [by apply elem_of_nil in Hin |].
  apply elem_of_cons in Hin as [<- | Hin]; cbn.
  - rewrite Hx. by eexists.
  - destruct (f y) as [b | e0]; cbn; [| by eexists].
    destruct (IH Hin Hx) as (e' & ->). by eexists.
Qed.

Lemma mapR_Forall2 {A B} (f : A -> result B) (l : list A) (ys : list B) :
  mapR f l = Normal ys <-> Forall2 (fun x y => f x = Normal y) l ys.
Proof.
  revert ys. induction l as [| x l IH]; intros ys; cbn.
  - split; [intros [= <-]; constructor | by intros ->%Forall2_nil_inv_l].
  - split.
    + destruct (f x) as [y | e] eqn:Hx; cbn; [| discriminate].
      destruct (mapR f l) as [ys' | e] eqn:Hl; cbn; [| discriminate].
      intros [= <-]. constructor; [done | by apply IH].
    + intros (y & ys' & Hx & Hl & ->)%Forall2_cons_inv_l.
      rewrite Hx. cbn. apply IH in Hl. by rewrite Hl.
Qed.

(** Every item of [search_web] is built from a hit of the search. *)
Lemma search_web_items (env : Env) (query : string) (max_results : Z) :
  search_web env query max_results = [] \/
  exists hits, search_text env query max_results = Normal hits /\
               Forall2 Props2.item_of hits (search_web env query max_results).
Proof.
  unfold search_web.
  destruct (search_text env query max_results) as [hits | e]; cbn; [| by left].
  destruct (mapR search_item hits) as [items | e] eqn:Hitems; [| by left].
  right. exists hits. split; [done |].
  apply mapR_Forall2 in Hitems. eapply Forall2_impl; [exact Hitems |].
  intros hit item. unfold search_item, Props2.item_of, rbind.
  destruct (getitem hit "title") as [t | e]; [| discriminate].
  destruct (getitem hit "href") as [h | e]; [| discriminate].
  destruct (getitem hit "body") as [b | e]; [| discriminate].
  intros [= <-]. by eexists _, _, _.
Qed.

(** The three keys of an item can be read. *)
Lemma search_web_keys (env : Env) (query : string) (max_results : Z) :
  Forall (fun item => exists t h b, item = PDict [("title", t); ("link", h); ("snippet", b)])
    (search_web env query max_results).
Proof.
  destruct (search_web_items env query max_results) as [-> | (hits & _ & Hitems)];
    [constructor |].
  induction Hitems as [| hit item hits items (t & h & b & _ & _ & _ & ->) _ IH];
    constructor; [by eexists _, _, _ | exact IH].
Qed.

Lemma mapR_total {A B} (f : A -> result B) (l : list A) :
  Forall (fun x => exists y, f x = Normal y) l -> exists ys, mapR f l = Normal ys.
Proof.
  induction 1 as [| x l (y & Hx) _ (ys & IH)]; cbn; [by eexists |].
  rewrite Hx, IH. by eexists.
Qed.

End FreeAgentFacts.

(** X26.  [get_wine_recommendation] never raises, whatever the search and
    the model do, and gives the model exactly one prompt.  Its sources
    are the links of the first three items of the search, so at most
    three. *)
Theorem wine_recommendation_never_raises (env : FreeAgent.Env) (query : string)
    (prompts : list string) :
  exists text prompt sources,
    FreeAgent.get_wine_recommendation env query prompts
    = (Normal (PDict [("recommendation", PStr text); ("sources", PList sources)]),
       prompts ++ [prompt]) /\
    (length sources <= 3)%nat /\
    Forall2 (fun item source => getitem item "link" = Normal source)
      (take 3 (FreeAgent.search_web env ("wine recommendation " +:+ query) 5)) sources.
Proof.
  unfold FreeAgent.get_wine_recommendation.
  pose proof (FreeAgentFacts.search_web_keys env ("wine recommendation " +:+ query) 5) as Hkeys.
  set (search_results := FreeAgent.search_web env _ 5) in *.
  destruct (FreeAgentFacts.mapR_total (FreeAgent.result_line env) search_results) as (lines & ->).
  { eapply Forall_impl; [exact Hkeys |]. intros item (t & h & b & ->). by eexists. }
  destruct (FreeAgentFacts.mapR_total (fun r => getitem r "link") (take 3 search_results))
    as (sources & Hsources).
  { apply Forall_take. eapply Forall_impl; [exact Hkeys |].
    intros item (t & h & b & ->). by eexists. }
  unfold FreeAgent.generate_response. rewrite Hsources.
  eexists _, _, sources. split; [reflexivity |].
  split.
  - apply WebSearchFacts3.mapR_length in Hsources. rewrite Hsources, length_take. lia.
  - by apply FreeAgentFacts.mapR_Forall2.
Qed.

(** X27.  One hit of the search without [href] (or [title], or [body])
    loses all hits: [search_web] returns the empty list, and the
    recommendation has no sources. *)
Theorem one_bad_hit_loses_all (env : FreeAgent.Env) (query : string) (max_results : Z)
    (hits : list PyVal) (hit : PyVal) (key : string) (e : PyExc) :
  FreeAgent.search_text env query max_results = Normal hits ->
  hit ∈ hits ->
  key ∈ ["title"; "href"; "body"] ->
  getitem hit key = Raise e ->
  FreeAgent.search_web env query max_results = [].
Proof.
  intros Hhits Hin Hkey Hmissing.
  unfold FreeAgent.search_web. rewrite Hhits. cbn [rbind].
  destruct (FreeAgentFacts.mapR_raises FreeAgent.search_item hits hit) with
    (e := match getitem hit "title" with
          | Raise e1 => e1
          | Normal _ => match getitem hit "href" with
                        | Raise e2 => e2
                        | Normal _ => e
                        end
          end) as (e' & ->); [done | | done].
  unfold FreeAgent.search_item, rbind.
  destruct (getitem hit "title") as [t | e1] eqn:Ht; [| done].
  destruct (getitem hit "href") as [h | e2] eqn:Hh; [| done].
  destruct (getitem hit "body") as [b | e3] eqn:Hb.
  - repeat (apply elem_of_cons in Hkey as [-> | Hkey]; [congruence |]).
    by apply elem_of_nil in Hkey.
  - repeat (apply elem_of_cons in Hkey as [-> | Hkey]; [congruence |]).
    by apply elem_of_nil in Hkey.
Qed.

Lemma one_bad_hit_loses_all_witness :
  FreeAgent.search_web
    (Examples2.free_env (Normal [Examples2.ddg_hit; Examples2.hit_without_href]))
    "wine recommendation salmon" 5 = [].
Proof.
  apply (one_bad_hit_loses_all
           (Examples2.free_env (Normal [Examples2.ddg_hit; Examples2.hit_without_href]))
           "wine recommendation salmon" 5
           [Examples2.ddg_hit; Examples2.hit_without_href] Examples2.hit_without_href
           "href" (Exc KeyError "'href'")).
  - reflexivity.
  - apply list_elem_of_In. cbn. right. left. reflexivity.
  - apply list_elem_of_In. cbn. right. left. reflexivity.
  - reflexivity.
Defined.

(** X28.  When the search raises, [POST /api/recommend] of the free API
    still returns a recommendation: the model is given the prompt with
    an empty list of search results, and the sources are empty. *)
Theorem recommendation_without_search (env : FreeAgent.Env) (query : string)
    (max_results : option Z) (prompts : list string) (e : PyExc) :
  FreeAgent.search_text env ("wine recommendation " +:+ query) 5 = Raise e ->
  exists text,
    FreeAgent.get_recommendation env query max_results prompts
    = (Normal (PDict [("recommendation", PStr text); ("sources", PList [])]),
       prompts ++ [FreeAgent.prompt_head +:+ query +:+ FreeAgent.prompt_middle
                   +:+ FreeAgent.prompt_tail]).
Proof.
  intros Hdown.
  unfold FreeAgent.get_recommendation, FreeAgent.get_wine_recommendation, FreeAgent.search_web.
  rewrite Hdown. cbn. by eexists.
Qed.

Lemma recommendation_without_search_witness :
  exists text,
    FreeAgent.get_recommendation
      (Examples2.free_env (Raise (Exc OtherException "rate limited"))) "salmon" (Some 2) []
    = (Normal (PDict [("recommendation", PStr text); ("sources", PList [])]),
       [] ++ [FreeAgent.prompt_head +:+ "salmon" +:+ FreeAgent.prompt_middle
              +:+ FreeAgent.prompt_tail]).
Proof.
  apply (recommendation_without_search
           (Examples2.free_env (Raise (Exc OtherException "rate limited"))) "salmon" (Some 2) []
           (Exc OtherException "rate limited")).
  reflexivity.
Defined.

(** ** Importing [src/rate_limiter.py] *)

(** X29.  The statements of the module never run to the end: the table
    [RATE_LIMITS] has no key [generous].  When the five settings can be
    read and the limiter is built, the import raises
    [KeyError: 'generous']. *)
Theorem rate_limiter_import_raises (settings : RateLimiter.Settings)
    (make_limiter : PyVal -> PyVal -> result unit) :
  (forall namespace, RateLimiter.import_module settings make_limiter <> Normal namespace) /\
  (forall limit uri strict public auth,
     RateLimiter.RATE_LIMIT settings = Normal limit ->
     RateLimiter.RATE_LIMIT_STORAGE_URI settings = Normal uri ->
     RateLimiter.RATE_LIMIT_STRICT settings = Normal strict ->
     RateLimiter.RATE_LIMIT_PUBLIC settings = Normal public ->
     RateLimiter.RATE_LIMIT_AUTH settings = Normal auth ->
     make_limiter limit uri = Normal tt ->
     RateLimiter.import_module settings make_limiter = Raise (Exc KeyError "'generous'")).
Proof.
  split.
  - intros namespace. unfold RateLimiter.import_module, rbind.
    destruct (RateLimiter.RATE_LIMIT settings) as [limit | e]; [| done].
    destruct (RateLimiter.RATE_LIMIT_STORAGE_URI settings) as [uri | e]; [| done].
    destruct (make_limiter limit uri) as [[] | e]; [| done].
    destruct (RateLimiter.RATE_LIMIT_STRICT settings) as [strict | e]; [| done].
    destruct (RateLimiter.RATE_LIMIT_PUBLIC settings) as [public | e]; [| done].
    by destruct (RateLimiter.RATE_LIMIT_AUTH settings) as [auth | e].
  - intros limit uri strict public auth Hlimit Huri Hstrict Hpublic Hauth Hlimiter.
    unfold RateLimiter.import_module.
    rewrite Hlimit, Huri. cbn [rbind]. rewrite Hlimiter. cbn [rbind].
    by rewrite Hstrict, Hpublic, Hauth.
Qed.
